(** * Similarity graph of phaseIII: [graph.py] and [loader.py]

    A shallow embedding of the [Graph] class of [project/phaseIII/graph.py]
    and of [Loader.make_graphs] of [project/phaseIII/loader.py], with the
    parts of Python, pandas and igraph these two files rely on.

    Conventions.
    - A Python value used as a vertex name or as a cluster label is a
      [pyval]; similarity weights are rationals ([Q]): the code only
      stores, copies and compares them.
    - A method that mutates [self] is a function [t -> result A * t]: the
      state that comes back with [Raise e] is the state the Python object
      is left in when the exception propagates.
    - An igraph [Vertex] or [Edge] object is an index into the graph it
      was taken from, as in igraph. *)

From Stdlib Require Import ZArith QArith Lqa List Floats Permutation Ascii.
From stdpp Require Import gmap strings sorting.
Import ListNotations.
Close Scope Q_scope.

(** ** Python: values, exceptions, dictionaries *)

Inductive pyval := PyNone | PyInt (z : Z) | PyStr (s : string).

#[global] Instance pyval_eq_dec : EqDecision pyval.
Proof. solve_decision. Defined.

Inductive exn :=
| ValueError | TypeError | KeyError | IndexError | AttributeError
| AssertionError | FileNotFoundError | UnpicklingError.

Inductive result (A : Type) := Ok (a : A) | Raise (e : exn).
Arguments Ok {A} a.
Arguments Raise {A} e.

Definition rbind {A B} (r : result A) (k : A -> result B) : result B :=
  match r with Ok a => k a | Raise e => Raise e end.

(** Computations on a mutable object of type [St]. *)
Definition M (St A : Type) : Type := St -> result A * St.

Definition ret {St A} (a : A) : M St A := fun s => (Ok a, s).
Definition raise {St A} (e : exn) : M St A := fun s => (Raise e, s).
Definition bind {St A B} (c : M St A) (k : A -> M St B) : M St B :=
  fun s => match c s with
           | (Ok a, s') => k a s'
           | (Raise e, s') => (Raise e, s')
           end.
Definition lift {St A} (f : St -> result A) : M St A := fun s => (f s, s).
Definition modify {St} (f : St -> St) : M St unit := fun s => (Ok tt, f s).

Notation "'let*' x ':=' c 'in' k" := (bind c (fun x => k))
  (at level 10, x name, c at level 100, k at level 200).

(** [for x in l: body(x)] *)
Fixpoint for_each {St A} (l : list A) (body : A -> M St unit) : M St unit :=
  match l with
  | [] => ret tt
  | x :: l' => let* _ := body x in for_each l' body
  end.

(** A list comprehension whose element expression may raise. *)
Fixpoint comprehension {A B} (f : A -> result B) (l : list A) : result (list B) :=
  match l with
  | [] => Ok []
  | x :: l' => rbind (f x) (fun y => rbind (comprehension f l') (fun ys => Ok (y :: ys)))
  end.

(** [a > b] on the objects [subgraph] compares: an [int], or the bound
    method an attribute access without call parentheses evaluates to. *)
Inductive pyobj := ObjInt (z : Z) | ObjMethod (call : unit -> Z).

Definition py_gt (a b : pyobj) : result bool :=
  match a, b with
  | ObjInt x, ObjInt y => Ok (Z.ltb y x)
  | _, _ => Raise TypeError
  end.

Definition py_call (o : pyobj) : result pyobj :=
  match o with
  | ObjMethod call => Ok (ObjInt (call tt))
  | ObjInt _ => Raise TypeError
  end.

(** [obj[key]] for the values a cluster label can be: only a [str]
    indexed by an [int] is defined. *)
Definition py_getitem (obj key : pyval) : result pyval :=
  match obj, key with
  | PyStr s, PyInt i =>
      let n := Z.of_nat (String.length s) in
      let j := (if Z.ltb i 0 then i + n else i)%Z in
      if (Z.leb 0 j && Z.ltb j n)%bool
      then match String.get (Z.to_nat j) s with
           | Some c => Ok (PyStr (String c EmptyString))
           | None => Raise IndexError
           end
      else Raise IndexError
  | _, _ => Raise TypeError
  end.

(** A [dict]: keys in insertion order, no key twice. *)
Module dict.
Section Dict.
Context {K V : Type} `{EqDecision K}.

Definition t := list (K * V).

Fixpoint get (d : t) (k : K) : option V :=
  match d with
  | [] => None
  | (k', v) :: d' => if decide (k' = k) then Some v else get d' k
  end.

Definition contains (d : t) (k : K) : bool :=
  match get d k with Some _ => true | None => false end.

(** [d[k] = v]: in place when [k] is a key, at the end otherwise. *)
Fixpoint set (d : t) (k : K) (v : V) : t :=
  match d with
  | [] => [(k, v)]
  | (k', v') :: d' =>
      if decide (k' = k) then (k', v) :: d' else (k', v') :: set d' k v
  end.

(** [d.pop(k)], the dictionary that is left. *)
Fixpoint pop (d : t) (k : K) : t :=
  match d with
  | [] => []
  | (k', v) :: d' => if decide (k' = k) then d' else (k', v) :: pop d' k
  end.

Definition keys (d : t) : list K := map fst d.
End Dict.
Arguments t : clear implicits.
End dict.

(** [l.remove(x)]: drops the first occurrence, [ValueError] without one. *)
Fixpoint list_remove `{EqDecision A} (x : A) (l : list A) : result (list A) :=
  match l with
  | [] => Raise ValueError
  | y :: l' =>
      if decide (y = x) then Ok l'
      else rbind (list_remove x l') (fun r => Ok (y :: r))
  end.

(** [x in l] *)
Definition list_in `{EqDecision A} (x : A) (l : list A) : bool :=
  bool_decide (x ∈ l).

(** Number of occurrences of [x] in [l]. *)
Fixpoint occurrences `{EqDecision A} (x : A) (l : list A) : nat :=
  match l with
  | [] => 0
  | y :: l' => (if decide (y = x) then 1 else 0) + occurrences x l'
  end.

(** [min(l, key=key)]: the first element whose key is minimal;
    [ValueError] on an empty sequence. The key itself may raise. *)
Fixpoint min_from {A} (key : A -> result Q) (best : A) (kbest : Q) (l : list A)
  : result A :=
  match l with
  | [] => Ok best
  | x :: l' =>
      rbind (key x) (fun kx =>
        if Qlt_le_dec kx kbest then min_from key x kx l'
        else min_from key best kbest l')
  end.

Definition py_min {A} (key : A -> result Q) (l : list A) : result A :=
  match l with
  | [] => Raise ValueError
  | x :: l' => rbind (key x) (fun kx => min_from key x kx l')
  end.

(** Positions of the elements of [l] that satisfy [p], counted from [i]. *)
Fixpoint positions_from {A} (p : A -> bool) (i : nat) (l : list A) : list nat :=
  match l with
  | [] => []
  | x :: l' =>
      if p x then i :: positions_from p (S i) l' else positions_from p (S i) l'
  end.

Definition positions {A} (p : A -> bool) (l : list A) : list nat :=
  positions_from p 0 l.

(** [l] without its element at position [i]. *)
Fixpoint remove_nth {A} (i : nat) (l : list A) : list A :=
  match l, i with
  | [], _ => []
  | _ :: l', O => l'
  | x :: l', S j => x :: remove_nth j l'
  end.

(** ** pandas: the frames and series the two files handle *)

Module pandas.
Section Frame.
Context {A : Type}.

(** Row labels, column labels and the rows of values. *)
Record DataFrame := { index : list Z; columns : list Z; values : list (list A) }.

(** A row taken out of a frame: labelled values, in order. *)
Definition Series := list (Z * A).

Definition shape0 (df : DataFrame) : nat := length (index df).
Definition shape1 (df : DataFrame) : nat := length (columns df).

(** [df.iloc[i]], with the label of the row ([row.name]). *)
Definition iloc (df : DataFrame) (i : nat) : result (Z * Series) :=
  match index df !! i, values df !! i with
  | Some label, Some r => Ok (label, combine (columns df) r)
  | _, _ => Raise IndexError
  end.

(** [df.loc[label]] where the caller goes on with a [Series]: one row
    carries the label. No row: [KeyError]; several rows make a frame,
    on which [sort_values(ascending=False)] is a [TypeError]. *)
Definition loc (df : DataFrame) (label : Z) : result Series :=
  match positions (fun l => bool_decide (l = label)) (index df) with
  | [] => Raise KeyError
  | [i] => rbind (iloc df i) (fun r => Ok (snd r))
  | _ => Raise TypeError
  end.

(** [series[label]], the first entry with that label. *)
Definition getitem (s : Series) (label : Z) : result A :=
  match dict.get s label with
  | Some w => Ok w
  | None => Raise KeyError
  end.
End Frame.
Arguments DataFrame : clear implicits.
Arguments Series : clear implicits.

(** [series.sort_values(ascending=False)]: by value, largest first.
    pandas leaves the order of entries of equal value to the sorting
    algorithm; here they keep the order they have in the row. *)
Fixpoint insert_desc (x : Z * Q) (s : Series Q) : Series Q :=
  match s with
  | [] => [x]
  | y :: s' =>
      if Qlt_le_dec (snd x) (snd y) then y :: insert_desc x s' else x :: y :: s'
  end.

Fixpoint sort_values (s : Series Q) : Series Q :=
  match s with
  | [] => []
  | x :: s' => insert_desc x (sort_values s')
  end.
End pandas.

(** ** igraph: a directed graph with vertex and edge attributes

    Vertices carry the attributes [name] and [cluster]; edges are pairs of
    vertex indices, and the edge attribute [weight] is a column aligned
    with the edge list. Deleting an edge shifts the later edges down by
    one, so an [Edge] object (an index) taken before the deletion then
    names another edge, or none. *)

Module igraph.
Record Vertex := { name : pyval; cluster : pyval }.

Record t := { vs : list Vertex; es : list (nat * nat); weight : list Q }.

(** [igraph.Graph(directed=True)] *)
Definition empty : t := {| vs := []; es := []; weight := [] |}.

Definition vcount (g : t) : nat := length (vs g).
Definition ecount (g : t) : nat := length (es g).

(** [bool(g)]: a graph is true when it has a vertex. *)
Definition truth (g : t) : bool := negb (Nat.eqb (vcount g) 0).

(** [g.add_vertex(name=n, cluster=c)] *)
Definition add_vertex (n c : pyval) (g : t) : t :=
  {| vs := vs g ++ [{| name := n; cluster := c |}]; es := es g; weight := weight g |}.

(** [g.vs.select(name=n)] and [g.vs.select(cluster=c)], as indices. *)
Definition select_name (g : t) (n : pyval) : list nat :=
  positions (fun v => bool_decide (name v = n)) (vs g).
Definition select_cluster (g : t) (c : pyval) : list nat :=
  positions (fun v => bool_decide (cluster v = c)) (vs g).

(** [g.add_edges(pairs)]: appended, parallel edges allowed. *)
Definition add_edges (pairs : list (nat * nat)) (g : t) : t :=
  {| vs := vs g; es := es g ++ pairs; weight := weight g |}.

(** [g.es["weight"] = ws] *)
Definition set_weight (ws : list Q) (g : t) : t :=
  {| vs := vs g; es := es g; weight := ws |}.

(** [vertex[label] = value] for the two attributes the vertices have. *)
Definition set_attribute (v : nat) (label : string) (value : pyval) (g : t) : t :=
  {| vs := alter (fun x =>
             if bool_decide (label = "cluster") then {| name := name x; cluster := value |}
             else if bool_decide (label = "name") then {| name := value; cluster := cluster x |}
             else x) v (vs g);
     es := es g; weight := weight g |}.

(** [g.incident(v, mode=OUT)]: the ids of the edges leaving [v]. *)
Definition incident (g : t) (v : nat) : list nat :=
  positions (fun e => Nat.eqb (fst e) v) (es g).

(** [vertex.outdegree()] *)
Definition outdegree (g : t) (v : nat) : nat := length (incident g v).

(** [edge["weight"]]: [ValueError] when the edge object names no edge. *)
Definition edge_weight (g : t) (e : nat) : result Q :=
  if Nat.ltb e (ecount g)
  then match weight g !! e with Some w => Ok w | None => Raise KeyError end
  else Raise ValueError.

(** [edge.delete()] *)
Definition delete_edge (e : nat) (g : t) : result t :=
  if Nat.ltb e (ecount g)
  then Ok {| vs := vs g; es := remove_nth e (es g); weight := remove_nth e (weight g) |}
  else Raise ValueError.
(** [g.es.find(_source=s, _target=d)]: the first edge from [s] to [d];
    [ValueError] when there is none. *)
Definition find (g : t) (s d : nat) : result nat :=
  match positions (fun e => Nat.eqb (fst e) s && Nat.eqb (snd e) d) (es g) with
  | e :: _ => Ok e
  | [] => Raise ValueError
  end.

(** The heads of the edges leaving [v], one per edge, in the order of
    the edge list. *)
Definition out_targets (g : t) (v : nat) : list nat :=
  map snd (filter (fun e => fst e = v) (es g)).

(** [vertex.neighbors(mode='OUT')]: the out-neighbours as vertex objects,
    one per edge. igraph lists them in the order of its adjacency index;
    [order] stands for that arrangement of the heads. *)
Definition neighbors (order : list nat -> list nat) (g : t) (v : nat) : list nat :=
  order (out_targets g v).

(** [vertex["name"]] *)
Definition vertex_name (g : t) (v : nat) : result pyval :=
  match vs g !! v with
  | Some x => Ok (name x)
  | None => Raise ValueError
  end.

(** [len(edge)], the truth value of an edge object: the number of edge
    attributes of the graph, here [weight]. *)
Definition edge_attribute_count (g : t) : nat := 1.
End igraph.

(** ** The file system [save] and [load] go through

    A regular file holds what was pickled into it; [pickle.load] gives
    back the object [pickle.dump] was given. *)

Inductive file :=
| PickledGraph (g : igraph.t)
| PickledDict (d : dict.t pyval (list pyval))
| OtherData.

(** ** [graph.py] *)

Module Graph.

Record Edge := { start : pyval; end_ : pyval; weight : Q }.

(** [self.__graph__] and [self.clusters]. *)
Record t := { __graph__ : igraph.t; clusters : dict.t pyval (list pyval) }.

Definition CLUSTER : string := "cluster".
Definition SIM : string := "weight".

Definition set_graph (g : igraph.t) (self : t) : t :=
  {| __graph__ := g; clusters := clusters self |}.
Definition set_clusters (c : dict.t pyval (list pyval)) (self : t) : t :=
  {| __graph__ := __graph__ self; clusters := c |}.

(** [Graph(graph=graph)]; [if graph:] asks for the truth value of the
    igraph object. *)
Definition __init__ (graph : option igraph.t) : t :=
  {| __graph__ := match graph with
                  | Some g => if igraph.truth g then g else igraph.empty
                  | None => igraph.empty
                  end;
     clusters := [] |}.

Definition __get_node_by_name__ (self : t) (name : pyval) : result nat :=
  match igraph.select_name (__graph__ self) name with
  | [node] => Ok node
  | _ => Raise ValueError
  end.

Definition __add_edges__ (edges : list (pyval * pyval)) (weights : list Q) : M t unit :=
  fun self =>
    let graph := __graph__ self in
    match comprehension
            (fun e => rbind (__get_node_by_name__ self (fst e)) (fun e1 =>
                      rbind (__get_node_by_name__ self (snd e)) (fun e2 =>
                      Ok (e1, e2)))) edges with
    | Raise e => (Raise e, self)
    | Ok edges =>
        let num_edges := igraph.ecount graph in
        let temp_weights :=
          (if Nat.eqb num_edges 0 then [] else igraph.weight graph) ++ weights in
        (Ok tt, set_graph (igraph.set_weight temp_weights (igraph.add_edges edges graph)) self)
    end.

Definition __add_label__ (node : pyval) (label : string) (value : pyval) : M t nat :=
  fun self =>
    match __get_node_by_name__ self node with
    | Raise e => (Raise e, self)
    | Ok n => (Ok n, set_graph (igraph.set_attribute n label value (__graph__ self)) self)
    end.

Definition add_edges (edges : list Edge) : M t unit :=
  let new_edges := map (fun edge => (start edge, end_ edge)) edges in
  let weights := map weight edges in
  __add_edges__ new_edges weights.

Definition add_vertices (vertices : list pyval) : M t unit :=
  for_each vertices (fun vertex =>
    modify (fun self => set_graph (igraph.add_vertex vertex PyNone (__graph__ self)) self)).

(** The body of the loop of [add_similarity], lines 166-170. *)
Definition add_similarity_photo (similarity : pandas.DataFrame Q) (photo : Z) : M t unit :=
  match pandas.loc similarity photo with
  | Raise e => raise e
  | Ok r =>
      let row := pandas.sort_values r in
      let edges := map (fun other => (PyInt photo, PyInt (fst other))) row in
      let weights := map snd row in
      __add_edges__ edges weights
  end.

(** The comparison of the two axes raises [ValueError] when their lengths
    differ; the assertion fails when some label differs. *)
Definition add_similarity (similarity : pandas.DataFrame Q) : M t unit :=
  if negb (Nat.eqb (length (pandas.index similarity)) (length (pandas.columns similarity)))
  then raise ValueError
  else if negb (bool_decide (pandas.index similarity = pandas.columns similarity))
  then raise AssertionError
  else
    let photos := pandas.index similarity in
    let* _ := add_vertices (map PyInt photos) in
    for_each photos (add_similarity_photo similarity).

Definition node (self : t) (name : pyval) : result nat :=
  __get_node_by_name__ self name.

(** [vertex.outdegree], the attribute: a bound method. *)
Definition vertex_outdegree (g : igraph.t) (vertex : nat) : pyobj :=
  ObjMethod (fun _ => Z.of_nat (igraph.outdegree g vertex)).

(** The [while] loop of [subgraph] on the copy. [read] is what is done
    with the attribute [vertex.outdegree] before it is compared: nothing
    in the source ([Ok]). [None]: the fuel ran out. *)
Fixpoint subgraph_while (fuel : nat) (read : pyobj -> result pyobj)
    (vertex : nat) (edges : list nat) (out_degree : Z) (subgraph : igraph.t)
  : option (result unit * igraph.t) :=
  match rbind (read (vertex_outdegree subgraph vertex))
              (fun d => py_gt d (ObjInt out_degree)) with
  | Raise e => Some (Raise e, subgraph)
  | Ok false => Some (Ok tt, subgraph)
  | Ok true =>
      match fuel with
      | O => None
      | S fuel' =>
          match py_min (igraph.edge_weight subgraph) edges with
          | Raise e => Some (Raise e, subgraph)
          | Ok min_edge =>
              match igraph.delete_edge min_edge subgraph with
              | Raise e => Some (Raise e, subgraph)
              | Ok subgraph' =>
                  subgraph_while fuel' read vertex edges out_degree subgraph'
              end
          end
      end
  end.

(** [for vertex in subgraph.vs: ...] *)
Fixpoint subgraph_for (read : pyobj -> result pyobj) (vertices : list nat)
    (out_degree : Z) (subgraph : igraph.t) : option (result unit * igraph.t) :=
  match vertices with
  | [] => Some (Ok tt, subgraph)
  | vertex :: rest =>
      let edges := igraph.incident subgraph vertex in
      match subgraph_while (S (igraph.ecount subgraph)) read vertex edges
              out_degree subgraph with
      | Some (Ok _, subgraph') => subgraph_for read rest out_degree subgraph'
      | other => other
      end
  end.

Definition subgraph_with (read : pyobj -> result pyobj) (self : t) (out_degree : Z)
  : option (result igraph.t) :=
  let subgraph := __graph__ self in
  match subgraph_for read (seq 0 (igraph.vcount subgraph)) out_degree subgraph with
  | Some (Ok _, subgraph') => Some (Ok subgraph')
  | Some (Raise e, _) => Some (Raise e)
  | None => None
  end.

(** [subgraph(out_degree)]: works on a copy, [self] is only read. *)
Definition subgraph (self : t) (out_degree : Z) : option (result igraph.t) :=
  subgraph_with Ok self out_degree.

(** The argument [node] of the cluster methods: one name, or a list. *)
Inductive node_arg := One (n : pyval) | Many (l : list pyval).

Definition add_to_cluster_one (node cluster : pyval) : M t unit :=
  let* _ := modify (fun self =>
              if negb (dict.contains (clusters self) cluster)
              then set_clusters (dict.set (clusters self) cluster []) self
              else self) in
  let* _ := fun self =>
              match dict.get (clusters self) cluster with
              | Some l => (Ok tt, set_clusters (dict.set (clusters self) cluster (l ++ [node])) self)
              | None => (Raise KeyError, self)
              end in
  let* _ := __add_label__ node CLUSTER cluster in
  ret tt.

Definition add_to_cluster (node : node_arg) (cluster : pyval) : M t unit :=
  match node with
  | Many l => for_each l (fun n => add_to_cluster_one n cluster)
  | One n => add_to_cluster_one n cluster
  end.

(** The first label of [self.clusters.items()] whose list holds [node]. *)
Fixpoint first_cluster_of (items : dict.t pyval (list pyval)) (node : pyval) : pyval :=
  match items with
  | [] => PyNone
  | (cluster, l) :: items' =>
      if list_in node l then cluster else first_cluster_of items' node
  end.

Definition remove_from_cluster_one (node cluster : pyval) : M t unit :=
  fun self =>
    if negb (dict.contains (clusters self) cluster) then (Raise ValueError, self)
    else
      match dict.get (clusters self) cluster with
      | None => (Raise KeyError, self)
      | Some l =>
          match list_remove node l with
          | Raise e => (Raise e, self)
          | Ok l' =>
              let self' := set_clusters (dict.set (clusters self) cluster l') self in
              let c := first_cluster_of (clusters self') node in
              (let* _ := __add_label__ node CLUSTER c in ret tt) self'
          end
      end.

Definition remove_from_cluster (node : node_arg) (cluster : pyval) : M t unit :=
  fun self =>
    if negb (dict.contains (clusters self) cluster) then (Raise ValueError, self)
    else
      match node with
      | Many l => for_each l (fun n => remove_from_cluster_one n cluster) self
      | One n => remove_from_cluster_one n cluster self
      end.

(** What [nodes_in_cluster] returns: the value of [cluster[cluster]], or
    the selected vertices. *)
Inductive members := FromSubscript (v : pyval) | FromGraph (vertices : list nat).

Definition nodes_in_cluster (self : t) (cluster : pyval) (use_dict : bool) : result members :=
  if use_dict then rbind (py_getitem cluster cluster) (fun v => Ok (FromSubscript v))
  else Ok (FromGraph (igraph.select_cluster (__graph__ self) cluster)).

Definition save (self : t) (location : string) : M (gmap string file) unit :=
  let* _ := modify (fun fs => <[location := PickledGraph (__graph__ self)]> fs) in
  modify (fun fs => <[location +:+ "_dict" := PickledDict (clusters self)]> fs).

Definition load (location : string) (fs : gmap string file) : result t :=
  match fs !! location with
  | None => Raise FileNotFoundError
  | Some f =>
      match f with
      | PickledGraph g =>
          let graph := __init__ (Some g) in
          match fs !! (location +:+ "_dict") with
          | None => Raise FileNotFoundError
          | Some (PickledDict d) => Ok (set_clusters d graph)
          | Some _ => Raise UnpicklingError
          end
      | _ => Raise UnpicklingError
      end
  end.
Definition __find_edge__ (self : t) (start_node end_node : pyval) : result nat :=
  rbind (__get_node_by_name__ self start_node) (fun start =>
  rbind (__get_node_by_name__ self end_node) (fun end' =>
  igraph.find (__graph__ self) start end')).

(** [edge(src, end)]: [None] is what the last line returns, when the edge
    object found is false. *)
Definition edge (self : t) (src end' : pyval) : result (option Edge) :=
  rbind (__find_edge__ self src end') (fun e =>
  if negb (Nat.eqb (igraph.edge_attribute_count (__graph__ self)) 0)
  then rbind (igraph.edge_weight (__graph__ self) e) (fun w =>
       Ok (Some {| start := src; end_ := end'; weight := w |}))
  else Ok None).

(** [i in vertices] for a vertex object [i] and a member list of the
    cluster index: the list holds names, and a vertex object equals no
    name. *)
Definition vertex_in_names (i : nat) (vertices : list pyval) : bool :=
  existsb (fun _ => false) vertices.

(** The loop over [clusters] in [neighbors]. *)
Fixpoint neighbors_in_clusters (self : t) (clusters_arg : list pyval)
    (neighbors temp : list nat) : result (list nat) :=
  match clusters_arg with
  | [] => Ok temp
  | cluster :: rest =>
      match dict.get (clusters self) cluster with
      | None => Raise KeyError
      | Some vertices =>
          let intersection := List.filter (fun i => vertex_in_names i vertices) neighbors in
          let temp := temp ++ intersection in
          rbind (fold_left (fun l i => rbind l (list_remove i)) intersection (Ok neighbors))
                (fun neighbors => neighbors_in_clusters self rest neighbors temp)
      end
  end.

(** [neighbors(node, clusters)]; [order] is igraph's arrangement of the
    out-neighbours. *)
Definition neighbors (order : list nat -> list nat) (self : t) (node : pyval)
    (clusters_arg : list pyval) : result (list (option Edge)) :=
  rbind (__get_node_by_name__ self node) (fun n =>
  let neighbors := igraph.neighbors order (__graph__ self) n in
  rbind (match clusters_arg with
         | [] => Ok neighbors
         | _ => neighbors_in_clusters self clusters_arg neighbors []
         end) (fun neighbors =>
  comprehension (fun neighbor =>
                   rbind (igraph.vertex_name (__graph__ self) neighbor) (fun name =>
                   edge self node name)) neighbors)).
End Graph.

(** ** [loader.py]: [Loader.make_graphs] *)

Module Loader.

Section Similarity.
(** The numbers of the feature table, with the arithmetic the cosine
    needs. *)
Context {num : Type}.
Variable zero : num.
Variables add mul div : num -> num -> num.
Variable sqrt : num -> num.

(** Modelled from the spec: the cosine of [distance.py], which is not
    among the sources. "Cosine similarity: similarity metric between
    feature vectors based on the cosine of the angle between them": the
    dot product of the two vectors over the product of their norms. *)
Definition dot (u v : list num) : num :=
  fold_right add zero (zip_with mul u v).

(** Modelled from the spec: the norm of a feature vector, for [cosine]. *)
Definition norm (u : list num) : num := sqrt (dot u u).

(** Modelled from the spec: the cosine of the angle between [u] and [v]. *)
Definition cosine (u v : list num) : num :=
  div (dot u v) (mul (norm u) (norm v)).

(** Modelled from the spec: [Similarity.cosine_similarity] lives in
    [distance.py], which is not among the sources. Section 4.1: pairwise
    cosine similarity between all entities (rows) of the feature
    table, a matrix indexed by the entity identifiers on both axes. *)
Definition cosine_similarity (a b : pandas.DataFrame num) : pandas.DataFrame num :=
  {| pandas.index := pandas.index a;
     pandas.columns := pandas.index b;
     pandas.values :=
       map (fun u => map (fun v => cosine u v) (pandas.values b)) (pandas.values a) |}.

(** [similarity.values[[np.arange(length)]*2] = 0], the list of the two
    index arrays read as the pair [(rows, columns)]: entry [(i, i)] of
    every row [i < length]. *)
Definition zero_diagonal (length : nat) (values : list (list num)) : list (list num) :=
  imap (fun i row => if Nat.ltb i length then <[i := zero]> row else row) values.

(** Lines 243-248: the similarity matrix [make_graphs] goes on with. *)
Definition similarity_matrix (all_photos : pandas.DataFrame num)
  : result (pandas.DataFrame num) :=
  let similarity := cosine_similarity all_photos all_photos in
  if negb (Nat.eqb (pandas.shape0 similarity) (pandas.shape1 similarity))
  then Raise AssertionError
  else
    let length := pandas.shape0 similarity in
    Ok {| pandas.index := pandas.index similarity;
          pandas.columns := pandas.columns similarity;
          pandas.values := zero_diagonal length (pandas.values similarity) |}.
End Similarity.

(** [source id -> {target id -> weight}] *)
Definition edge_dict_t := dict.t Z (dict.t Z Q).

(** Lines 255-258 for one row: the [k] first entries of the sorted row,
    entered in that order. *)
Definition top_k (k : nat) (row : pandas.Series Q) : dict.t Z Q :=
  let sorted_row := pandas.sort_values row in
  let keys := map fst (take k sorted_row) in
  fold_left (fun d key =>
               match pandas.getitem sorted_row key with
               | Ok w => dict.set d key w
               | Raise _ => d
               end) keys [].

(** Lines 251-258. *)
Fixpoint edge_dict_rows (similarity : pandas.DataFrame Q) (k : nat)
    (rows : list nat) (edge_dict : edge_dict_t) : result edge_dict_t :=
  match rows with
  | [] => Ok edge_dict
  | i :: rows' =>
      rbind (pandas.iloc similarity i) (fun row =>
        edge_dict_rows similarity k rows'
          (dict.set edge_dict (fst row) (top_k k (snd row))))
  end.

Definition make_edge_dict (similarity : pandas.DataFrame Q) (k : nat) : result edge_dict_t :=
  edge_dict_rows similarity k (seq 0 (pandas.shape0 similarity)) [].

(** [d.get], as the key of [min]: a missing key is [None], which does
    not compare. *)
Definition dict_get_key (d : dict.t Z Q) (key : Z) : result Q :=
  match dict.get d key with
  | Some w => Ok w
  | None => Raise TypeError
  end.

(** Lines 268-270 on one neighbour map, [bound] standing for the
    variable the length is compared with. [None]: the fuel ran out. *)
Fixpoint shrink_while (fuel : nat) (bound : nat) (d : dict.t Z Q)
  : option (result (dict.t Z Q)) :=
  if Nat.ltb bound (length d) then
    match fuel with
    | O => None
    | S fuel' =>
        match py_min (dict_get_key d) (dict.keys d) with
        | Raise e => Some (Raise e)
        | Ok min_key => shrink_while fuel' bound (dict.pop d min_key)
        end
    end
  else Some (Ok d).

Definition shrink (bound : nat) (d : dict.t Z Q) : option (result (dict.t Z Q)) :=
  shrink_while (length d) bound d.

(** Lines 266-270: [working] shares its neighbour maps with [edge_dict]
    (a shallow copy), so the maps that come out are also the ones the
    next round starts from. *)
Fixpoint working_for (bound : nat) (edge_dict : edge_dict_t)
  : option (result edge_dict_t) :=
  match edge_dict with
  | [] => Some (Ok [])
  | (key, d) :: rest =>
      match shrink bound d with
      | None => None
      | Some (Raise e) => Some (Raise e)
      | Some (Ok d') =>
          match working_for bound rest with
          | Some (Ok rest') => Some (Ok ((key, d') :: rest'))
          | other => other
          end
      end
  end.

(** [g = Graph(); g.add_edge_dict(working)]: the class [Graph] of
    [graph.py] has no attribute [add_edge_dict]. *)
Definition Graph_add_edge_dict (g : Graph.t) (working : edge_dict_t) : result Graph.t :=
  Raise AttributeError.

(** [all_ks.sort(reverse=True)] *)
Fixpoint insert_rev (x : nat) (l : list nat) : list nat :=
  match l with
  | [] => [x]
  | y :: l' => if Nat.ltb x y then y :: insert_rev x l' else x :: y :: l'
  end.

Definition sort_reverse (l : list nat) : list nat := fold_right insert_rev [] l.

(** Lines 262-278; the loop compares the lengths with [k]. What the
    rounds hand to the graph builder is collected in the second
    component. *)
Fixpoint make_graphs_loop (k : nat) (all_ks : list nat) (edge_dict : edge_dict_t)
  : option (result unit * list (nat * edge_dict_t)) :=
  match all_ks with
  | [] => Some (Ok tt, [])
  | nearest :: rest =>
      match working_for k edge_dict with
      | None => None
      | Some (Raise e) => Some (Raise e, [])
      | Some (Ok working) =>
          match Graph_add_edge_dict (Graph.__init__ None) working with
          | Raise e => Some (Raise e, [(nearest, working)])
          | Ok g =>
              match make_graphs_loop k rest working with
              | Some (r, built) => Some (r, (nearest, working) :: built)
              | None => None
              end
          end
      end
  end.

(** [make_graphs(db, k, all_ks)], from the visual descriptor table of
    [db]. The square root is a parameter: the rationals have none. *)
Definition make_graphs (sqrt : Q -> Q) (all_photos : pandas.DataFrame Q)
    (k : option nat) (all_ks : list nat)
  : option (result unit * list (nat * edge_dict_t)) :=
  match (match k with
         | None =>
             match all_ks with
             | [] => Raise ValueError
             | _ => Ok (list_max all_ks, all_ks)
             end
         | Some k => Ok (k, [k])
         end) with
  | Raise e => Some (Raise e, [])
  | Ok (k, all_ks) =>
      match rbind (similarity_matrix 0%Q Qplus Qmult Qdiv sqrt all_photos)
                  (fun similarity => make_edge_dict similarity k) with
      | Raise e => Some (Raise e, [])
      | Ok edge_dict => make_graphs_loop k (sort_reverse all_ks) edge_dict
      end
  end.
End Loader.

(** ** Observations on a graph, used to state the properties *)

(** The names of [self] that are carried by a vertex. *)
Definition is_vertex (self : Graph.t) (n : pyval) : Prop :=
  exists v, v ∈ igraph.vs (Graph.__graph__ self) /\ igraph.name v = n.

(** The member list recorded for [cluster] ([[]] without one). *)
Definition members_of (self : Graph.t) (cluster : pyval) : list pyval :=
  default [] (dict.get (Graph.clusters self) cluster).

(** The [cluster] attribute of vertex [i]. *)
Definition label_of (self : Graph.t) (i : nat) : option pyval :=
  igraph.cluster <$> igraph.vs (Graph.__graph__ self) !! i.

(** Every edge joins existing vertices and has its weight. *)
Definition well_formed (g : igraph.t) : bool :=
  forallb (fun e => Nat.ltb (fst e) (igraph.vcount g) && Nat.ltb (snd e) (igraph.vcount g))
          (igraph.es g)
  && Nat.eqb (length (igraph.weight g)) (length (igraph.es g)).

(** The edges from [i] to [j], with their weights. *)
Definition edges_between (g : igraph.t) (i j : nat) : list Q :=
  map snd (filter (fun e => fst e = (i, j)) (zip (igraph.es g) (igraph.weight g))).

Definition has_self_loop (g : igraph.t) : bool :=
  existsb (fun e => Nat.eqb (fst e) (snd e)) (igraph.es g).

(** Entry [(i, j)] of a frame. *)
Definition entry {A} (df : pandas.DataFrame A) (i j : nat) : option A :=
  pandas.values df !! i ≫= fun row => row !! j.

(** [x] comes before [y] in a row sorted with strictly falling weights. *)
Definition heavier (x y : Z * Q) : Prop := (snd y < snd x)%Q.

(** No two entries of the row have the same weight. *)
Definition distinct_weights (row : pandas.Series Q) : Prop :=
  forall i j x y,
    row !! i = Some x -> row !! j = Some y -> (snd x == snd y)%Q -> i = j.

(** The vertex [add_vertices] makes for a name. *)
Definition vertex_named (n : pyval) : igraph.Vertex :=
  {| igraph.name := n; igraph.cluster := PyNone |}.

(** The translation of the name pairs of [__add_edges__]. *)
Definition resolve (self : Graph.t) (e : pyval * pyval) : result (nat * nat) :=
  rbind (Graph.__get_node_by_name__ self (fst e)) (fun e1 =>
  rbind (Graph.__get_node_by_name__ self (snd e)) (fun e2 => Ok (e1, e2))).

(** ** Concrete inputs *)

Definition graph_ab : Graph.t :=
  {| Graph.__graph__ :=
       {| igraph.vs := [ {| igraph.name := PyInt 1; igraph.cluster := PyNone |};
                         {| igraph.name := PyInt 2; igraph.cluster := PyNone |} ];
          igraph.es := [(0, 1)];
          igraph.weight := [1 # 2]%Q |};
     Graph.clusters := [] |}.

Definition edge_1_2 : Graph.Edge :=
  {| Graph.start := PyInt 1; Graph.end_ := PyInt 2; Graph.weight := (3 # 4)%Q |}.

Definition edge_1_7 : Graph.Edge :=
  {| Graph.start := PyInt 1; Graph.end_ := PyInt 7; Graph.weight := (3 # 4)%Q |}.


(** Four vertices; [a] has three outgoing edges, [b] two, [c] one;
    [a] and [b] are in cluster ["C1"]. *)
Definition graph_abcd : Graph.t :=
  {| Graph.__graph__ :=
       {| igraph.vs := [ {| igraph.name := PyStr "a"; igraph.cluster := PyStr "C1" |};
                         {| igraph.name := PyStr "b"; igraph.cluster := PyStr "C1" |};
                         {| igraph.name := PyStr "c"; igraph.cluster := PyNone |};
                         {| igraph.name := PyStr "d"; igraph.cluster := PyNone |} ];
          igraph.es := [(0, 1); (0, 2); (0, 3); (1, 0); (1, 2); (2, 0)];
          igraph.weight := [5; 1; 7; 2; 3 # 2; 8]%Q |};
     Graph.clusters := [(PyStr "C1", [PyStr "a"; PyStr "b"])] |}.

(** A row in which the second and third weight tie, and the same row
    with the two tied entries in the other order. *)
Definition row_tie : pandas.Series Q :=
  [(1%Z, 5%Q); (2%Z, 3%Q); (3%Z, 3%Q); (4%Z, 1%Q)].

Definition row_tie_swapped : pandas.Series Q :=
  [(1%Z, 5%Q); (3%Z, 3%Q); (2%Z, 3%Q); (4%Z, 1%Q)].

Definition row_distinct : pandas.Series Q :=
  [(1%Z, (1 # 2)%Q); (2%Z, (9 # 10)%Q); (3%Z, (1 # 4)%Q); (4%Z, (3 # 4)%Q)].

(** Two photos, similarity one half, diagonal already zero. *)
Definition similarity_12 : pandas.DataFrame Q :=
  {| pandas.index := [1; 2]%Z;
     pandas.columns := [1; 2]%Z;
     pandas.values := [[0; 1 # 2]; [1 # 2; 0]]%Q |}.

(** Three photos with their pairwise similarities, diagonal zero. *)
Definition similarity_123 : pandas.DataFrame Q :=
  {| pandas.index := [1; 2; 3]%Z;
     pandas.columns := [1; 2; 3]%Z;
     pandas.values := [[0; 9 # 10; 1 # 2]; [9 # 10; 0; 3 # 10]; [1 # 2; 3 # 10; 0]]%Q |}.

(** Two photos with two features each, as floating-point numbers. *)
Definition photos_float : pandas.DataFrame float :=
  {| pandas.index := [1; 2]%Z;
     pandas.columns := [10; 11]%Z;
     pandas.values := [[1; 0]; [1; 1]]%float |}.

(** Vertex ["a"] placed in cluster ["A"] once. *)
Definition graph_a_in_A : Graph.t :=
  {| Graph.__graph__ :=
       {| igraph.vs := [ {| igraph.name := PyStr "a"; igraph.cluster := PyStr "A" |} ];
          igraph.es := [];
          igraph.weight := [] |};
     Graph.clusters := [(PyStr "A", [PyStr "a"])] |}.

(** Vertex ["a"] recorded twice under ["B"]; no other cluster. *)
Definition graph_a_twice_in_B : Graph.t :=
  {| Graph.__graph__ :=
       {| igraph.vs := [ {| igraph.name := PyStr "a"; igraph.cluster := PyStr "B" |} ];
          igraph.es := [];
          igraph.weight := [] |};
     Graph.clusters := [(PyStr "B", [PyStr "a"; PyStr "a"])] |}.

(** One vertex, no cluster. *)
Definition graph_a : Graph.t :=
  {| Graph.__graph__ :=
       {| igraph.vs := [ {| igraph.name := PyStr "a"; igraph.cluster := PyNone |} ];
          igraph.es := [];
          igraph.weight := [] |};
     Graph.clusters := [] |}.



(** ** Further observations *)

#[global] Instance exn_eq_dec : EqDecision exn.
Proof. solve_decision. Defined.

#[global] Instance result_eq_dec {A} `{EqDecision A} : EqDecision (result A).
Proof. solve_decision. Defined.

(** The label field and the cluster index agree on every vertex: a vertex
    without label is listed nowhere, and a labelled vertex is listed under
    its label. *)
Definition consistent (self : Graph.t) : Prop :=
  forall j v,
    igraph.vs (Graph.__graph__ self) !! j = Some v ->
    (igraph.cluster v = PyNone /\ forall L, igraph.name v ∉ members_of self L)
    \/ igraph.name v ∈ members_of self (igraph.cluster v).

(** [x] comes before [y] in a sorted row: [y] is not heavier. *)
Definition not_lighter (x y : Z * Q) : Prop := (snd y <= snd x)%Q.

(** ** Python strings, as far as the readers of [loader.py] use them *)
Module str.
Definition tab : Ascii.ascii := "009"%char.
Definition newline : Ascii.ascii := "010"%char.
Definition space : Ascii.ascii := " "%char.
Definition quote : Ascii.ascii := "034"%char.
Definition dot : Ascii.ascii := "."%char.
Definition slash : Ascii.ascii := "/"%char.

(** [c in s], for a character [c] *)
Fixpoint contains (c : Ascii.ascii) (s : string) : bool :=
  match s with
  | EmptyString => false
  | String a s' => Ascii.eqb a c || contains c s'
  end.

(** [s.split(c)] *)
Fixpoint split (c : Ascii.ascii) (s : string) : list string :=
  match s with
  | EmptyString => [EmptyString]
  | String a s' =>
      if Ascii.eqb a c then EmptyString :: split c s'
      else match split c s' with
           | h :: t => String a h :: t
           | [] => [String a EmptyString]
           end
  end.

(** [c.join(l)] *)
Fixpoint join (c : Ascii.ascii) (l : list string) : string :=
  match l with
  | [] => EmptyString
  | [s] => s
  | s :: l' => String.append s (String c (join c l'))
  end.

(** [s.lstrip(c)], [s.rstrip(c)] and [s.strip(c)] *)
Fixpoint lstrip (c : Ascii.ascii) (s : string) : string :=
  match s with
  | EmptyString => EmptyString
  | String a s' => if Ascii.eqb a c then lstrip c s' else s
  end.

Fixpoint rstrip (c : Ascii.ascii) (s : string) : string :=
  match s with
  | EmptyString => EmptyString
  | String a s' =>
      match rstrip c s' with
      | EmptyString => if Ascii.eqb a c then EmptyString else String a EmptyString
      | r => String a r
      end
  end.

Definition strip (c : Ascii.ascii) (s : string) : string := rstrip c (lstrip c s).

(** [s.replace(c, '')] *)
Fixpoint remove (c : Ascii.ascii) (s : string) : string :=
  match s with
  | EmptyString => EmptyString
  | String a s' => if Ascii.eqb a c then remove c s' else String a (remove c s')
  end.

(** [s.startswith(c)] *)
Definition startswith (c : Ascii.ascii) (s : string) : bool :=
  match s with
  | String a _ => Ascii.eqb a c
  | EmptyString => false
  end.
End str.

(** ** The directory tree the readers walk *)

(** The exceptions of the readers: two more than the graph code has. *)
Inductive io_exn := OSError | NotADirectoryError | UnboundLocalError | Builtin (e : exn).

Inductive outcome (A : Type) := Done (a : A) | Fail (e : io_exn).
Arguments Done {A} a.
Arguments Fail {A} e.

Definition obind {A B} (r : outcome A) (k : A -> outcome B) : outcome B :=
  match r with Done a => k a | Fail e => Fail e end.

Module os.
(** A regular file holds the lines a [for line in f] yields (each with
    its line break); a directory lists names. *)
Inductive node := RegularFile (lines : list string) | Directory (entries : list string).

(** [isfile(path)] *)
Definition isfile (fs : gmap string node) (path : string) : bool :=
  match fs !! path with
  | Some (RegularFile _) => true
  | _ => false
  end.

(** [listdir(path)] *)
Definition listdir (fs : gmap string node) (path : string) : outcome (list string) :=
  match fs !! path with
  | Some (Directory entries) => Done entries
  | Some (RegularFile _) => Fail NotADirectoryError
  | None => Fail (Builtin FileNotFoundError)
  end.

(** [folder + '/' + file] *)
Definition child (folder file : string) : string :=
  String.append folder (String str.slash file).
End os.

(** ** [loader.py]: the readers *)

Module GenericReader.
Section Reader.
Context {V : Type}.
(** [self.load_file], as the subclass defines it; the index is [None]
    when the method is called with the file alone. *)
Variable load_file : string -> option pyval -> outcome V.

(** The two loops of [load_files]. *)
Fixpoint load_indexed (pairs : list (pyval * string)) (return_val : dict.t pyval V)
  : outcome (dict.t pyval V) :=
  match pairs with
  | [] => Done return_val
  | (index, file) :: rest =>
      obind (load_file file (Some index)) (fun out =>
        load_indexed rest (dict.set return_val index out))
  end.

Fixpoint load_plain (files : list string) (return_val : dict.t pyval V)
  : outcome (dict.t pyval V) :=
  match files with
  | [] => Done return_val
  | file :: rest =>
      obind (load_file file None) (fun out =>
        load_plain rest (dict.set return_val (PyStr file) out))
  end.

(** [load_files(files, indexes=None)]; [if indexes:] is false for [None]
    and for an empty list. *)
Definition load_files (files : list string) (indexes : option (list pyval))
  : outcome (dict.t pyval V) :=
  match indexes with
  | Some (index :: more) => load_indexed (zip (index :: more) files) []
  | _ => load_plain files []
  end.

Definition __get_files__ (fs : gmap string os.node) (folder : string)
  : outcome (list string) :=
  obind (os.listdir fs folder) (fun names =>
    Done (map (os.child folder)
              (List.filter (fun file => os.isfile fs (os.child folder file)
                                        && negb (str.startswith str.dot file))
                           names))).

Definition load_folder (fs : gmap string os.node) (folder : string)
  : outcome (dict.t pyval V) :=
  obind (__get_files__ fs folder) (fun files => load_files files None).

Fixpoint load_directory_loop (fs : gmap string os.node) (directory : string)
    (folders : list string) (return_val : list (dict.t pyval V))
  : outcome (list (dict.t pyval V)) :=
  match folders with
  | [] => Done return_val
  | folder :: rest =>
      obind (load_folder fs (os.child directory folder)) (fun out =>
        load_directory_loop fs directory rest (return_val ++ [out]))
  end.

Definition load_directory (fs : gmap string os.node) (directory : string)
  : outcome (list (dict.t pyval V)) :=
  obind (os.listdir fs directory) (fun folders =>
    load_directory_loop fs directory folders []).
End Reader.
End GenericReader.

Module VisualDescriptionReader.
(** [load_file(self, file)]: the method takes no index. *)
Definition load_file (file : string) (index : option pyval) : outcome string :=
  match index with
  | None => Done file
  | Some _ => Fail (Builtin TypeError)
  end.

Definition load_folder (fs : gmap string os.node) (folder : string)
  : outcome (dict.t pyval string) :=
  GenericReader.load_folder load_file fs folder.
End VisualDescriptionReader.

Module LocationReader.
(** The loop of [load_name_corr] over the lines of the file. *)
Fixpoint name_corr_lines (lines : list string) (name_correlation : dict.t string string)
  : outcome (dict.t string string) :=
  match lines with
  | [] => Done name_correlation
  | line :: rest =>
      match str.split str.tab (str.strip str.newline line) with
      | [name; title] => name_corr_lines rest (dict.set name_correlation title name)
      | _ => Fail (Builtin ValueError)
      end
  end.

Definition load_name_corr (fs : gmap string os.node) (file : string)
  : outcome (dict.t string string) :=
  if negb (os.isfile fs file) then Fail OSError
  else match fs !! file with
       | Some (os.RegularFile lines) => name_corr_lines lines []
       | _ => Fail OSError
       end.
End LocationReader.

(** A string without tab and without line break. *)
Definition plain (s : string) : bool :=
  negb (str.contains str.tab s) && negb (str.contains str.newline s).

(** The line of the name correspondence file for a name and a title. *)
Definition name_corr_line (entry : string * string) : string :=
  String.append (fst entry)
    (String str.tab (String.append (snd entry) (String str.newline EmptyString))).

Module DescriptionReader.
(** [{id: {term: tfidf}}] *)
Definition table_t := dict.t pyval (dict.t string string).

(** The first [k] with a quotation mark in [tokens[k]], which the inner
    loop assigns to [j] before it breaks. *)
Fixpoint first_quoted_from (k : nat) (tokens : list string) : option nat :=
  match tokens with
  | [] => None
  | token :: rest =>
      if str.contains str.quote token then Some k else first_quoted_from (S k) rest
  end.

Definition first_quoted (tokens : list string) : option nat :=
  first_quoted_from 0 tokens.

(** [range(j, stop, 4)] *)
Definition range4 (j stop : nat) : list nat :=
  map (fun i => j + 4 * i) (seq 0 ((stop - j + 3) / 4)).

(** The loop over the four-tuples of one line; the unpacking of a slice
    that has not four elements is a [ValueError]. *)
Fixpoint terms_loop (tokens : list string) (ks : list nat) (terms : dict.t string string)
  : outcome (dict.t string string) :=
  match ks with
  | [] => Done terms
  | k :: rest =>
      match take 4 (drop k tokens) with
      | [term; tf; idf; tfidf] =>
          terms_loop tokens rest (dict.set terms (str.remove str.quote term) tfidf)
      | _ => Fail (Builtin ValueError)
      end
  end.

(** The body of the loop over the lines. [j] is a variable of the
    function: a line without quotation mark leaves it as the line before
    set it, and unbound on the first line. [int] is Python's conversion,
    [None] where it raises. *)
Definition load_line (int : string -> option Z) (line : string)
    (state : table_t * option nat) : outcome (table_t * option nat) :=
  let table := fst state in
  let tokens := str.split str.space line in
  let tokens :=
    if bool_decide (String str.newline EmptyString ∈ tokens)
    then match list_remove (String str.newline EmptyString) tokens with
         | Ok l => l
         | Raise _ => tokens
         end
    else tokens in
  let j := match first_quoted tokens with
           | Some k => Some k
           | None => snd state
           end in
  match j with
  | None => Fail UnboundLocalError
  | Some j =>
      let an_id := str.join str.space (take j tokens) in
      let an_id := match int an_id with
                   | Some z => PyInt z
                   | None => PyStr an_id
                   end in
      let table := dict.set table an_id [] in
      obind (terms_loop tokens (range4 j (length tokens)) []) (fun terms =>
        Done (dict.set table an_id terms, Some j))
  end.

Fixpoint load_lines (int : string -> option Z) (lines : list string)
    (state : table_t * option nat) : outcome (table_t * option nat) :=
  match lines with
  | [] => Done state
  | line :: rest => obind (load_line int line state) (load_lines int rest)
  end.

(** [load_file(self, file, index)]: the index is required. *)
Definition load_file (int : string -> option Z) (fs : gmap string os.node)
    (file : string) (index : option pyval) : outcome table_t :=
  match index with
  | None => Fail (Builtin TypeError)
  | Some _ =>
      if negb (os.isfile fs file) then Fail OSError
      else match fs !! file with
           | Some (os.RegularFile lines) =>
               obind (load_lines int lines ([], None)) (fun state => Done (fst state))
           | _ => Fail OSError
           end
  end.
End DescriptionReader.

(** One line of a description file: the tokens of the identifier, and
    the entries [(term, tf, idf, tfidf)]. *)
Definition description := (list string * list (string * string * string * string))%type.

(** The term between quotation marks. *)
Definition quoted (term : string) : string :=
  String str.quote (String.append term (String str.quote EmptyString)).

Definition entry_tokens (e : string * string * string * string) : list string :=
  let '(term, tf, idf, tfidf) := e in [quoted term; tf; idf; tfidf].

Definition description_tokens (d : description) : list string :=
  fst d ++ concat (map entry_tokens (snd d)).

(** The line as the file has it: the tokens separated by single spaces,
    a space and the line break at the end. *)
Definition description_line (d : description) : string :=
  String.append (str.join str.space (description_tokens d))
                (String str.space (String str.newline EmptyString)).

(** A token: no space, no line break. *)
Definition token (s : string) : bool :=
  negb (str.contains str.space s) && negb (str.contains str.newline s).

(** A line the reader is written for: all parts are tokens, the
    identifier and the terms hold no quotation mark, and there is at least
    one entry. *)
Definition description_ok (d : description) : Prop :=
  Forall (fun s => token s = true /\ str.contains str.quote s = false) (fst d)
  /\ Forall (fun e => let '(term, tf, idf, tfidf) := e in
                      token term = true /\ str.contains str.quote term = false
                      /\ token tf = true /\ token idf = true /\ token tfidf = true)
            (snd d)
  /\ snd d <> [].

(** What the reader makes of a line: the key, and the terms with their
    last [tfidf]. *)
Definition description_key (int : string -> option Z) (d : description) : pyval :=
  let an_id := str.join str.space (fst d) in
  match int an_id with
  | Some z => PyInt z
  | None => PyStr an_id
  end.

Definition description_terms (d : description) : dict.t string string :=
  fold_left (fun terms e => let '(term, tf, idf, tfidf) := e in dict.set terms term tfidf)
            (snd d) [].

(** The tokens the reader works with, for a line. *)
Definition line_tokens (line : string) : list string :=
  let tokens := str.split str.space line in
  if bool_decide (String str.newline EmptyString ∈ tokens)
  then match list_remove (String str.newline EmptyString) tokens with
       | Ok l => l
       | Raise _ => tokens
       end
  else tokens.

(** [load_folder] and [load_directory], as a [DescriptionReader] inherits
    them. *)
Definition description_load_folder (int : string -> option Z) (fs : gmap string os.node)
    (folder : string) : outcome (dict.t pyval DescriptionReader.table_t) :=
  GenericReader.load_folder (DescriptionReader.load_file int fs) fs folder.

(** ** [save] and [load] where several paths name one file

    [Graph.save] and [Graph.load] above key the file system by the path
    as written. On a disk two paths may name the same file (["foo"] and
    ["./foo"], a link): here the cells are the files, and [file_of] gives
    the file a path names. *)
Module GraphFiles.
Section Disk.
Context `{Countable F}.
Variable file_of : string -> F.

(** [write_pickle(fname=location)], then [open(location + '_dict', 'wb+')]
    and [pickle.dump]. *)
Definition save (self : Graph.t) (location : string) : M (gmap F file) unit :=
  let* _ := modify (fun fs => <[file_of location := PickledGraph (Graph.__graph__ self)]> fs) in
  modify (fun fs =>
            <[file_of (location +:+ "_dict") := PickledDict (Graph.clusters self)]> fs).

(** [isfile(location)], [Read_Pickle(fname=location)], then
    [open(location + '_dict', 'rb')] and [pickle.load]. *)
Definition load (location : string) (fs : gmap F file) : result Graph.t :=
  match fs !! file_of location with
  | None => Raise FileNotFoundError
  | Some f =>
      match f with
      | PickledGraph g =>
          let graph := Graph.__init__ (Some g) in
          match fs !! file_of (location +:+ "_dict") with
          | None => Raise FileNotFoundError
          | Some (PickledDict d) => Ok (Graph.set_clusters d graph)
          | Some _ => Raise UnpicklingError
          end
      | _ => Raise UnpicklingError
      end
  end.
End Disk.
End GraphFiles.

(** A path without its leading ["./"]: the file it names, for paths that
    differ in this prefix only. *)
Fixpoint without_dot_slash (fuel : nat) (path : string) : string :=
  match fuel, path with
  | S fuel', String a (String b rest) =>
      if Ascii.eqb a str.dot && Ascii.eqb b str.slash
      then without_dot_slash fuel' rest
      else path
  | _, _ => path
  end.

Definition drop_dot_slash (path : string) : string :=
  without_dot_slash (String.length path) path.

(** * Properties *)

(** ** Lookups by name *)

Lemma positions_from_nil {A} (p : A -> bool) i l :
  (forall x, x ∈ l -> p x = false) -> positions_from p i l = [].
Proof.
  revert i. induction l as [|x l IH]; intros i H; simpl; [reflexivity|].
  rewrite (H x) by constructor. apply IH. intros y Hy. apply H. now constructor.
Qed.

Lemma get_node_unknown self n :
  ~ is_vertex self n -> Graph.__get_node_by_name__ self n = Raise ValueError.
Proof.
  intros H. unfold Graph.__get_node_by_name__, igraph.select_name, positions.
  rewrite positions_from_nil; [reflexivity|].
  intros v Hv. apply bool_decide_eq_false. intros Hn. apply H. now exists v.
Qed.

Lemma get_node_raises self n e :
  Graph.__get_node_by_name__ self n = Raise e -> e = ValueError.
Proof.
  unfold Graph.__get_node_by_name__.
  destruct (igraph.select_name _ _) as [|i [|j l]]; congruence.
Qed.

Lemma resolve_raises self e x : resolve self e = Raise x -> x = ValueError.
Proof.
  unfold resolve. destruct e as [a b]; simpl.
  destruct (Graph.__get_node_by_name__ self a) eqn:Ha; simpl.
  - destruct (Graph.__get_node_by_name__ self b) eqn:Hb; simpl; [congruence|].
    intros [= <-]. eauto using get_node_raises.
  - intros [= <-]. eauto using get_node_raises.
Qed.

Lemma resolve_unknown self e :
  ~ is_vertex self (fst e) \/ ~ is_vertex self (snd e) ->
  resolve self e = Raise ValueError.
Proof.
  intros H. unfold resolve.
  destruct (Graph.__get_node_by_name__ self (fst e)) eqn:Ha; simpl.
  - destruct H as [H|H].
    + rewrite get_node_unknown in Ha by assumption. discriminate.
    + now rewrite get_node_unknown.
  - f_equal. eauto using get_node_raises.
Qed.

Lemma comprehension_raises self l :
  (exists e, e ∈ l /\ resolve self e = Raise ValueError) ->
  comprehension (resolve self) l = Raise ValueError.
Proof.
  induction l as [|x l IH]; intros (e & He & Hr).
  - inversion He.
  - simpl. destruct (resolve self x) eqn:Hx; simpl.
    + assert (e ∈ l) as Hin.
      { apply elem_of_cons in He as [->|He]; [congruence|assumption]. }
      rewrite IH; [reflexivity|]. now exists e.
    + f_equal. eauto using resolve_raises.
Qed.

(** ** [add_edges] *)

(** C9. [add_edges] with an edge whose source or target names no vertex
    raises ([ValueError], the error of [__get_node_by_name__]), and the
    graph object is left exactly as it was: vertices, edges, weights and
    cluster index. *)
Theorem add_edges_unknown_vertex (self : Graph.t) (edges : list Graph.Edge) :
  (exists edge, edge ∈ edges /\
     (~ is_vertex self (Graph.start edge) \/ ~ is_vertex self (Graph.end_ edge))) ->
  Graph.add_edges edges self = (Raise ValueError, self).
Proof.
  intros (edge & Hin & Hunk).
  unfold Graph.add_edges, Graph.__add_edges__. fold (resolve self).
  rewrite comprehension_raises; [reflexivity|].
  exists (Graph.start edge, Graph.end_ edge). split.
  - apply (list_elem_of_fmap_2 (fun edge => (Graph.start edge, Graph.end_ edge))) in Hin.
    exact Hin.
  - now apply resolve_unknown.
Qed.

Lemma add_edges_unknown_vertex_witness :
  Graph.add_edges [edge_1_2; edge_1_7] graph_ab = (Raise ValueError, graph_ab).
Proof.
  apply add_edges_unknown_vertex. exists edge_1_7. split.
  - apply list_elem_of_In. simpl. auto.
  - right. intros (v & Hv & Hn). apply list_elem_of_In in Hv. simpl in Hv.
    destruct Hv as [<-|[<-|[]]]; discriminate.
Defined.




(** ** [nodes_in_cluster] *)

(** C8. With [use_dict] left at its default, [nodes_in_cluster] subscripts
    the label with itself ([cluster[cluster]]) and raises [TypeError],
    whether or not the label has members. *)
Theorem nodes_in_cluster_raises (self : Graph.t) (cluster : pyval) :
  Graph.nodes_in_cluster self cluster true = Raise TypeError.
Proof. destruct cluster; reflexivity. Qed.

(** On the existing label ["C1"] of [graph_abcd], with members. *)
Lemma nodes_in_cluster_existing_label :
  members_of graph_abcd (PyStr "C1") = [PyStr "a"; PyStr "b"]
  /\ Graph.nodes_in_cluster graph_abcd (PyStr "C1") true = Raise TypeError.
Proof. split; reflexivity. Qed.

(** ** [save] and [load] *)

Lemma string_length_append (s1 s2 : string) :
  String.length (s1 +:+ s2) = String.length s1 + String.length s2.
Proof. induction s1 as [|c s1 IH]; simpl; [reflexivity|]. now rewrite IH. Qed.

Lemma location_dict_neq (location : string) : location <> location +:+ "_dict".
Proof.
  intros H. apply (f_equal String.length) in H.
  rewrite string_length_append in H. simpl in H. lia.
Qed.

Lemma init_well_formed (g : igraph.t) :
  well_formed g = true -> Graph.__graph__ (Graph.__init__ (Some g)) = g.
Proof.
  unfold well_formed, Graph.__init__, igraph.truth, igraph.vcount. simpl.
  destruct g as [vs es ws]; simpl.
  destruct vs as [|v vs]; simpl; [|reflexivity].
  intros H. apply andb_true_iff in H as [He Hw].
  destruct es as [|e es]; simpl in *.
  - destruct ws; [reflexivity|discriminate].
  - discriminate.
Qed.

(** C3. Saving a graph and loading from the same location gives the
    graph back: vertices with their names and cluster labels, edges with
    their weights, and the cluster index; loading from a location that
    holds no file raises [FileNotFoundError]. *)
Theorem save_load_roundtrip (self : Graph.t) (location : string) (fs : gmap string file) :
  well_formed (Graph.__graph__ self) = true ->
  fst (Graph.save self location fs) = Ok tt
  /\ Graph.load location (snd (Graph.save self location fs)) = Ok self
  /\ (forall (missing : string) (fs' : gmap string file),
        fs' !! missing = None -> Graph.load missing fs' = Raise FileNotFoundError).
Proof.
  intros Hwf. split; [reflexivity|]. split.
  - unfold Graph.save, Graph.load, bind, modify. simpl.
    rewrite lookup_insert_ne by (apply not_eq_sym, location_dict_neq).
    rewrite lookup_insert_eq. rewrite lookup_insert_eq.
    unfold Graph.set_clusters. rewrite init_well_formed by assumption.
    now destruct self.
  - intros missing fs' H. unfold Graph.load. now rewrite H.
Qed.

Lemma save_load_roundtrip_witness :
  fst (Graph.save graph_abcd "foo" ∅) = Ok tt
  /\ Graph.load "foo" (snd (Graph.save graph_abcd "foo" ∅)) = Ok graph_abcd
  /\ (forall (missing : string) (fs' : gmap string file),
        fs' !! missing = None -> Graph.load missing fs' = Raise FileNotFoundError).
Proof. apply save_load_roundtrip. reflexivity. Defined.

(** ** [subgraph] *)

(** C1. On a graph with a vertex, [subgraph] returns no graph: the first
    test of the [while] loop compares the bound method
    [vertex.outdegree] with [out_degree] and raises [TypeError]. *)
Theorem subgraph_raises (self : Graph.t) (out_degree : Z) :
  igraph.vs (Graph.__graph__ self) <> [] ->
  Graph.subgraph self out_degree = Some (Raise TypeError).
Proof.
  intros H. unfold Graph.subgraph, Graph.subgraph_with, igraph.vcount.
  destruct (igraph.vs (Graph.__graph__ self)) as [|v vs]; [congruence|].
  reflexivity.
Qed.

(** Without a vertex the loop body is never entered. *)
Lemma subgraph_no_vertex (self : Graph.t) (out_degree : Z) :
  igraph.vs (Graph.__graph__ self) = [] ->
  Graph.subgraph self out_degree = Some (Ok (Graph.__graph__ self)).
Proof.
  intros H. unfold Graph.subgraph, Graph.subgraph_with, igraph.vcount.
  now rewrite H.
Qed.

Lemma subgraph_raises_witness :
  Graph.subgraph graph_abcd 1 = Some (Raise TypeError).
Proof. apply subgraph_raises. discriminate. Defined.

(** Were the method called ([vertex.outdegree()]), the loop would run on
    edge objects taken before the deletions: with bound 1 on
    [graph_abcd], it deletes both edges of [b] while it prunes [a], and
    [b] is left without its heaviest edge (to [a], weight 2). *)
Lemma subgraph_called_stale_edges :
  Graph.subgraph_with py_call graph_abcd 1
  = Some (Ok {| igraph.vs := igraph.vs (Graph.__graph__ graph_abcd);
                igraph.es := [(0, 3); (2, 0)];
                igraph.weight := [7; 8]%Q |}).
Proof. vm_compute. reflexivity. Qed.

(** ** The similarity matrix of [make_graphs] *)

Section SimilarityMatrix.
Context {num : Type}.
Variable zero : num.
Variables add mul div : num -> num -> num.
Variable sqrt : num -> num.
Hypothesis mul_comm : forall x y, mul x y = mul y x.

Lemma dot_comm (u v : list num) :
  Loader.dot zero add mul u v = Loader.dot zero add mul v u.
Proof.
  unfold Loader.dot. f_equal.
  revert v. induction u as [|x u IH]; intros [|y v]; simpl; try reflexivity.
  now rewrite mul_comm, IH.
Qed.

Lemma cosine_comm (u v : list num) :
  Loader.cosine zero add mul div sqrt u v = Loader.cosine zero add mul div sqrt v u.
Proof. unfold Loader.cosine. now rewrite dot_comm, mul_comm. Qed.

Lemma zero_diagonal_lookup (n : nat) (values : list (list num)) (i j : nat) :
  Loader.zero_diagonal zero n values !! i ≫= (fun row => row !! j)
  = values !! i ≫= (fun row =>
      if bool_decide (i = j) && Nat.ltb i n && Nat.ltb i (length row)
      then Some zero else row !! j).
Proof.
  unfold Loader.zero_diagonal. rewrite list_lookup_imap.
  destruct (values !! i) as [row|]; simpl; [|reflexivity].
  destruct (Nat.ltb i n) eqn:Hn; simpl.
  - destruct (decide (i = j)) as [<-|Hne].
    + rewrite bool_decide_eq_true_2 by reflexivity. simpl.
      destruct (Nat.ltb i (length row)) eqn:Hl.
      * apply Nat.ltb_lt in Hl. now apply list_lookup_insert_eq.
      * apply Nat.ltb_ge in Hl. now rewrite list_insert_ge.
    + rewrite bool_decide_eq_false_2 by assumption. simpl.
      now apply list_lookup_insert_ne.
  - now rewrite andb_false_r.
Qed.

(** C5. The matrix [make_graphs] computes from a feature table is square
    and carries the photo identifiers on both axes; its entries are
    symmetric and its diagonal is zero. Symmetry rests on the
    multiplication being commutative, which is all that is asked of the
    arithmetic. *)
Theorem similarity_matrix_symmetric_zero_diagonal (all_photos : pandas.DataFrame num) :
  length (pandas.values all_photos) = length (pandas.index all_photos) ->
  exists similarity,
    Loader.similarity_matrix zero add mul div sqrt all_photos = Ok similarity
    /\ pandas.index similarity = pandas.index all_photos
    /\ pandas.columns similarity = pandas.index all_photos
    /\ length (pandas.values similarity) = pandas.shape0 similarity
    /\ Forall (fun row => length row = pandas.shape1 similarity) (pandas.values similarity)
    /\ (forall i j, entry similarity i j = entry similarity j i)
    /\ (forall i, i < pandas.shape0 similarity -> entry similarity i i = Some zero).
Proof.
  intros Hlen. unfold Loader.similarity_matrix.
  set (cs := Loader.cosine_similarity zero add mul div sqrt all_photos all_photos).
  assert (pandas.shape0 cs = pandas.shape1 cs) as Hsq by reflexivity.
  rewrite Hsq, Nat.eqb_refl. simpl.
  eexists. split; [reflexivity|]. unfold entry, pandas.shape0, pandas.shape1. simpl.
  set (rows := pandas.values all_photos) in *.
  set (cos := Loader.cosine zero add mul div sqrt).
  assert (forall i, (map (fun u => map (fun v => cos u v) rows) rows) !! i
                    = (fun u => map (fun v => cos u v) rows) <$> rows !! i) as Hrow.
  { intros i. apply list_lookup_fmap. }
  repeat split.
  - unfold Loader.zero_diagonal. now rewrite length_imap, length_map.
  - unfold Loader.zero_diagonal. apply Forall_forall. intros row Hrow'.
    apply list_elem_of_lookup in Hrow' as [i Hi].
    rewrite list_lookup_imap, Hrow in Hi.
    destruct (rows !! i) as [u|]; simpl in Hi; [|discriminate].
    injection Hi as <-.
    destruct (Nat.ltb i (length (pandas.index all_photos)));
      rewrite ?length_insert, length_map; exact Hlen.
  - intros i j. rewrite !zero_diagonal_lookup, !Hrow.
    destruct (decide (i = j)) as [->|Hne]; [reflexivity|].
    rewrite !(bool_decide_eq_false_2 (i = j)), !(bool_decide_eq_false_2 (j = i))
      by congruence.
    simpl.
    destruct (rows !! i) as [u|] eqn:Hi, (rows !! j) as [v|] eqn:Hj; simpl.
    + rewrite !list_lookup_fmap, Hi, Hj. simpl. f_equal. apply cosine_comm.
    + apply lookup_ge_None. rewrite length_map. now apply lookup_ge_None.
    + symmetry. apply lookup_ge_None. rewrite length_map. now apply lookup_ge_None.
    + reflexivity.
  - intros i Hi. rewrite zero_diagonal_lookup, Hrow.
    rewrite bool_decide_eq_true_2 by reflexivity.
    fold rows in Hlen. rewrite <- Hlen in Hi.
    destruct (lookup_lt_is_Some_2 rows i Hi) as [u Hu]. rewrite Hu. simpl.
    rewrite length_map.
    now rewrite (proj2 (Nat.ltb_lt _ _) Hi), <- Hlen, (proj2 (Nat.ltb_lt _ _) Hi).
Qed.

End SimilarityMatrix.

(** Multiplication of floating-point numbers is commutative. *)
Lemma float_mul_comm (x y : float) : PrimFloat.mul x y = PrimFloat.mul y x.
Proof.
  apply Prim2SF_inj. rewrite !mul_spec. unfold SF64mul, SFmul.
  destruct (Prim2SF x) as [sx|sx| |sx mx ex], (Prim2SF y) as [sy|sy| |sy my ey];
    simpl; try reflexivity; try (rewrite xorb_comm; reflexivity).
  now rewrite xorb_comm, Pos.mul_comm, Z.add_comm.
Qed.

Lemma similarity_matrix_symmetric_zero_diagonal_witness :
  exists similarity,
    Loader.similarity_matrix 0%float PrimFloat.add PrimFloat.mul PrimFloat.div
      PrimFloat.sqrt photos_float = Ok similarity
    /\ pandas.index similarity = pandas.index photos_float
    /\ pandas.columns similarity = pandas.index photos_float
    /\ length (pandas.values similarity) = pandas.shape0 similarity
    /\ Forall (fun row => length row = pandas.shape1 similarity) (pandas.values similarity)
    /\ (forall i j, entry similarity i j = entry similarity j i)
    /\ (forall i, i < pandas.shape0 similarity -> entry similarity i i = Some 0%float).
Proof.
  apply (similarity_matrix_symmetric_zero_diagonal 0%float PrimFloat.add PrimFloat.mul
           PrimFloat.div PrimFloat.sqrt float_mul_comm photos_float).
  reflexivity.
Defined.

(** ** Dictionaries with distinct keys *)

Section DictFacts.
Context {K V : Type} `{EqDecision K}.
Implicit Types (d : dict.t K V) (k : K) (v : V).

Lemma dict_get_elem d k v :
  NoDup (map fst d) -> (k, v) ∈ d -> dict.get d k = Some v.
Proof.
  induction d as [|[k' v'] d IH]; simpl; intros Hnd Hin; [inversion Hin|].
  apply NoDup_cons in Hnd as [Hk' Hnd].
  apply elem_of_cons in Hin as [[= -> ->]|Hin].
  - now rewrite decide_True.
  - rewrite decide_False; [now apply IH|].
    intros ->. apply Hk'. now apply (list_elem_of_fmap_2 fst) in Hin.
Qed.

Lemma dict_get_None d k : k ∉ map fst d -> dict.get d k = None.
Proof.
  induction d as [|[k' v'] d IH]; simpl; intros Hk; [reflexivity|].
  apply not_elem_of_cons in Hk as [Hne Hk].
  rewrite decide_False by congruence. now apply IH.
Qed.

Lemma dict_get_Some_elem d k v : dict.get d k = Some v -> (k, v) ∈ d.
Proof.
  induction d as [|[k' v'] d IH]; simpl; [discriminate|].
  destruct (decide (k' = k)) as [->|Hne].
  - intros [= ->]. constructor.
  - intros H. apply elem_of_cons. right. now apply IH.
Qed.

Lemma dict_set_fresh d k v : k ∉ map fst d -> dict.set d k v = d ++ [(k, v)].
Proof.
  induction d as [|[k' v'] d IH]; simpl; intros Hk; [reflexivity|].
  apply not_elem_of_cons in Hk as [Hne Hk].
  rewrite decide_False by congruence. now rewrite IH.
Qed.

Lemma dict_pop_last d k v : k ∉ map fst d -> dict.pop (d ++ [(k, v)]) k = d.
Proof.
  induction d as [|[k' v'] d IH]; simpl; intros Hk.
  - now rewrite decide_True.
  - apply not_elem_of_cons in Hk as [Hne Hk].
    rewrite decide_False by congruence. now rewrite IH.
Qed.

Lemma dict_get_set_eq d k v : dict.get (dict.set d k v) k = Some v.
Proof.
  induction d as [|[k' v'] d IH]; simpl.
  - now rewrite decide_True.
  - destruct (decide (k' = k)) as [->|Hne]; simpl.
    + now rewrite decide_True.
    + now rewrite decide_False.
Qed.

Lemma dict_get_set_ne d k k' v : k <> k' -> dict.get (dict.set d k v) k' = dict.get d k'.
Proof.
  intros Hne. induction d as [|[k0 v0] d IH]; simpl.
  - now rewrite decide_False.
  - destruct (decide (k0 = k)) as [->|Hne0]; simpl.
    + now rewrite !decide_False.
    + destruct (decide (k0 = k')); [reflexivity|assumption].
Qed.

Lemma dict_keys_set d k v v0 :
  dict.get d k = Some v0 -> map fst (dict.set d k v) = map fst d.
Proof.
  induction d as [|[k' v'] d IH]; simpl; [discriminate|].
  destruct (decide (k' = k)) as [->|Hne]; simpl; [reflexivity|].
  intros H. now rewrite IH.
Qed.

End DictFacts.

(** ** Sorting a row *)

Lemma insert_desc_perm x s : pandas.insert_desc x s ≡ₚ x :: s.
Proof.
  induction s as [|y s IH]; simpl; [reflexivity|].
  destruct (Qlt_le_dec (snd x) (snd y)); [|reflexivity].
  rewrite IH. apply perm_swap.
Qed.

Lemma sort_values_perm s : pandas.sort_values s ≡ₚ s.
Proof.
  induction s as [|x s IH]; simpl; [reflexivity|].
  now rewrite insert_desc_perm, IH.
Qed.

Lemma insert_desc_sorted x s :
  StronglySorted heavier s ->
  Forall (fun y => ~ (snd x == snd y)%Q) s ->
  StronglySorted heavier (pandas.insert_desc x s).
Proof.
  induction s as [|y s IH]; simpl; intros Hs Hx.
  - repeat constructor.
  - apply StronglySorted_cons in Hs as [Hy Hs].
    apply Forall_cons in Hx as [Hxy Hx].
    destruct (Qlt_le_dec (snd x) (snd y)) as [Hlt|Hle].
    + apply StronglySorted_cons. split; [|now apply IH].
      rewrite insert_desc_perm. now constructor.
    + assert (snd y < snd x)%Q as Hlt.
      { destruct (Qle_lt_or_eq _ _ Hle) as [H|H]; [exact H|].
        exfalso. apply Hxy. now symmetry. }
      apply StronglySorted_cons. split.
      * constructor; [exact Hlt|].
        eapply Forall_impl; [exact Hy|]. unfold heavier. intros z Hz.
        eapply Qlt_trans; eassumption.
      * apply StronglySorted_cons. now split.
Qed.

Lemma distinct_weights_cons x s :
  distinct_weights (x :: s) ->
  Forall (fun y => ~ (snd x == snd y)%Q) s /\ distinct_weights s.
Proof.
  intros H. split.
  - apply Forall_forall. intros y Hy Heq.
    apply list_elem_of_lookup in Hy as [j Hj].
    specialize (H 0 (S j) x y eq_refl Hj Heq). discriminate.
  - intros i j a b Ha Hb Heq.
    specialize (H (S i) (S j) a b Ha Hb Heq). congruence.
Qed.

Lemma sort_values_sorted s :
  distinct_weights s -> StronglySorted heavier (pandas.sort_values s).
Proof.
  induction s as [|x s IH]; simpl; intros Hd; [constructor|].
  apply distinct_weights_cons in Hd as [Hx Hd].
  apply insert_desc_sorted; [now apply IH|].
  now rewrite sort_values_perm.
Qed.

Lemma sort_values_keys s :
  NoDup (map fst s) -> NoDup (map fst (pandas.sort_values s)).
Proof.
  intros H.
  assert (map fst (pandas.sort_values s) ≡ₚ map fst s) as Hp
    by apply Permutation_map, sort_values_perm.
  now rewrite Hp.
Qed.

(** ** Top-k selection and shrinking *)

Lemma getitem_elem (s : pandas.Series Q) (k : Z) (w : Q) :
  NoDup (map fst s) -> (k, w) ∈ s -> pandas.getitem s k = Ok w.
Proof. intros Hnd Hin. unfold pandas.getitem. now rewrite (dict_get_elem s k w). Qed.

Lemma dict_get_key_elem (d : dict.t Z Q) (k : Z) (w : Q) :
  NoDup (map fst d) -> (k, w) ∈ d -> Loader.dict_get_key d k = Ok w.
Proof. intros Hnd Hin. unfold Loader.dict_get_key. now rewrite (dict_get_elem d k w). Qed.

Lemma top_k_fold (sorted_row : pandas.Series Q) (pre rest suffix : list (Z * Q)) :
  NoDup (map fst sorted_row) ->
  sorted_row = pre ++ rest ++ suffix ->
  fold_left (fun d key =>
               match pandas.getitem sorted_row key with
               | Ok w => dict.set d key w
               | Raise _ => d
               end) (map fst rest) pre
  = pre ++ rest.
Proof.
  intros Hnd. revert pre. induction rest as [|[k w] rest IH]; intros pre Heq; simpl.
  - now rewrite app_nil_r.
  - rewrite (getitem_elem sorted_row k w Hnd).
    2:{ rewrite Heq. apply elem_of_app. right. constructor. }
    rewrite dict_set_fresh.
    2:{ rewrite Heq, map_app in Hnd. apply NoDup_app in Hnd as (_ & Hdis & _).
        intros Hk. apply (Hdis k Hk). simpl. constructor. }
    rewrite (IH (pre ++ [(k, w)])); rewrite <- ?app_assoc; [reflexivity|exact Heq].
Qed.

Lemma top_k_take (k : nat) (row : pandas.Series Q) :
  NoDup (map fst row) -> Loader.top_k k row = take k (pandas.sort_values row).
Proof.
  intros Hnd. unfold Loader.top_k.
  apply (top_k_fold _ [] _ (drop k (pandas.sort_values row))).
  - now apply sort_values_keys.
  - simpl. now rewrite take_drop.
Qed.

Lemma min_from_desc (d : dict.t Z Q) (best : Z) (kbest : Q) (rest : list (Z * Q)) :
  NoDup (map fst d) ->
  (forall x, x ∈ rest -> x ∈ d) ->
  StronglySorted heavier rest ->
  Forall (fun x => (snd x < kbest)%Q) rest ->
  min_from (Loader.dict_get_key d) best kbest (map fst rest)
  = Ok (default best (fst <$> last rest)).
Proof.
  intros Hnd. revert best kbest.
  induction rest as [|[k w] rest IH]; intros best kbest Hin Hs Hlt; simpl.
  - reflexivity.
  - rewrite (dict_get_key_elem d k w Hnd) by (apply Hin; constructor). simpl.
    apply Forall_cons in Hlt as [Hw Hlt]. simpl in Hw.
    apply StronglySorted_cons in Hs as [Hk Hs].
    destruct (Qlt_le_dec w kbest) as [_|Hle].
    2:{ exfalso. eapply Qlt_not_le; eassumption. }
    rewrite IH; [|intros x Hx; apply Hin; now constructor|exact Hs|exact Hk].
    destruct rest as [|p rest']; [reflexivity|].
    change (last ((k, w) :: p :: rest')) with (last (p :: rest')).
    destruct (last (p :: rest')) eqn:Hl; [reflexivity|].
    apply last_None in Hl. discriminate.
Qed.

Lemma py_min_desc (d : dict.t Z Q) (x : Z * Q) :
  NoDup (map fst (d ++ [x])) ->
  StronglySorted heavier (d ++ [x]) ->
  py_min (Loader.dict_get_key (d ++ [x])) (dict.keys (d ++ [x])) = Ok (fst x).
Proof.
  intros Hnd Hs. unfold dict.keys.
  destruct d as [|[k w] d]; simpl.
  - unfold Loader.dict_get_key. simpl. destruct x as [k w]. simpl.
    now rewrite decide_True.
  - rewrite (dict_get_key_elem ((k, w) :: d ++ [x]) k w) by (assumption || constructor).
    simpl. simpl in Hs. apply StronglySorted_cons in Hs as [Hk Hs].
    rewrite (min_from_desc ((k, w) :: d ++ [x]) k w (d ++ [x]) Hnd); try assumption.
    + now rewrite last_snoc.
    + intros y Hy. now constructor.
Qed.

Lemma shrink_while_eq (fuel bound : nat) (d : dict.t Z Q) :
  Loader.shrink_while fuel bound d
  = if Nat.ltb bound (length d) then
      match fuel with
      | O => None
      | S fuel' =>
          match py_min (Loader.dict_get_key d) (dict.keys d) with
          | Raise e => Some (Raise e)
          | Ok min_key => Loader.shrink_while fuel' bound (dict.pop d min_key)
          end
      end
    else Some (Ok d).
Proof. destruct fuel; reflexivity. Qed.

Lemma shrink_while_take (fuel bound : nat) (d : dict.t Z Q) :
  NoDup (map fst d) ->
  StronglySorted heavier d ->
  length d - bound <= fuel ->
  Loader.shrink_while fuel bound d = Some (Ok (take bound d)).
Proof.
  revert d. induction fuel as [|fuel IH]; intros d Hnd Hs Hfuel;
    rewrite shrink_while_eq; destruct (Nat.ltb bound (length d)) eqn:Hb;
    try (apply Nat.ltb_ge in Hb; now rewrite take_ge).
  - apply Nat.ltb_lt in Hb. lia.
  - apply Nat.ltb_lt in Hb.
    destruct d as [|y d'] using rev_ind; [simpl in Hb; lia|]. clear IHd'.
    rewrite py_min_desc by assumption.
    rewrite length_app in Hb, Hfuel. simpl in Hb, Hfuel.
    destruct y as [k w]. simpl.
    rewrite map_app in Hnd. apply NoDup_app in Hnd as (Hnd & Hdis & _).
    rewrite dict_pop_last.
    2:{ intros Hk. apply (Hdis k Hk). simpl. constructor. }
    rewrite IH; [|exact Hnd|eapply StronglySorted_app_1_l; exact Hs|lia].
    now rewrite take_app_le by lia.
Qed.

(** The loop run with a bound of its own, as [make_graphs] never runs
    it: for a row with distinct identifiers and pairwise distinct
    weights, shrinking the top-[k1] neighbour map by removing its
    smallest-weight entry until [k2] entries remain gives the map of the
    top [k2] entries of the row, identifiers and weights. *)
Lemma shrink_top_k (row : pandas.Series Q) (k1 k2 : nat) :
  NoDup (map fst row) ->
  distinct_weights row ->
  k2 <= k1 ->
  Loader.shrink k2 (Loader.top_k k1 row) = Some (Ok (Loader.top_k k2 row)).
Proof.
  intros Hnd Hd Hk. rewrite !top_k_take by assumption.
  pose proof (sort_values_keys row Hnd) as Hnd'.
  pose proof (sort_values_sorted row Hd) as Hs.
  rewrite <- (take_drop k1 (pandas.sort_values row)) in Hnd', Hs.
  rewrite map_app in Hnd'. apply NoDup_app in Hnd' as (Hnd' & _ & _).
  apply StronglySorted_app_1_l in Hs.
  unfold Loader.shrink. rewrite shrink_while_take by (assumption || lia).
  now rewrite take_take, Nat.min_l by lia.
Qed.

Lemma shrink_top_k_row_distinct :
  Loader.shrink 2 (Loader.top_k 3 row_distinct)
  = Some (Ok (Loader.top_k 2 row_distinct)).
Proof.
  apply shrink_top_k.
  - simpl. repeat constructor; intros H; apply list_elem_of_In in H; simpl in H;
      intuition discriminate.
  - intros i j x y Hi Hj Heq.
    destruct i as [|[|[|[|i]]]]; simpl in Hi; try discriminate; injection Hi as <-;
    destruct j as [|[|[|[|j]]]]; simpl in Hj; try discriminate; injection Hj as <-;
    try reflexivity; vm_compute in Heq; discriminate.
  - lia.
Defined.

(** With a tie at the cut the two differ: of the two entries of weight
    3, the direct selection of two keeps the one that comes first in the
    sorted row, the shrinking from three removes that one and keeps the
    other; so it is whichever of the two comes first. *)
Lemma shrink_top_k_row_tie :
  Loader.top_k 3 row_tie = [(1%Z, 5%Q); (2%Z, 3%Q); (3%Z, 3%Q)]
  /\ Loader.shrink 2 (Loader.top_k 3 row_tie) = Some (Ok [(1%Z, 5%Q); (3%Z, 3%Q)])
  /\ Loader.top_k 2 row_tie = [(1%Z, 5%Q); (2%Z, 3%Q)]
  /\ Loader.shrink 2 (Loader.top_k 3 row_tie) <> Some (Ok (Loader.top_k 2 row_tie))
  /\ Loader.shrink 2 (Loader.top_k 3 row_tie_swapped) = Some (Ok [(1%Z, 5%Q); (2%Z, 3%Q)])
  /\ Loader.top_k 2 row_tie_swapped = [(1%Z, 5%Q); (3%Z, 3%Q)].
Proof. repeat split; try (vm_compute; reflexivity). vm_compute. discriminate. Qed.

(** The loop of [make_graphs] compares the lengths with [k], the bound
    the maps were built with: no map is longer, nothing is removed. *)
Lemma working_for_noop (bound : nat) (edge_dict : Loader.edge_dict_t) :
  Forall (fun entry => length (snd entry) <= bound) edge_dict ->
  Loader.working_for bound edge_dict = Some (Ok edge_dict).
Proof.
  induction 1 as [|[key d] rest Hd _ IH]; simpl; [reflexivity|].
  unfold Loader.shrink. rewrite shrink_while_eq.
  simpl in Hd. rewrite (proj2 (Nat.ltb_ge _ _) Hd). now rewrite IH.
Qed.

(** The first round of the loop already stops at [add_edge_dict], with
    the neighbour maps as they were built. *)
Lemma make_graphs_loop_first_round (k nearest : nat) (rest : list nat)
    (edge_dict : Loader.edge_dict_t) :
  Forall (fun entry => length (snd entry) <= k) edge_dict ->
  Loader.make_graphs_loop k (nearest :: rest) edge_dict
  = Some (Raise AttributeError, [(nearest, edge_dict)]).
Proof. intros H. simpl. now rewrite working_for_noop. Qed.

(** ** Self-similarity: [add_similarity] *)

Lemma positions_from_unique {A} (p : A -> bool) (l : list A) (k i : nat) :
  i < length l ->
  (forall j x, l !! j = Some x -> p x = true <-> j = i) ->
  positions_from p k l = [k + i].
Proof.
  revert k i. induction l as [|y l IH]; intros k i Hi Hp; simpl in *; [lia|].
  destruct i as [|i].
  - rewrite (proj2 (Hp 0 y eq_refl) eq_refl).
    rewrite positions_from_nil; [f_equal; lia|].
    intros x Hx. apply list_elem_of_lookup in Hx as [j Hj].
    destruct (p x) eqn:Hpx; [|reflexivity].
    apply (Hp (S j) x Hj) in Hpx. discriminate.
  - destruct (p y) eqn:Hpy.
    + apply (Hp 0 y eq_refl) in Hpy. discriminate.
    + rewrite (IH (S k) i); [f_equal; lia|lia|].
      intros j x Hj. rewrite (Hp (S j) x Hj). lia.
Qed.

Lemma add_vertices_eq (names : list pyval) (self : Graph.t) :
  Graph.add_vertices names self
  = (Ok tt,
     Graph.set_graph
       {| igraph.vs := igraph.vs (Graph.__graph__ self) ++ map vertex_named names;
          igraph.es := igraph.es (Graph.__graph__ self);
          igraph.weight := igraph.weight (Graph.__graph__ self) |} self).
Proof.
  revert self. induction names as [|n names IH]; intros [[vs es ws] c]; simpl.
  - unfold ret, Graph.set_graph. simpl. now rewrite app_nil_r.
  - unfold Graph.add_vertices in *. simpl. unfold bind, modify at 1. simpl.
    rewrite IH. unfold Graph.set_graph, igraph.add_vertex. simpl.
    now rewrite <- app_assoc.
Qed.

Lemma comprehension_all {A B} (f : A -> result B) (l : list A) :
  (forall x, x ∈ l -> exists y, f x = Ok y) ->
  exists ys, comprehension f l = Ok ys
             /\ forall x y, x ∈ l -> f x = Ok y -> y ∈ ys.
Proof.
  induction l as [|a l IH]; intros H; simpl.
  - exists []. split; [reflexivity|]. intros x y Hx. inversion Hx.
  - destruct (H a) as [b Hb]; [constructor|]. rewrite Hb. simpl.
    destruct IH as (ys & -> & Hys); [intros x Hx; apply H; now constructor|].
    simpl. exists (b :: ys). split; [reflexivity|].
    intros x y Hx Hfx. apply elem_of_cons in Hx as [->|Hx].
    + rewrite Hb in Hfx. injection Hfx as <-. constructor.
    + constructor. eauto.
Qed.

Section AddSimilarity.
Variable similarity : pandas.DataFrame Q.
Let photos := pandas.index similarity.
Hypothesis columns_index : pandas.columns similarity = photos.
Hypothesis photos_distinct : NoDup photos.
Hypothesis rows_count : length (pandas.values similarity) = length photos.
Hypothesis rows_full :
  Forall (fun r => length r = length photos) (pandas.values similarity).

Let named (self : Graph.t) : Prop :=
  igraph.vs (Graph.__graph__ self) = map vertex_named (map PyInt photos).

Lemma get_node_photo (self : Graph.t) (i : nat) (p : Z) :
  named self -> photos !! i = Some p ->
  Graph.__get_node_by_name__ self (PyInt p) = Ok i.
Proof.
  intros Hv Hi. unfold Graph.__get_node_by_name__, igraph.select_name, positions.
  rewrite Hv, (positions_from_unique _ _ 0 i); [reflexivity| |].
  - rewrite !length_map. now apply lookup_lt_Some in Hi.
  - intros j x Hj. rewrite !list_lookup_fmap in Hj.
    destruct (photos !! j) as [q|] eqn:Hq; simpl in Hj; [|discriminate].
    injection Hj as <-. simpl. rewrite bool_decide_eq_true. split.
    + intros [= ->]. eapply NoDup_lookup; eassumption.
    + intros ->. congruence.
Qed.

Lemma loc_photo (i : nat) (p : Z) :
  photos !! i = Some p ->
  exists r, pandas.loc similarity p = Ok (combine photos r) /\ length r = length photos.
Proof.
  intros Hi. unfold pandas.loc, positions. fold photos.
  rewrite (positions_from_unique _ _ 0 i).
  - simpl. unfold pandas.iloc. fold photos. rewrite Hi.
    destruct (lookup_lt_is_Some_2 (pandas.values similarity) i) as [r Hr].
    { rewrite rows_count. now apply lookup_lt_Some in Hi. }
    rewrite Hr. simpl. rewrite columns_index. exists r. split; [reflexivity|].
    eapply (proj1 (Forall_forall _ _) rows_full). eapply list_elem_of_lookup_2. exact Hr.
  - now apply lookup_lt_Some in Hi.
  - intros j x Hj. rewrite bool_decide_eq_true. split.
    + intros ->. eapply NoDup_lookup; eassumption.
    + intros ->. congruence.
Qed.

Lemma add_similarity_photo_step (self : Graph.t) (i : nat) (p : Z) :
  named self -> photos !! i = Some p ->
  exists self',
    Graph.add_similarity_photo similarity p self = (Ok tt, self')
    /\ named self'
    /\ (i, i) ∈ igraph.es (Graph.__graph__ self')
    /\ (forall e, e ∈ igraph.es (Graph.__graph__ self) ->
                  e ∈ igraph.es (Graph.__graph__ self')).
Proof.
  intros Hv Hi. destruct (loc_photo i p Hi) as (r & Hloc & Hr).
  unfold Graph.add_similarity_photo. rewrite Hloc.
  unfold Graph.__add_edges__. fold (resolve self).
  set (row := pandas.sort_values (combine photos r)).
  assert (forall x, x ∈ row -> fst x ∈ photos) as Hlabels.
  { intros x Hx. unfold row in Hx. rewrite sort_values_perm in Hx.
    destruct x as [q w]. apply elem_of_zip_l in Hx. exact Hx. }
  assert (exists w, (p, w) ∈ row) as [w Hpw].
  { destruct (lookup_lt_is_Some_2 r i) as [w Hw].
    { rewrite Hr. now apply lookup_lt_Some in Hi. }
    exists w. unfold row. rewrite sort_values_perm.
    apply list_elem_of_lookup. exists i. unfold combine.
    change (zip photos r !! i = Some (p, w)).
    rewrite lookup_zip_with, Hi. simpl. now rewrite Hw. }
  destruct (comprehension_all (resolve self)
              (map (fun other => (PyInt p, PyInt (fst other))) row))
    as (nodes & Hnodes & Hin).
  { intros e He. apply list_elem_of_fmap in He as (x & -> & Hx).
    apply Hlabels, list_elem_of_lookup in Hx as [j Hj].
    exists (i, j). unfold resolve. simpl.
    now rewrite (get_node_photo self i p Hv Hi), (get_node_photo self j _ Hv Hj). }
  rewrite Hnodes. eexists. split; [reflexivity|]. simpl. repeat split.
  - exact Hv.
  - apply elem_of_app. right.
    apply (Hin (PyInt p, PyInt p)).
    + apply (list_elem_of_fmap_2 (fun other => (PyInt p, PyInt (fst other))) row (p, w) Hpw).
    + unfold resolve. simpl. now rewrite (get_node_photo self i p Hv Hi).
  - intros e He. apply elem_of_app. now left.
Qed.

Lemma add_similarity_loop (rest : list Z) (self : Graph.t) :
  (forall p, p ∈ rest -> p ∈ photos) ->
  named self ->
  exists self',
    for_each rest (Graph.add_similarity_photo similarity) self = (Ok tt, self')
    /\ Graph.clusters self' = Graph.clusters self
    /\ named self'
    /\ (forall e, e ∈ igraph.es (Graph.__graph__ self) ->
                  e ∈ igraph.es (Graph.__graph__ self'))
    /\ (forall i p, photos !! i = Some p -> p ∈ rest ->
                    (i, i) ∈ igraph.es (Graph.__graph__ self')).
Proof.
  revert self. induction rest as [|p rest IH]; intros self Hsub Hv; simpl.
  - exists self. repeat split; auto. intros i p _ Hp. inversion Hp.
  - destruct (proj1 (list_elem_of_lookup photos p) (Hsub p ltac:(constructor))) as [i Hi].
    destruct (add_similarity_photo_step self i p Hv Hi)
      as (s1 & Hrun & Hv1 & Hloop & Hmono).
    assert (Graph.clusters s1 = Graph.clusters self) as Hc1.
    { revert Hrun. unfold Graph.add_similarity_photo.
      destruct (pandas.loc similarity p); [|intros [= _ <-]; reflexivity].
      unfold Graph.__add_edges__. destruct (comprehension _ _); intros [= <-]; reflexivity. }
    destruct (IH s1) as (s2 & Hrun2 & Hc2 & Hv2 & Hmono2 & Hloops2);
      [intros q Hq; apply Hsub; now constructor|exact Hv1|].
    exists s2. unfold bind. rewrite Hrun, Hrun2. repeat split; auto.
    + congruence.
    + intros j q Hj Hq. apply elem_of_cons in Hq as [->|Hq]; [|eauto].
      assert (j = i) as -> by (eapply NoDup_lookup; eassumption).
      auto.
Qed.

(** C4. [add_similarity] does insert self-loops: on every similarity
    frame it accepts (the same distinct labels on both axes, full rows) it
    returns normally, and the graph it has built holds, for every photo,
    an edge from its vertex to itself. *)
Theorem add_similarity_self_loops :
  exists self',
    Graph.add_similarity similarity (Graph.__init__ None) = (Ok tt, self')
    /\ igraph.vs (Graph.__graph__ self') = map vertex_named (map PyInt photos)
    /\ forall i, i < length photos -> (i, i) ∈ igraph.es (Graph.__graph__ self').
Proof.
  unfold Graph.add_similarity. fold photos. rewrite columns_index, Nat.eqb_refl. simpl.
  rewrite bool_decide_eq_true_2 by reflexivity. simpl.
  unfold bind. rewrite add_vertices_eq. simpl.
  destruct (add_similarity_loop photos
              (Graph.set_graph
                 {| igraph.vs := map vertex_named (map PyInt photos);
                    igraph.es := []; igraph.weight := [] |} (Graph.__init__ None)))
    as (s & Hrun & _ & Hv & _ & Hloops); [auto|reflexivity|].
  exists s. split; [exact Hrun|]. split; [exact Hv|].
  intros i Hi. destruct (lookup_lt_is_Some_2 photos i Hi) as [p Hp].
  apply (Hloops i p Hp). eapply list_elem_of_lookup_2. exact Hp.
Qed.
End AddSimilarity.

Lemma add_similarity_self_loops_witness :
  exists self',
    Graph.add_similarity similarity_12 (Graph.__init__ None) = (Ok tt, self')
    /\ igraph.vs (Graph.__graph__ self')
       = map vertex_named (map PyInt (pandas.index similarity_12))
    /\ forall i, i < length (pandas.index similarity_12) ->
                 (i, i) ∈ igraph.es (Graph.__graph__ self').
Proof.
  apply add_similarity_self_loops.
  - reflexivity.
  - simpl. repeat constructor; intros H; apply list_elem_of_In in H; simpl in H;
      intuition discriminate.
  - reflexivity.
  - repeat constructor.
Defined.

(** On two photos: the graph [add_similarity] builds, with the self-loops
    (0, 0) and (1, 1) of weight 0; and the neighbour maps of
    [make_graphs], which keep the zeroed self entry once [k] reaches the
    number of photos. *)
Lemma add_similarity_two_photos :
  Graph.add_similarity similarity_12 (Graph.__init__ None)
  = (Ok tt,
     {| Graph.__graph__ :=
          {| igraph.vs := [ {| igraph.name := PyInt 1; igraph.cluster := PyNone |};
                            {| igraph.name := PyInt 2; igraph.cluster := PyNone |} ];
             igraph.es := [(0, 1); (0, 0); (1, 0); (1, 1)];
             igraph.weight := [1 # 2; 0; 1 # 2; 0]%Q |};
        Graph.clusters := [] |})
  /\ has_self_loop
       (Graph.__graph__ (snd (Graph.add_similarity similarity_12 (Graph.__init__ None))))
     = true
  /\ Loader.make_edge_dict similarity_12 2
     = Ok [(1%Z, [(2%Z, (1 # 2)%Q); (1%Z, 0%Q)]); (2%Z, [(1%Z, (1 # 2)%Q); (2%Z, 0%Q)])].
Proof. repeat split; vm_compute; reflexivity. Qed.

(** ** Cluster membership *)

Lemma occurrences_zero `{EqDecision A} (x : A) (l : list A) :
  occurrences x l = 0 <-> x ∉ l.
Proof.
  induction l as [|y l IH]; simpl.
  - split; [intros _ H; inversion H|reflexivity].
  - rewrite not_elem_of_cons. destruct (decide (y = x)) as [->|Hne]; simpl.
    + split; [discriminate|intros [H _]; congruence].
    + rewrite IH. split; [intros H; split; [congruence|exact H]|intros [_ H]; exact H].
Qed.

Lemma occurrences_app `{EqDecision A} (x : A) (l1 l2 : list A) :
  occurrences x (l1 ++ l2) = occurrences x l1 + occurrences x l2.
Proof. induction l1 as [|y l1 IH]; simpl; [reflexivity|]. rewrite IH. lia. Qed.

Lemma list_remove_occurrences `{EqDecision A} (x : A) (l : list A) (m : nat) :
  occurrences x l = S m ->
  exists l', list_remove x l = Ok l' /\ occurrences x l' = m.
Proof.
  revert m. induction l as [|y l IH]; simpl; intros m H; [discriminate|].
  destruct (decide (y = x)) as [->|Hne]; simpl in *.
  - exists l. split; [reflexivity|lia].
  - destruct (IH m H) as (l' & -> & Hocc). simpl. exists (y :: l'). split; [reflexivity|].
    simpl. now rewrite decide_False.
Qed.

Lemma positions_from_elem {A} (p : A -> bool) (i j : nat) (l : list A) :
  j ∈ positions_from p i l -> exists x, l !! (j - i) = Some x /\ p x = true /\ i <= j.
Proof.
  revert i. induction l as [|y l IH]; simpl; intros i Hj; [inversion Hj|].
  assert (j ∈ positions_from p (S i) l ->
          exists x, (y :: l) !! (j - i) = Some x /\ p x = true /\ i <= j) as Hrec.
  { intros H. destruct (IH _ H) as (x & Hx & Hp & Hle). exists x.
    replace (j - i) with (S (j - S i)) by lia. simpl. repeat split; [assumption..|lia]. }
  destruct (p y) eqn:Hy; [|auto].
  apply elem_of_cons in Hj as [->|Hj]; [|auto].
  exists y. rewrite Nat.sub_diag. auto.
Qed.

Lemma positions_from_alter {A} (p : A -> bool) (f : A -> A) (i j : nat) (l : list A) :
  (forall x, p (f x) = p x) -> positions_from p i (alter f j l) = positions_from p i l.
Proof.
  intros Hf. revert i j. induction l as [|y l IH]; intros i [|j]; simpl;
    rewrite ?Hf; try reflexivity.
  change (list_alter f j l) with (alter f j l). now rewrite IH.
Qed.

Lemma get_node_lookup (self : Graph.t) (n : pyval) (i : nat) :
  Graph.__get_node_by_name__ self n = Ok i ->
  exists v, igraph.vs (Graph.__graph__ self) !! i = Some v /\ igraph.name v = n.
Proof.
  unfold Graph.__get_node_by_name__, igraph.select_name, positions.
  destruct (positions_from _ 0 _) as [|i' [|? ?]] eqn:Hp; try discriminate.
  intros [= ->].
  destruct (positions_from_elem (fun v => bool_decide (igraph.name v = n)) 0 i
              (igraph.vs (Graph.__graph__ self))) as (v & Hv & Hn & _).
  { rewrite Hp. constructor. }
  rewrite Nat.sub_0_r in Hv. exists v. split; [exact Hv|].
  now apply bool_decide_eq_true in Hn.
Qed.

Lemma get_node_set_cluster (self : Graph.t) (i : nat) (c : pyval)
    (clusters : dict.t pyval (list pyval)) (m : pyval) :
  Graph.__get_node_by_name__
    {| Graph.__graph__ := igraph.set_attribute i Graph.CLUSTER c (Graph.__graph__ self);
       Graph.clusters := clusters |} m
  = Graph.__get_node_by_name__ self m.
Proof.
  unfold Graph.__get_node_by_name__, igraph.select_name, positions. simpl.
  now rewrite positions_from_alter.
Qed.

Lemma label_of_set_cluster (self : Graph.t) (n : pyval) (i : nat) (c : pyval)
    (clusters : dict.t pyval (list pyval)) :
  Graph.__get_node_by_name__ self n = Ok i ->
  label_of {| Graph.__graph__ := igraph.set_attribute i Graph.CLUSTER c (Graph.__graph__ self);
              Graph.clusters := clusters |} i
  = Some c.
Proof.
  intros H. destruct (get_node_lookup self n i H) as (v & Hv & _).
  unfold label_of. simpl. now rewrite list_lookup_alter_eq, Hv.
Qed.

Lemma add_to_cluster_one_eq (self : Graph.t) (n L : pyval) (i : nat) :
  Graph.__get_node_by_name__ self n = Ok i ->
  Graph.add_to_cluster_one n L self
  = (Ok tt,
     {| Graph.__graph__ := igraph.set_attribute i Graph.CLUSTER L (Graph.__graph__ self);
        Graph.clusters :=
          dict.set (if dict.contains (Graph.clusters self) L
                    then Graph.clusters self
                    else dict.set (Graph.clusters self) L [])
                   L (members_of self L ++ [n]) |}).
Proof.
  intros Hn.
  unfold Graph.add_to_cluster_one, bind, modify, ret, Graph.__add_label__, members_of,
    dict.contains.
  destruct (dict.get (Graph.clusters self) L) as [l|] eqn:Hl; simpl.
  - rewrite Hl. simpl.
    change (Graph.__get_node_by_name__ _ n) with (Graph.__get_node_by_name__ self n).
    now rewrite Hn.
  - rewrite dict_get_set_eq. simpl.
    change (Graph.__get_node_by_name__ _ n) with (Graph.__get_node_by_name__ self n).
    now rewrite Hn.
Qed.

Lemma remove_from_cluster_eq (self : Graph.t) (n L : pyval) (l l' : list pyval) (i : nat) :
  Graph.__get_node_by_name__ self n = Ok i ->
  dict.get (Graph.clusters self) L = Some l ->
  list_remove n l = Ok l' ->
  Graph.remove_from_cluster (Graph.One n) L self
  = (Ok tt,
     {| Graph.__graph__ :=
          igraph.set_attribute i Graph.CLUSTER
            (Graph.first_cluster_of (dict.set (Graph.clusters self) L l') n)
            (Graph.__graph__ self);
        Graph.clusters := dict.set (Graph.clusters self) L l' |}).
Proof.
  intros Hn Hl Hr.
  unfold Graph.remove_from_cluster, Graph.remove_from_cluster_one, dict.contains.
  rewrite Hl. simpl. rewrite Hr.
  unfold bind, ret, Graph.__add_label__.
  change (Graph.__get_node_by_name__ _ n) with (Graph.__get_node_by_name__ self n).
  now rewrite Hn.
Qed.

Lemma first_cluster_of_none (items : dict.t pyval (list pyval)) (n : pyval) :
  (forall L l, (L, l) ∈ items -> n ∉ l) -> Graph.first_cluster_of items n = PyNone.
Proof.
  induction items as [|[L l] items IH]; simpl; intros H; [reflexivity|].
  unfold list_in. rewrite bool_decide_eq_false_2 by (apply (H L); constructor).
  apply IH. intros L' l' Hin. apply (H L'). now constructor.
Qed.

Lemma first_cluster_of_some (items : dict.t pyval (list pyval)) (n : pyval) :
  (exists L l, (L, l) ∈ items /\ n ∈ l) ->
  exists L l, (L, l) ∈ items /\ n ∈ l /\ Graph.first_cluster_of items n = L.
Proof.
  induction items as [|[L l] items IH]; simpl; intros (L' & l' & Hin & Hn).
  - inversion Hin.
  - unfold list_in. destruct (decide (n ∈ l)) as [Hl|Hl].
    + rewrite bool_decide_eq_true_2 by assumption. exists L, l.
      repeat split; [constructor|assumption].
    + rewrite bool_decide_eq_false_2 by assumption.
      apply elem_of_cons in Hin as [[= -> ->]|Hin]; [contradiction|].
      destruct IH as (L'' & l'' & Hin'' & Hn'' & Heq); [now exists L', l'|].
      exists L'', l''. repeat split; [now constructor|assumption..].
Qed.

Lemma dict_get_None_keys {K V} `{EqDecision K} (d : dict.t K V) (k : K) :
  dict.get d k = None -> k ∉ map fst d.
Proof.
  induction d as [|[k' v'] d IH]; simpl; intros H Hin; [inversion Hin|].
  destruct (decide (k' = k)) as [->|Hne]; [discriminate|].
  apply elem_of_cons in Hin as [->|Hin]; [congruence|]. now apply IH.
Qed.

Lemma dict_set_NoDup {K V} `{EqDecision K} (d : dict.t K V) (k : K) (v : V) :
  NoDup (map fst d) -> NoDup (map fst (dict.set d k v)).
Proof.
  intros Hnd. destruct (dict.get d k) as [v0|] eqn:Hk.
  - now rewrite (dict_keys_set d k v v0).
  - apply dict_get_None_keys in Hk. rewrite dict_set_fresh, map_app by assumption.
    apply NoDup_app. repeat split; [assumption| |apply NoDup_singleton].
    intros x Hx Hx'. simpl in Hx'. apply list_elem_of_singleton in Hx' as ->. contradiction.
Qed.

Lemma first_cluster_of_get_none (items : dict.t pyval (list pyval)) (n : pyval) :
  NoDup (map fst items) ->
  (forall L l, dict.get items L = Some l -> n ∉ l) ->
  Graph.first_cluster_of items n = PyNone.
Proof.
  intros Hnd H. apply first_cluster_of_none. intros L l Hin.
  apply (H L). now apply dict_get_elem.
Qed.

Lemma first_cluster_of_get_some (items : dict.t pyval (list pyval)) (n : pyval) :
  NoDup (map fst items) ->
  (exists L l, dict.get items L = Some l /\ n ∈ l) ->
  exists L l, dict.get items L = Some l /\ n ∈ l /\ Graph.first_cluster_of items n = L.
Proof.
  intros Hnd (L & l & Hget & Hn).
  destruct (first_cluster_of_some items n) as (L' & l' & Hin & Hn' & Heq).
  { exists L, l. split; [now apply dict_get_Some_elem|assumption]. }
  exists L', l'. repeat split; [now apply dict_get_elem|assumption..].
Qed.

Lemma members_of_get (self : Graph.t) (L : pyval) (l : list pyval) :
  dict.get (Graph.clusters self) L = Some l -> members_of self L = l.
Proof. unfold members_of. now intros ->. Qed.

Lemma members_of_elem (self : Graph.t) (L n : pyval) :
  n ∈ members_of self L ->
  exists l, dict.get (Graph.clusters self) L = Some l /\ n ∈ l.
Proof.
  unfold members_of. destruct (dict.get (Graph.clusters self) L) as [l|]; simpl.
  - intros H. now exists l.
  - intros H. inversion H.
Qed.

(** What one [add_to_cluster] of a known vertex does. *)
Lemma add_to_cluster_spec (self : Graph.t) (n L : pyval) (i : nat) :
  NoDup (dict.keys (Graph.clusters self)) ->
  Graph.__get_node_by_name__ self n = Ok i ->
  exists s1,
    Graph.add_to_cluster (Graph.One n) L self = (Ok tt, s1)
    /\ NoDup (dict.keys (Graph.clusters s1))
    /\ (forall m, Graph.__get_node_by_name__ s1 m = Graph.__get_node_by_name__ self m)
    /\ dict.get (Graph.clusters s1) L = Some (members_of self L ++ [n])
    /\ (forall L', L' <> L ->
          dict.get (Graph.clusters s1) L' = dict.get (Graph.clusters self) L')
    /\ label_of s1 i = Some L.
Proof.
  intros Hnd Hn. eexists. split; [apply add_to_cluster_one_eq; exact Hn|].
  unfold dict.keys in *. simpl. repeat split.
  - apply dict_set_NoDup. destruct (dict.contains _ _); [assumption|].
    now apply dict_set_NoDup.
  - intros m. apply get_node_set_cluster.
  - apply dict_get_set_eq.
  - intros L' Hne. rewrite dict_get_set_ne by congruence.
    destruct (dict.contains _ _); [reflexivity|]. now rewrite dict_get_set_ne by congruence.
  - eapply label_of_set_cluster. exact Hn.
Qed.

(** What one [remove_from_cluster] of a known vertex recorded under the
    label does. *)
Lemma remove_from_cluster_spec (self : Graph.t) (n L : pyval) (l : list pyval)
    (i m : nat) :
  NoDup (dict.keys (Graph.clusters self)) ->
  Graph.__get_node_by_name__ self n = Ok i ->
  dict.get (Graph.clusters self) L = Some l ->
  occurrences n l = S m ->
  exists s1 l',
    Graph.remove_from_cluster (Graph.One n) L self = (Ok tt, s1)
    /\ NoDup (dict.keys (Graph.clusters s1))
    /\ dict.get (Graph.clusters s1) L = Some l'
    /\ occurrences n l' = m
    /\ (forall L', L' <> L ->
          dict.get (Graph.clusters s1) L' = dict.get (Graph.clusters self) L')
    /\ label_of s1 i = Some (Graph.first_cluster_of (Graph.clusters s1) n).
Proof.
  intros Hnd Hn Hl Hocc.
  destruct (list_remove_occurrences n l m Hocc) as (l' & Hr & Hocc').
  eexists. exists l'. split; [eapply remove_from_cluster_eq; eassumption|].
  unfold dict.keys in *. simpl. repeat split.
  - now apply dict_set_NoDup.
  - apply dict_get_set_eq.
  - exact Hocc'.
  - intros L' Hne. now rewrite dict_get_set_ne by congruence.
  - eapply label_of_set_cluster. exact Hn.
Qed.

(** C6. For a vertex [n] recorded exactly once under [L],
    [remove_from_cluster(n, L)] returns normally; afterwards [n] is not in
    the member list of [L], the other member lists are as before, and the
    label field of the vertex is the first label of the cluster index
    whose list holds [n]: [None] when no other cluster lists [n], and
    otherwise a label other than [L] that still lists it. *)
Theorem remove_from_cluster_once (self : Graph.t) (n L : pyval) (l : list pyval) (i : nat) :
  NoDup (dict.keys (Graph.clusters self)) ->
  Graph.__get_node_by_name__ self n = Ok i ->
  dict.get (Graph.clusters self) L = Some l ->
  occurrences n l = 1 ->
  exists self',
    Graph.remove_from_cluster (Graph.One n) L self = (Ok tt, self')
    /\ (n ∉ members_of self' L)
    /\ (forall L', L' <> L -> members_of self' L' = members_of self L')
    /\ label_of self' i = Some (Graph.first_cluster_of (Graph.clusters self') n)
    /\ ((forall L', L' <> L -> n ∉ members_of self L') -> label_of self' i = Some PyNone)
    /\ ((exists L', L' <> L /\ n ∈ members_of self L') ->
        exists L', L' <> L /\ n ∈ members_of self' L' /\ label_of self' i = Some L').
Proof.
  intros Hnd Hn Hl Hocc.
  destruct (remove_from_cluster_spec self n L l i 0 Hnd Hn Hl Hocc)
    as (s & l' & Hrun & Hnd' & Hl' & Hocc' & Hother & Hlabel).
  apply occurrences_zero in Hocc'.
  exists s. split; [exact Hrun|]. split; [now rewrite (members_of_get s L l')|].
  split; [intros L' Hne; unfold members_of; now rewrite Hother|].
  split; [exact Hlabel|]. split.
  - intros Hnone. rewrite Hlabel. f_equal.
    apply first_cluster_of_get_none; [exact Hnd'|].
    intros L' l0 Hget. destruct (decide (L' = L)) as [->|Hne].
    + congruence.
    + rewrite Hother in Hget by assumption.
      rewrite <- (members_of_get self L' l0 Hget). now apply Hnone.
  - intros (L' & Hne & Hin).
    apply members_of_elem in Hin as (l0 & Hget & Hin).
    destruct (first_cluster_of_get_some (Graph.clusters s) n Hnd')
      as (L'' & l'' & Hget'' & Hin'' & Hfirst).
    { exists L', l0. split; [now rewrite Hother|exact Hin]. }
    exists L''. split; [congruence|].
    split; [now rewrite (members_of_get s L'' l'')|]. now rewrite Hlabel, Hfirst.
Qed.

Lemma remove_from_cluster_once_witness :
  exists self',
    Graph.remove_from_cluster (Graph.One (PyStr "a")) (PyStr "A") graph_a_in_A = (Ok tt, self')
    /\ (PyStr "a" ∉ members_of self' (PyStr "A"))
    /\ (forall L', L' <> PyStr "A" -> members_of self' L' = members_of graph_a_in_A L')
    /\ label_of self' 0
       = Some (Graph.first_cluster_of (Graph.clusters self') (PyStr "a"))
    /\ ((forall L', L' <> PyStr "A" -> PyStr "a" ∉ members_of graph_a_in_A L') ->
        label_of self' 0 = Some PyNone)
    /\ ((exists L', L' <> PyStr "A" /\ PyStr "a" ∈ members_of graph_a_in_A L') ->
        exists L', L' <> PyStr "A" /\ PyStr "a" ∈ members_of self' L'
                   /\ label_of self' 0 = Some L').
Proof.
  apply (remove_from_cluster_once graph_a_in_A (PyStr "a") (PyStr "A") [PyStr "a"] 0).
  - simpl. apply NoDup_singleton.
  - reflexivity.
  - reflexivity.
  - reflexivity.
Defined.

(** C6, as stated for every member, fails for a vertex recorded twice:
    after one removal it is still listed under the label, and its label
    field is still that label. *)
Lemma remove_from_cluster_counterexample :
  PyStr "a" ∈ members_of graph_a_twice_in_B (PyStr "B")
  /\ (forall L', L' <> PyStr "B" -> PyStr "a" ∉ members_of graph_a_twice_in_B L')
  /\ exists self',
       Graph.remove_from_cluster (Graph.One (PyStr "a")) (PyStr "B") graph_a_twice_in_B
       = (Ok tt, self')
       /\ PyStr "a" ∈ members_of self' (PyStr "B")
       /\ label_of self' 0 = Some (PyStr "B").
Proof.
  split; [apply list_elem_of_In; simpl; auto|]. split.
  - intros L' Hne. unfold members_of. simpl.
    rewrite decide_False by congruence. simpl. intros H. inversion H.
  - eexists. split; [vm_compute; reflexivity|].
    split; [apply list_elem_of_In; simpl; auto|reflexivity].
Qed.

(** C10. Two [add_to_cluster(n, L)] record [n] twice more under [L]; one
    [remove_from_cluster(n, L)] then takes a single occurrence away, so
    [n] is still listed under [L]. The label field is then the first
    label of the cluster index whose list holds [n]: [L] itself when no
    other cluster lists [n]. *)
Theorem add_twice_remove_once (self : Graph.t) (n L : pyval) (i : nat) :
  NoDup (dict.keys (Graph.clusters self)) ->
  Graph.__get_node_by_name__ self n = Ok i ->
  exists s1 s2 s3,
    Graph.add_to_cluster (Graph.One n) L self = (Ok tt, s1)
    /\ Graph.add_to_cluster (Graph.One n) L s1 = (Ok tt, s2)
    /\ occurrences n (members_of s2 L) = 2 + occurrences n (members_of self L)
    /\ label_of s2 i = Some L
    /\ Graph.remove_from_cluster (Graph.One n) L s2 = (Ok tt, s3)
    /\ occurrences n (members_of s3 L) = 1 + occurrences n (members_of self L)
    /\ n ∈ members_of s3 L
    /\ label_of s3 i = Some (Graph.first_cluster_of (Graph.clusters s3) n)
    /\ ((forall L', L' <> L -> n ∉ members_of self L') -> label_of s3 i = Some L).
Proof.
  intros Hnd Hn.
  destruct (add_to_cluster_spec self n L i Hnd Hn)
    as (s1 & Hrun1 & Hnd1 & Hnode1 & Hl1 & Hother1 & _).
  assert (Graph.__get_node_by_name__ s1 n = Ok i) as Hn1 by now rewrite Hnode1.
  destruct (add_to_cluster_spec s1 n L i Hnd1 Hn1)
    as (s2 & Hrun2 & Hnd2 & Hnode2 & Hl2 & Hother2 & Hlabel2).
  assert (Graph.__get_node_by_name__ s2 n = Ok i) as Hn2 by now rewrite Hnode2.
  rewrite (members_of_get s1 L _ Hl1) in Hl2.
  assert (occurrences n ((members_of self L ++ [n]) ++ [n])
          = S (S (occurrences n (members_of self L)))) as Hocc2.
  { rewrite !occurrences_app. simpl. rewrite decide_True by reflexivity. lia. }
  destruct (remove_from_cluster_spec s2 n L _ i _ Hnd2 Hn2 Hl2 Hocc2)
    as (s3 & l3 & Hrun3 & Hnd3 & Hl3 & Hocc3 & Hother3 & Hlabel3).
  assert (n ∈ l3) as Hin3.
  { destruct (decide (n ∈ l3)) as [H|H]; [exact H|].
    apply occurrences_zero in H. congruence. }
  exists s1, s2, s3. repeat split; try assumption.
  - now rewrite (members_of_get s2 L _ Hl2).
  - now rewrite (members_of_get s3 L _ Hl3).
  - now rewrite (members_of_get s3 L _ Hl3).
  - intros Hnone. rewrite Hlabel3. f_equal.
    destruct (first_cluster_of_get_some (Graph.clusters s3) n Hnd3)
      as (L' & l' & Hget & Hin & Hfirst); [now exists L, l3|].
    rewrite Hfirst. destruct (decide (L' = L)) as [->|Hne]; [reflexivity|].
    exfalso. apply (Hnone L' Hne).
    rewrite Hother3, Hother2, Hother1 in Hget by assumption.
    now rewrite (members_of_get self L' l' Hget).
Qed.

Lemma add_twice_remove_once_witness :
  exists s1 s2 s3,
    Graph.add_to_cluster (Graph.One (PyStr "a")) (PyStr "B") graph_a = (Ok tt, s1)
    /\ Graph.add_to_cluster (Graph.One (PyStr "a")) (PyStr "B") s1 = (Ok tt, s2)
    /\ occurrences (PyStr "a") (members_of s2 (PyStr "B"))
       = 2 + occurrences (PyStr "a") (members_of graph_a (PyStr "B"))
    /\ label_of s2 0 = Some (PyStr "B")
    /\ Graph.remove_from_cluster (Graph.One (PyStr "a")) (PyStr "B") s2 = (Ok tt, s3)
    /\ occurrences (PyStr "a") (members_of s3 (PyStr "B"))
       = 1 + occurrences (PyStr "a") (members_of graph_a (PyStr "B"))
    /\ PyStr "a" ∈ members_of s3 (PyStr "B")
    /\ label_of s3 0 = Some (Graph.first_cluster_of (Graph.clusters s3) (PyStr "a"))
    /\ ((forall L', L' <> PyStr "B" -> PyStr "a" ∉ members_of graph_a L') ->
        label_of s3 0 = Some (PyStr "B")).
Proof.
  apply (add_twice_remove_once graph_a (PyStr "a") (PyStr "B") 0).
  - simpl. apply NoDup_nil_2.
  - reflexivity.
Defined.

(** C10, as stated for every vertex and label, fails for a vertex that
    an earlier cluster lists: ["a"] is in ["A"]; after it is added twice
    to ["B"] and removed once, it is still listed under ["B"], but its
    label field is ["A"]. *)
Lemma add_twice_remove_once_counterexample :
  exists s1 s2 s3,
    Graph.add_to_cluster (Graph.One (PyStr "a")) (PyStr "B") graph_a_in_A = (Ok tt, s1)
    /\ Graph.add_to_cluster (Graph.One (PyStr "a")) (PyStr "B") s1 = (Ok tt, s2)
    /\ members_of s2 (PyStr "B") = [PyStr "a"; PyStr "a"]
    /\ label_of s2 0 = Some (PyStr "B")
    /\ Graph.remove_from_cluster (Graph.One (PyStr "a")) (PyStr "B") s2 = (Ok tt, s3)
    /\ members_of s3 (PyStr "B") = [PyStr "a"]
    /\ label_of s3 0 = Some (PyStr "A")
    /\ label_of s3 0 <> Some (PyStr "B").
Proof.
  do 3 eexists.
  split; [vm_compute; reflexivity|].
  split; [vm_compute; reflexivity|].
  repeat split; try reflexivity. discriminate.
Qed.

(** * Further properties of [graph.py] *)

(** ** Vertices and edges: insertion and lookup *)

Lemma positions_from_app {A} (p : A -> bool) (k : nat) (l1 l2 : list A) :
  positions_from p k (l1 ++ l2)
  = positions_from p k l1 ++ positions_from p (k + length l1) l2.
Proof.
  revert k. induction l1 as [|x l1 IH]; intros k; simpl.
  - now rewrite Nat.add_0_r.
  - rewrite IH. replace (S k + length l1) with (k + S (length l1)) by lia.
    now destruct (p x).
Qed.

Lemma positions_from_some {A} (p : A -> bool) (k : nat) (l : list A) (x : A) :
  x ∈ l -> p x = true -> positions_from p k l <> [].
Proof.
  revert k. induction l as [|y l IH]; intros k Hx Hp; [inversion Hx|]. simpl.
  destruct (p y) eqn:Hy; [discriminate|].
  apply elem_of_cons in Hx as [->|Hx]; [congruence|]. now apply IH.
Qed.

Lemma well_formed_spec (g : igraph.t) :
  well_formed g = true <->
  Forall (fun e => fst e < igraph.vcount g /\ snd e < igraph.vcount g) (igraph.es g)
  /\ length (igraph.weight g) = length (igraph.es g).
Proof.
  unfold well_formed. rewrite andb_true_iff, Nat.eqb_eq, forallb_forall, Forall_forall.
  split; intros [H1 H2]; (split; [|exact H2]); intros e He.
  - apply list_elem_of_In, H1 in He. apply andb_true_iff in He as [Ha Hb].
    now apply Nat.ltb_lt in Ha, Hb.
  - apply list_elem_of_In, H1 in He as [Ha Hb].
    apply andb_true_iff. now rewrite !(proj2 (Nat.ltb_lt _ _)).
Qed.

(** X1. [add_vertices] never fails and checks nothing: it appends one
    vertex per name, in order and with label [None], also for a name that
    is already there; edges, weights and the cluster index are left as
    they are, and a well-formed graph stays well-formed. *)
Theorem add_vertices_appends (names : list pyval) (self : Graph.t) :
  exists self',
    Graph.add_vertices names self = (Ok tt, self')
    /\ igraph.vs (Graph.__graph__ self')
       = igraph.vs (Graph.__graph__ self) ++ map vertex_named names
    /\ igraph.es (Graph.__graph__ self') = igraph.es (Graph.__graph__ self)
    /\ igraph.weight (Graph.__graph__ self') = igraph.weight (Graph.__graph__ self)
    /\ Graph.clusters self' = Graph.clusters self
    /\ (well_formed (Graph.__graph__ self) = true ->
        well_formed (Graph.__graph__ self') = true).
Proof.
  eexists. split; [apply add_vertices_eq|]. simpl. repeat split.
  rewrite !well_formed_spec. unfold igraph.vcount. simpl. intros [He Hw].
  split; [|exact Hw]. eapply Forall_impl; [exact He|].
  intros e [Ha Hb]. rewrite length_app. lia.
Qed.

(** X2. Names that are new and pairwise distinct can be looked up after
    [add_vertices]: [node] gives each the index it was appended at. *)
Theorem node_after_add_vertices (self : Graph.t) (names : list pyval) (j : nat) (n : pyval) :
  NoDup names ->
  (forall m, m ∈ names -> ~ is_vertex self m) ->
  names !! j = Some n ->
  Graph.node (snd (Graph.add_vertices names self)) n
  = Ok (igraph.vcount (Graph.__graph__ self) + j).
Proof.
  intros Hnd Hnew Hj. rewrite add_vertices_eq. simpl.
  unfold Graph.node, Graph.__get_node_by_name__, igraph.select_name, positions. simpl.
  rewrite positions_from_app, positions_from_nil. simpl.
  - rewrite (positions_from_unique _ _ _ j); [reflexivity| |].
    + rewrite length_map. now apply lookup_lt_Some in Hj.
    + intros k x Hk. rewrite list_lookup_fmap in Hk.
      destruct (names !! k) as [m|] eqn:Hm; simpl in Hk; [|discriminate].
      injection Hk as <-. simpl. rewrite bool_decide_eq_true. split.
      * intros ->. eapply NoDup_lookup; eassumption.
      * intros ->. congruence.
  - intros v Hv. apply bool_decide_eq_false. intros Hn.
    apply (Hnew n); [eapply list_elem_of_lookup_2; exact Hj|]. now exists v.
Qed.

Lemma node_after_add_vertices_witness :
  Graph.node (snd (Graph.add_vertices [PyStr "x"; PyStr "y"] graph_ab)) (PyStr "y")
  = Ok (igraph.vcount (Graph.__graph__ graph_ab) + 1).
Proof.
  apply node_after_add_vertices.
  - repeat constructor; intros H; apply list_elem_of_In in H; simpl in H;
      intuition discriminate.
  - intros m Hm (v & Hv & Hn). apply list_elem_of_In in Hm, Hv. simpl in Hm, Hv.
    destruct Hv as [<-|[<-|[]]]; simpl in Hn; subst m; intuition discriminate.
  - reflexivity.
Defined.

(** X3. No duplicate is refused: after [add_vertices] with a name that
    already names a vertex, that name can no longer be looked up, [node]
    raises [ValueError] (the name is repeated). *)
Theorem node_after_duplicate_vertex (self : Graph.t) (names : list pyval) (n : pyval) :
  is_vertex self n ->
  n ∈ names ->
  Graph.node (snd (Graph.add_vertices names self)) n = Raise ValueError.
Proof.
  intros (v & Hv & Hn) Hin. rewrite add_vertices_eq. simpl.
  unfold Graph.node, Graph.__get_node_by_name__, igraph.select_name, positions. simpl.
  rewrite positions_from_app.
  pose proof (positions_from_some (fun v => bool_decide (igraph.name v = n)) 0
                (igraph.vs (Graph.__graph__ self)) v Hv) as H1.
  pose proof (positions_from_some (fun v => bool_decide (igraph.name v = n))
                (0 + length (igraph.vs (Graph.__graph__ self)))
                (map vertex_named names) (vertex_named n)) as H2.
  destruct (positions_from _ 0 _) as [|a l1].
  - exfalso. apply H1; [now apply bool_decide_eq_true|reflexivity].
  - destruct (positions_from _ _ (map vertex_named names)) as [|b l2].
    + exfalso. apply H2; [|now apply bool_decide_eq_true|reflexivity].
      now apply (list_elem_of_fmap_2 vertex_named).
    + simpl. destruct l1; reflexivity.
Qed.

Lemma node_after_duplicate_vertex_witness :
  Graph.node (snd (Graph.add_vertices [PyInt 2] graph_ab)) (PyInt 2) = Raise ValueError.
Proof.
  apply node_after_duplicate_vertex.
  - exists {| igraph.name := PyInt 2; igraph.cluster := PyNone |}. split; [|reflexivity].
    apply list_elem_of_In. simpl. auto.
  - apply list_elem_of_In. simpl. auto.
Defined.

Lemma comprehension_Forall2 {A B} (f : A -> result B) (l : list A) (ys : list B) :
  Forall2 (fun x y => f x = Ok y) l ys -> comprehension f l = Ok ys.
Proof.
  induction 1 as [|x y l ys Hxy _ IH]; simpl; [reflexivity|].
  now rewrite Hxy, IH.
Qed.

Lemma get_node_lt (self : Graph.t) (n : pyval) (i : nat) :
  Graph.__get_node_by_name__ self n = Ok i -> i < igraph.vcount (Graph.__graph__ self).
Proof.
  intros H. destruct (get_node_lookup self n i H) as (v & Hv & _).
  now apply lookup_lt_Some in Hv.
Qed.

(** X4. On a well-formed graph, [add_edges] with edges whose end points
    all resolve appends the edges in the order given, each with its
    weight at the same position of the weight column; the edges and
    weights that were there, the vertices and the cluster index are
    untouched, and the graph is well-formed again. *)
Theorem add_edges_appends (self : Graph.t) (edges : list Graph.Edge)
    (pairs : list (nat * nat)) :
  well_formed (Graph.__graph__ self) = true ->
  Forall2 (fun edge p =>
             Graph.__get_node_by_name__ self (Graph.start edge) = Ok (fst p)
             /\ Graph.__get_node_by_name__ self (Graph.end_ edge) = Ok (snd p))
          edges pairs ->
  let g := Graph.__graph__ self in
  let g' := {| igraph.vs := igraph.vs g;
               igraph.es := igraph.es g ++ pairs;
               igraph.weight := igraph.weight g ++ map Graph.weight edges |} in
  Graph.add_edges edges self = (Ok tt, Graph.set_graph g' self)
  /\ well_formed g' = true.
Proof.
  intros Hwf Hres g g'. split.
  - unfold Graph.add_edges, Graph.__add_edges__. fold (resolve self).
    rewrite (comprehension_Forall2 _ _ pairs).
    2:{ apply Forall2_fmap_l. eapply Forall2_impl; [exact Hres|].
        intros edge [a b] [Ha Hb]. unfold resolve. simpl in *. now rewrite Ha, Hb. }
    fold g. unfold g'. do 2 f_equal.
    unfold igraph.set_weight, igraph.add_edges. simpl. f_equal.
    apply well_formed_spec in Hwf as [_ Hw]. fold g in Hw. unfold igraph.ecount.
    destruct (igraph.es g); simpl; [|reflexivity].
    now destruct (igraph.weight g).
  - apply well_formed_spec in Hwf as [He Hw]. apply well_formed_spec.
    unfold g', igraph.vcount. simpl. fold g in He, Hw. split.
    + apply Forall_app. split; [exact He|].
      clear -Hres. induction Hres as [|edge p edges pairs [Ha Hb] _ IH]; constructor.
      * split; eapply get_node_lt; eassumption.
      * exact IH.
    + rewrite !length_app, length_map, Hw. f_equal.
      now apply Forall2_length in Hres.
Qed.

Lemma add_edges_appends_witness :
  let g := Graph.__graph__ graph_ab in
  let g' := {| igraph.vs := igraph.vs g;
               igraph.es := igraph.es g ++ [(1, 0); (0, 1)];
               igraph.weight :=
                 igraph.weight g
                 ++ map Graph.weight
                      [{| Graph.start := PyInt 2; Graph.end_ := PyInt 1;
                          Graph.weight := (1 # 4)%Q |}; edge_1_2] |} in
  Graph.add_edges [{| Graph.start := PyInt 2; Graph.end_ := PyInt 1;
                      Graph.weight := (1 # 4)%Q |}; edge_1_2] graph_ab
  = (Ok tt, Graph.set_graph g' graph_ab)
  /\ well_formed g' = true.
Proof.
  apply (add_edges_appends graph_ab _ [(1, 0); (0, 1)]).
  - reflexivity.
  - repeat constructor.
Defined.

(** ** [edge] and [neighbors] *)

Lemma positions_from_first {A} (p : A -> bool) (k i : nat) (l : list A) (rest : list nat) :
  positions_from p k l = i :: rest ->
  k <= i
  /\ (exists x, l !! (i - k) = Some x /\ p x = true)
  /\ (forall j y, j < i - k -> l !! j = Some y -> p y = false).
Proof.
  revert k. induction l as [|x l IH]; intros k; simpl; [discriminate|].
  destruct (p x) eqn:Hx.
  - intros [= <- _]. rewrite Nat.sub_diag. split; [lia|]. split; [now exists x|].
    intros j y Hj. lia.
  - intros H. destruct (IH _ H) as (Hle & (y & Hy & Hpy) & Hbefore).
    split; [lia|]. replace (i - k) with (S (i - S k)) by lia. split; [now exists y|].
    intros [|j] z Hj Hz; simpl in Hz; [congruence|]. apply (Hbefore j); [lia|exact Hz].
Qed.

Lemma find_present (g : igraph.t) (i j : nat) :
  (i, j) ∈ igraph.es g ->
  exists k, igraph.find g i j = Ok k
            /\ igraph.es g !! k = Some (i, j)
            /\ (forall k', k' < k -> igraph.es g !! k' <> Some (i, j)).
Proof.
  intros Hin. unfold igraph.find, positions.
  destruct (positions_from _ 0 (igraph.es g)) as [|k rest] eqn:Hp.
  - exfalso. revert Hp. eapply positions_from_some; [exact Hin|].
    simpl. now rewrite !Nat.eqb_refl.
  - apply positions_from_first in Hp as (_ & (x & Hx & Hpx) & Hbefore).
    rewrite Nat.sub_0_r in Hx, Hbefore. exists k. split; [reflexivity|]. split.
    + apply andb_true_iff in Hpx as [Ha Hb]. apply Nat.eqb_eq in Ha, Hb.
      destruct x; simpl in *. now subst.
    + intros k' Hk' Hk. specialize (Hbefore k' _ Hk' Hk). simpl in Hbefore.
      now rewrite !Nat.eqb_refl in Hbefore.
Qed.

Lemma find_absent (g : igraph.t) (i j : nat) :
  (i, j) ∉ igraph.es g -> igraph.find g i j = Raise ValueError.
Proof.
  intros Hin. unfold igraph.find, positions. rewrite positions_from_nil; [reflexivity|].
  intros [a b] He. simpl. destruct (Nat.eqb a i && Nat.eqb b j) eqn:Hab; [|reflexivity].
  apply andb_true_iff in Hab as [Ha Hb]. apply Nat.eqb_eq in Ha, Hb. simpl in *.
  now subst.
Qed.

Lemma edge_weight_lookup (g : igraph.t) (k : nat) :
  well_formed g = true -> k < igraph.ecount g ->
  exists w, igraph.edge_weight g k = Ok w /\ igraph.weight g !! k = Some w.
Proof.
  intros Hwf Hk. apply well_formed_spec in Hwf as [_ Hw].
  unfold igraph.edge_weight. rewrite (proj2 (Nat.ltb_lt _ _) Hk).
  destruct (lookup_lt_is_Some_2 (igraph.weight g) k) as [w Hw'];
    [rewrite Hw; exact Hk|].
  rewrite Hw'. now exists w.
Qed.

(** X5. [edge] never returns [None]: for two vertices that no edge
    joins it raises [ValueError]. *)
Theorem edge_absent (self : Graph.t) (src dst : pyval) (i j : nat) :
  Graph.__get_node_by_name__ self src = Ok i ->
  Graph.__get_node_by_name__ self dst = Ok j ->
  (i, j) ∉ igraph.es (Graph.__graph__ self) ->
  Graph.edge self src dst = Raise ValueError
  /\ forall (self' : Graph.t) (a b : pyval), Graph.edge self' a b <> Ok None.
Proof.
  intros Hs Hd Habs. split.
  - unfold Graph.edge, Graph.__find_edge__. rewrite Hs, Hd. simpl.
    now rewrite find_absent.
  - intros self' a b. unfold Graph.edge.
    destruct (Graph.__find_edge__ self' a b) as [e|e]; simpl; [|discriminate].
    destruct (igraph.edge_weight (Graph.__graph__ self') e); discriminate.
Qed.

Lemma edge_absent_witness :
  Graph.edge graph_ab (PyInt 2) (PyInt 1) = Raise ValueError
  /\ forall (self' : Graph.t) (a b : pyval), Graph.edge self' a b <> Ok None.
Proof.
  apply (edge_absent graph_ab (PyInt 2) (PyInt 1) 1 0); try reflexivity.
  intros H. apply list_elem_of_In in H. simpl in H. intuition discriminate.
Defined.

(** X6. For two vertices joined by an edge of a well-formed graph,
    [edge] returns the given names with the weight of the first edge
    between them in the edge list: of parallel edges, the oldest. *)
Theorem edge_present (self : Graph.t) (src dst : pyval) (i j : nat) :
  well_formed (Graph.__graph__ self) = true ->
  Graph.__get_node_by_name__ self src = Ok i ->
  Graph.__get_node_by_name__ self dst = Ok j ->
  (i, j) ∈ igraph.es (Graph.__graph__ self) ->
  exists k w,
    Graph.edge self src dst
    = Ok (Some {| Graph.start := src; Graph.end_ := dst; Graph.weight := w |})
    /\ igraph.es (Graph.__graph__ self) !! k = Some (i, j)
    /\ igraph.weight (Graph.__graph__ self) !! k = Some w
    /\ (forall k', k' < k -> igraph.es (Graph.__graph__ self) !! k' <> Some (i, j)).
Proof.
  intros Hwf Hs Hd Hin.
  destruct (find_present _ i j Hin) as (k & Hfind & Hk & Hfirst).
  destruct (edge_weight_lookup _ k Hwf) as (w & Hw & Hw');
    [now apply lookup_lt_Some in Hk|].
  exists k, w. split; [|auto].
  unfold Graph.edge, Graph.__find_edge__. rewrite Hs, Hd. simpl.
  rewrite Hfind. simpl. now rewrite Hw.
Qed.

Lemma edge_present_witness :
  exists k w,
    Graph.edge graph_abcd (PyStr "b") (PyStr "c")
    = Ok (Some {| Graph.start := PyStr "b"; Graph.end_ := PyStr "c"; Graph.weight := w |})
    /\ igraph.es (Graph.__graph__ graph_abcd) !! k = Some (1, 2)
    /\ igraph.weight (Graph.__graph__ graph_abcd) !! k = Some w
    /\ (forall k', k' < k -> igraph.es (Graph.__graph__ graph_abcd) !! k' <> Some (1, 2)).
Proof.
  apply edge_present; try reflexivity.
  apply list_elem_of_In. simpl. auto 10.
Defined.

Lemma get_node_same_vs (self self' : Graph.t) (n : pyval) :
  igraph.vs (Graph.__graph__ self') = igraph.vs (Graph.__graph__ self) ->
  Graph.__get_node_by_name__ self' n = Graph.__get_node_by_name__ self n.
Proof.
  intros H. unfold Graph.__get_node_by_name__, igraph.select_name. now rewrite H.
Qed.

(** X7. [add_edges] followed by [edge], on a well-formed graph: when no
    edge joined the two vertices, [edge] returns the edge just added with
    its weight; when one did, [edge] returns what it returned before, the
    parallel edge just added is not seen. *)
Theorem edge_after_add_edges (self : Graph.t) (src dst : pyval) (w : Q) (i j : nat) :
  well_formed (Graph.__graph__ self) = true ->
  Graph.__get_node_by_name__ self src = Ok i ->
  Graph.__get_node_by_name__ self dst = Ok j ->
  let added := {| Graph.start := src; Graph.end_ := dst; Graph.weight := w |} in
  let self' := snd (Graph.add_edges [added] self) in
  ((i, j) ∉ igraph.es (Graph.__graph__ self) -> Graph.edge self' src dst = Ok (Some added))
  /\ ((i, j) ∈ igraph.es (Graph.__graph__ self) ->
      Graph.edge self' src dst = Graph.edge self src dst).
Proof.
  intros Hwf Hs Hd added self'.
  assert (self' = Graph.set_graph
                    {| igraph.vs := igraph.vs (Graph.__graph__ self);
                       igraph.es := igraph.es (Graph.__graph__ self) ++ [(i, j)];
                       igraph.weight := igraph.weight (Graph.__graph__ self) ++ [w] |}
                    self) as ->.
  { unfold self'.
    destruct (add_edges_appends self [added] [(i, j)] Hwf) as [-> _]; [|reflexivity].
    repeat constructor; assumption. }
  pose proof (proj1 (well_formed_spec _) Hwf) as [_ Hlen].
  unfold Graph.edge, Graph.__find_edge__.
  rewrite (get_node_same_vs self _ src), (get_node_same_vs self _ dst) by reflexivity.
  rewrite Hs, Hd. simpl.
  unfold igraph.find, positions, igraph.edge_weight, igraph.ecount. simpl.
  rewrite positions_from_app. simpl. rewrite !Nat.eqb_refl. simpl.
  split; intros Hin.
  - rewrite positions_from_nil. simpl.
    + rewrite length_app. simpl.
      rewrite (proj2 (Nat.ltb_lt _ _)) by lia.
      rewrite lookup_app_r by lia. now rewrite Hlen, Nat.sub_diag.
    + intros [a b] He. simpl. destruct (Nat.eqb a i && Nat.eqb b j) eqn:Hab; [|reflexivity].
      apply andb_true_iff in Hab as [Ha Hb]. apply Nat.eqb_eq in Ha, Hb. simpl in *.
      now subst.
  - destruct (positions_from _ 0 (igraph.es (Graph.__graph__ self))) as [|k rest] eqn:Hp.
    + exfalso. revert Hp. eapply positions_from_some; [exact Hin|].
      simpl. now rewrite !Nat.eqb_refl.
    + simpl. apply positions_from_first in Hp as (_ & (x & Hx & _) & _).
      rewrite Nat.sub_0_r in Hx. apply lookup_lt_Some in Hx.
      rewrite length_app. simpl.
      rewrite !(proj2 (Nat.ltb_lt _ _)) by lia.
      now rewrite lookup_app_l by lia.
Qed.

Lemma edge_after_add_edges_witness :
  let added := {| Graph.start := PyInt 1; Graph.end_ := PyInt 2; Graph.weight := (3 # 4)%Q |} in
  let self' := snd (Graph.add_edges [added] graph_ab) in
  ((0, 1) ∉ igraph.es (Graph.__graph__ graph_ab) ->
   Graph.edge self' (PyInt 1) (PyInt 2) = Ok (Some added))
  /\ ((0, 1) ∈ igraph.es (Graph.__graph__ graph_ab) ->
      Graph.edge self' (PyInt 1) (PyInt 2) = Graph.edge graph_ab (PyInt 1) (PyInt 2)).
Proof.
  apply (edge_after_add_edges graph_ab (PyInt 1) (PyInt 2) (3 # 4)%Q 0 1); reflexivity.
Defined.

Lemma neighbors_in_clusters_eq (self : Graph.t) (clusters_arg : list pyval)
    (neighbors temp : list nat) :
  Graph.neighbors_in_clusters self clusters_arg neighbors temp
  = if forallb (dict.contains (Graph.clusters self)) clusters_arg
    then Ok temp else Raise KeyError.
Proof.
  revert neighbors temp. induction clusters_arg as [|c rest IH]; intros nb temp; simpl.
  - reflexivity.
  - unfold dict.contains at 1.
    destruct (dict.get (Graph.clusters self) c) as [vertices|]; simpl; [|reflexivity].
    assert (List.filter (fun i => Graph.vertex_in_names i vertices) nb = []) as ->.
    { induction nb as [|x nb IHnb]; simpl; [reflexivity|].
      assert (Graph.vertex_in_names x vertices = false) as ->; [|exact IHnb].
      unfold Graph.vertex_in_names. induction vertices; simpl; auto. }
    simpl. now rewrite app_nil_r, IH.
Qed.

(** X8. [neighbors] with a cluster filter never returns a neighbour: the
    member lists hold names and the neighbours are vertex objects, so the
    intersection is empty. For a known node the result is the empty list
    when every listed cluster exists, and [KeyError] otherwise; for a name
    that is no vertex it is [ValueError]. *)
Theorem neighbors_cluster_filter (order : list nat -> list nat) (self : Graph.t)
    (node : pyval) (clusters_arg : list pyval) (i : nat) :
  Graph.__get_node_by_name__ self node = Ok i ->
  clusters_arg <> [] ->
  Graph.neighbors order self node clusters_arg
  = (if forallb (dict.contains (Graph.clusters self)) clusters_arg
     then Ok [] else Raise KeyError)
  /\ (forall other, ~ is_vertex self other ->
        Graph.neighbors order self other clusters_arg = Raise ValueError).
Proof.
  intros Hn Hne. split.
  - unfold Graph.neighbors. rewrite Hn. simpl.
    destruct clusters_arg as [|c rest]; [congruence|].
    rewrite neighbors_in_clusters_eq.
    now destruct (forallb _ _).
  - intros other Hother. unfold Graph.neighbors.
    now rewrite get_node_unknown.
Qed.

Lemma neighbors_cluster_filter_witness :
  Graph.neighbors (fun l => l) graph_abcd (PyStr "a") [PyStr "C1"]
  = (if forallb (dict.contains (Graph.clusters graph_abcd)) [PyStr "C1"]
     then Ok [] else Raise KeyError)
  /\ (forall other, ~ is_vertex graph_abcd other ->
        Graph.neighbors (fun l => l) graph_abcd other [PyStr "C1"] = Raise ValueError).
Proof.
  apply (neighbors_cluster_filter _ graph_abcd (PyStr "a") [PyStr "C1"] 0).
  - reflexivity.
  - discriminate.
Defined.

Lemma comprehension_exists {A B} (f : A -> result B) (P : A -> B -> Prop) (l : list A) :
  (forall x, x ∈ l -> exists y, f x = Ok y /\ P x y) ->
  exists ys, comprehension f l = Ok ys /\ Forall2 P l ys.
Proof.
  induction l as [|a l IH]; intros H; simpl.
  - exists []. split; [reflexivity|constructor].
  - destruct (H a) as (b & Hb & HP); [constructor|]. rewrite Hb. simpl.
    destruct IH as (ys & -> & Hys); [intros x Hx; apply H; now constructor|].
    simpl. exists (b :: ys). split; [reflexivity|now constructor].
Qed.

Lemma get_node_unique_name (self : Graph.t) (j : nat) (v : igraph.Vertex) :
  NoDup (map igraph.name (igraph.vs (Graph.__graph__ self))) ->
  igraph.vs (Graph.__graph__ self) !! j = Some v ->
  Graph.__get_node_by_name__ self (igraph.name v) = Ok j.
Proof.
  intros Hnd Hj. unfold Graph.__get_node_by_name__, igraph.select_name, positions.
  rewrite (positions_from_unique _ _ 0 j); [reflexivity| |].
  - now apply lookup_lt_Some in Hj.
  - intros k x Hk. rewrite bool_decide_eq_true. split.
    + intros Hname. eapply (NoDup_lookup _ k j (igraph.name v) Hnd);
        rewrite list_lookup_fmap; [rewrite Hk|rewrite Hj]; simpl; congruence.
    + intros ->. congruence.
Qed.

Lemma out_targets_length (g : igraph.t) (v : nat) :
  length (igraph.out_targets g v) = igraph.outdegree g v.
Proof.
  unfold igraph.out_targets, igraph.outdegree, igraph.incident, positions.
  rewrite length_map. generalize 0.
  induction (igraph.es g) as [|e es IH]; intros k; simpl; [reflexivity|].
  rewrite filter_cons. destruct (Nat.eqb_spec (fst e) v) as [Hv|Hv].
  - rewrite decide_True by exact Hv. simpl. now rewrite (IH (S k)).
  - rewrite decide_False by exact Hv. apply IH.
Qed.

(** X9. [neighbors] without a cluster filter, on a well-formed graph
    whose vertex names are distinct: one entry per edge leaving the node
    (as many as its out-degree), each made of the node's name, the name
    of the head of such an edge and the weight of an edge between the
    two. *)
Theorem neighbors_out_edges (order : list nat -> list nat) (self : Graph.t)
    (node : pyval) (i : nat) :
  (forall l, order l ≡ₚ l) ->
  well_formed (Graph.__graph__ self) = true ->
  NoDup (map igraph.name (igraph.vs (Graph.__graph__ self))) ->
  Graph.__get_node_by_name__ self node = Ok i ->
  let g := Graph.__graph__ self in
  exists found,
    Graph.neighbors order self node [] = Ok found
    /\ length found = igraph.outdegree g i
    /\ Forall2 (fun j r =>
                  exists v k w,
                    igraph.vs g !! j = Some v
                    /\ igraph.es g !! k = Some (i, j)
                    /\ igraph.weight g !! k = Some w
                    /\ r = Some {| Graph.start := node; Graph.end_ := igraph.name v;
                                   Graph.weight := w |})
               (igraph.neighbors order g i) found.
Proof.
  intros Horder Hwf Hnames Hn g.
  unfold Graph.neighbors. rewrite Hn. simpl. fold g.
  destruct (comprehension_exists
              (fun neighbor =>
                 rbind (igraph.vertex_name g neighbor) (fun name => Graph.edge self node name))
              (fun j r =>
                 exists v k w,
                   igraph.vs g !! j = Some v
                   /\ igraph.es g !! k = Some (i, j)
                   /\ igraph.weight g !! k = Some w
                   /\ r = Some {| Graph.start := node; Graph.end_ := igraph.name v;
                                  Graph.weight := w |})
              (igraph.neighbors order g i)) as (found & Hrun & Hall).
  - intros j Hj. unfold igraph.neighbors in Hj. rewrite Horder in Hj.
    unfold igraph.out_targets in Hj.
    apply list_elem_of_fmap in Hj as ([a b] & -> & He).
    apply list_elem_of_filter in He as [Ha He]. simpl in Ha. subst a. simpl.
    pose proof (proj1 (well_formed_spec _) Hwf) as [Hends _].
    pose proof (proj1 (Forall_forall _ _) Hends _ He) as [_ Hb]. simpl in Hb.
    destruct (lookup_lt_is_Some_2 (igraph.vs g) b Hb) as [v Hv].
    destruct (find_present g i b He) as (k & Hfind & Hk & _).
    destruct (edge_weight_lookup g k Hwf) as (w & Hw & Hw');
      [now apply lookup_lt_Some in Hk|].
    exists (Some {| Graph.start := node; Graph.end_ := igraph.name v; Graph.weight := w |}).
    split.
    + unfold igraph.vertex_name. rewrite Hv. simpl.
      unfold Graph.edge, Graph.__find_edge__.
      rewrite Hn, (get_node_unique_name self b v Hnames Hv). simpl. fold g.
      rewrite Hfind. simpl. now rewrite Hw.
    + exists v, k, w. auto.
  - exists found. split; [exact Hrun|]. split; [|exact Hall].
    rewrite <- (Forall2_length _ _ _ Hall). unfold igraph.neighbors.
    now rewrite (Permutation_length (Horder _)), out_targets_length.
Qed.

Lemma neighbors_out_edges_witness :
  let g := Graph.__graph__ graph_abcd in
  exists found,
    Graph.neighbors (fun l => l) graph_abcd (PyStr "b") [] = Ok found
    /\ length found = igraph.outdegree g 1
    /\ Forall2 (fun j r =>
                  exists v k w,
                    igraph.vs g !! j = Some v
                    /\ igraph.es g !! k = Some (1, j)
                    /\ igraph.weight g !! k = Some w
                    /\ r = Some {| Graph.start := PyStr "b"; Graph.end_ := igraph.name v;
                                   Graph.weight := w |})
               (igraph.neighbors (fun l => l) g 1) found.
Proof.
  apply (neighbors_out_edges (fun l => l) graph_abcd (PyStr "b") 1).
  - reflexivity.
  - reflexivity.
  - simpl. repeat constructor; intros H; apply list_elem_of_In in H; simpl in H;
      intuition discriminate.
  - reflexivity.
Defined.

(** ** Cluster bookkeeping *)

Lemma list_remove_absent `{EqDecision A} (x : A) (l : list A) :
  x ∉ l -> list_remove x l = Raise ValueError.
Proof.
  induction l as [|y l IH]; simpl; intros H; [reflexivity|].
  apply not_elem_of_cons in H as [Hne H].
  rewrite decide_False by congruence. now rewrite IH.
Qed.

Lemma list_remove_snoc `{EqDecision A} (x : A) (l : list A) :
  x ∉ l -> list_remove x (l ++ [x]) = Ok l.
Proof.
  induction l as [|y l IH]; simpl; intros H.
  - now rewrite decide_True.
  - apply not_elem_of_cons in H as [Hne H].
    rewrite decide_False by congruence. now rewrite IH.
Qed.

Lemma list_remove_other `{EqDecision A} (x y : A) (l l' : list A) :
  list_remove x l = Ok l' -> y <> x -> (y ∈ l' <-> y ∈ l).
Proof.
  revert l'. induction l as [|z l IH]; simpl; intros l' H Hne; [discriminate|].
  destruct (decide (z = x)) as [->|Hz].
  - injection H as <-. rewrite elem_of_cons. intuition congruence.
  - destruct (list_remove x l) as [r|] eqn:Hr; simpl in H; [|discriminate].
    injection H as <-. rewrite !elem_of_cons, (IH r eq_refl Hne). reflexivity.
Qed.

Lemma dict_set_same {K V} `{EqDecision K} (d : dict.t K V) (k : K) (v : V) :
  dict.get d k = Some v -> dict.set d k v = d.
Proof.
  induction d as [|[k' v'] d IH]; simpl; [discriminate|].
  destruct (decide (k' = k)) as [->|Hne].
  - now intros [= ->].
  - intros H. now rewrite IH.
Qed.

Lemma dict_set_set {K V} `{EqDecision K} (d : dict.t K V) (k : K) (v1 v2 : V) :
  dict.set (dict.set d k v1) k v2 = dict.set d k v2.
Proof.
  induction d as [|[k' v'] d IH]; simpl.
  - now rewrite decide_True.
  - destruct (decide (k' = k)) as [->|Hne]; simpl.
    + now rewrite decide_True.
    + rewrite decide_False by assumption. now rewrite IH.
Qed.

Lemma first_cluster_of_empty_cluster (items : dict.t pyval (list pyval)) (L n : pyval) :
  Graph.first_cluster_of (items ++ [(L, [])]) n = Graph.first_cluster_of items n.
Proof.
  induction items as [|[L0 l0] items IH]; simpl.
  - reflexivity.
  - now rewrite IH.
Qed.

(** X10. [add_to_cluster] records the node in the cluster index before
    it looks the node up: for a name that is no vertex it raises
    [ValueError], yet the name has been appended to the member list of the
    label (created when new); the graph itself and the other member lists
    are as before. *)
Theorem add_to_cluster_unknown_node (self : Graph.t) (n L : pyval) :
  ~ is_vertex self n ->
  exists self',
    Graph.add_to_cluster (Graph.One n) L self = (Raise ValueError, self')
    /\ Graph.__graph__ self' = Graph.__graph__ self
    /\ dict.get (Graph.clusters self') L = Some (members_of self L ++ [n])
    /\ (forall L', L' <> L -> members_of self' L' = members_of self L').
Proof.
  intros Hn. apply get_node_unknown in Hn.
  unfold Graph.add_to_cluster, Graph.add_to_cluster_one, bind, modify, ret,
    Graph.__add_label__, members_of, dict.contains.
  destruct (dict.get (Graph.clusters self) L) as [l|] eqn:Hl; simpl.
  - rewrite Hl.
    change (Graph.__get_node_by_name__ _ n) with (Graph.__get_node_by_name__ self n).
    rewrite Hn. eexists. split; [reflexivity|]. simpl. repeat split.
    + apply dict_get_set_eq.
    + intros L' Hne. now rewrite dict_get_set_ne by congruence.
  - rewrite dict_get_set_eq.
    change (Graph.__get_node_by_name__ _ n) with (Graph.__get_node_by_name__ self n).
    rewrite Hn. eexists. split; [reflexivity|]. simpl. repeat split.
    + apply dict_get_set_eq.
    + intros L' Hne. now rewrite !dict_get_set_ne by congruence.
Qed.

Lemma add_to_cluster_unknown_node_witness :
  exists self',
    Graph.add_to_cluster (Graph.One (PyStr "zz")) (PyStr "C2") graph_abcd
    = (Raise ValueError, self')
    /\ Graph.__graph__ self' = Graph.__graph__ graph_abcd
    /\ dict.get (Graph.clusters self') (PyStr "C2")
       = Some (members_of graph_abcd (PyStr "C2") ++ [PyStr "zz"])
    /\ (forall L', L' <> PyStr "C2" -> members_of self' L' = members_of graph_abcd L').
Proof.
  apply add_to_cluster_unknown_node.
  intros (v & Hv & Hn). apply list_elem_of_In in Hv. simpl in Hv.
  destruct Hv as [<-|[<-|[<-|[<-|[]]]]]; discriminate.
Defined.

(** X11. [remove_from_cluster] refuses what it cannot do before it
    changes anything: for a label that was never created, and for a node
    that the label does not list, it raises [ValueError] and the graph
    object is exactly as before. *)
Theorem remove_from_cluster_rejected (self : Graph.t) (n L : pyval) :
  dict.contains (Graph.clusters self) L = false
  \/ (exists l, dict.get (Graph.clusters self) L = Some l /\ n ∉ l) ->
  Graph.remove_from_cluster (Graph.One n) L self = (Raise ValueError, self).
Proof.
  intros [H|(l & Hl & Hn)]; unfold Graph.remove_from_cluster.
  - now rewrite H.
  - unfold Graph.remove_from_cluster_one, dict.contains. rewrite Hl. simpl.
    now rewrite list_remove_absent.
Qed.

Lemma remove_from_cluster_rejected_witness :
  Graph.remove_from_cluster (Graph.One (PyStr "c")) (PyStr "C1") graph_abcd
  = (Raise ValueError, graph_abcd).
Proof.
  apply remove_from_cluster_rejected. right. exists [PyStr "a"; PyStr "b"].
  split; [reflexivity|].
  intros H. apply list_elem_of_In in H. simpl in H. intuition discriminate.
Defined.

(** X12. Adding a known vertex to a cluster that does not list it and
    removing it again gives every member list back as it was, and sets the
    label field to the first label of the original cluster index that
    lists the vertex ([None] without one). A label that did not exist
    stays in the index, with an empty list. *)
Theorem add_then_remove (self : Graph.t) (n L : pyval) (i : nat) :
  NoDup (dict.keys (Graph.clusters self)) ->
  Graph.__get_node_by_name__ self n = Ok i ->
  n ∉ members_of self L ->
  exists s1 s2,
    Graph.add_to_cluster (Graph.One n) L self = (Ok tt, s1)
    /\ Graph.remove_from_cluster (Graph.One n) L s1 = (Ok tt, s2)
    /\ Graph.clusters s2
       = (if dict.contains (Graph.clusters self) L then Graph.clusters self
          else Graph.clusters self ++ [(L, [])])
    /\ (forall L', members_of s2 L' = members_of self L')
    /\ label_of s2 i = Some (Graph.first_cluster_of (Graph.clusters self) n).
Proof.
  intros Hnd Hn Hnot.
  eexists. eexists. split; [apply add_to_cluster_one_eq; exact Hn|].
  set (c1 := if dict.contains (Graph.clusters self) L then Graph.clusters self
             else dict.set (Graph.clusters self) L []).
  assert (dict.get c1 L = Some (members_of self L)) as Hc1.
  { unfold c1, members_of, dict.contains.
    destruct (dict.get (Graph.clusters self) L) eqn:Hl; [exact Hl|apply dict_get_set_eq]. }
  assert (c1 = if dict.contains (Graph.clusters self) L then Graph.clusters self
               else Graph.clusters self ++ [(L, [])]) as Hc1'.
  { unfold c1, dict.contains.
    destruct (dict.get (Graph.clusters self) L) eqn:Hl; [reflexivity|].
    apply dict_set_fresh. unfold dict.keys in Hnd. now apply dict_get_None_keys. }
  assert (Graph.first_cluster_of c1 n = Graph.first_cluster_of (Graph.clusters self) n)
    as Hfirst.
  { rewrite Hc1'. destruct (dict.contains _ _); [reflexivity|].
    apply first_cluster_of_empty_cluster. }
  split.
  - erewrite remove_from_cluster_eq.
    + reflexivity.
    + rewrite get_node_set_cluster. exact Hn.
    + simpl. apply dict_get_set_eq.
    + now apply list_remove_snoc.
  - simpl. fold c1. rewrite dict_set_set, (dict_set_same c1 L _ Hc1). split; [exact Hc1'|].
    split.
    + intros L'. unfold members_of. simpl. rewrite Hc1'. unfold dict.contains.
      destruct (dict.get (Graph.clusters self) L) eqn:Hl; [reflexivity|].
      destruct (decide (L' = L)) as [->|Hne].
      * rewrite Hl. rewrite <- dict_set_fresh
          by (unfold dict.keys in Hnd; now apply dict_get_None_keys).
        now rewrite dict_get_set_eq.
      * rewrite <- dict_set_fresh
          by (unfold dict.keys in Hnd; now apply dict_get_None_keys).
        now rewrite dict_get_set_ne by congruence.
    + rewrite <- Hfirst.
      unfold label_of. simpl.
      destruct (get_node_lookup self n i Hn) as (v & Hv & _).
      now rewrite !list_lookup_alter_eq, Hv.
Qed.

Lemma add_then_remove_witness :
  exists s1 s2,
    Graph.add_to_cluster (Graph.One (PyStr "a")) (PyStr "B") graph_a_in_A = (Ok tt, s1)
    /\ Graph.remove_from_cluster (Graph.One (PyStr "a")) (PyStr "B") s1 = (Ok tt, s2)
    /\ Graph.clusters s2
       = (if dict.contains (Graph.clusters graph_a_in_A) (PyStr "B")
          then Graph.clusters graph_a_in_A
          else Graph.clusters graph_a_in_A ++ [(PyStr "B", [])])
    /\ (forall L', members_of s2 L' = members_of graph_a_in_A L')
    /\ label_of s2 0
       = Some (Graph.first_cluster_of (Graph.clusters graph_a_in_A) (PyStr "a")).
Proof.
  apply (add_then_remove graph_a_in_A (PyStr "a") (PyStr "B") 0).
  - simpl. apply NoDup_singleton.
  - reflexivity.
  - intros H. inversion H.
Defined.

Lemma label_of_set_cluster_other (self : Graph.t) (i j : nat) (c : pyval)
    (clusters : dict.t pyval (list pyval)) :
  j <> i ->
  label_of {| Graph.__graph__ := igraph.set_attribute i Graph.CLUSTER c (Graph.__graph__ self);
              Graph.clusters := clusters |} j
  = label_of self j.
Proof.
  intros Hne. unfold label_of. simpl. now rewrite list_lookup_alter_ne by congruence.
Qed.

Lemma add_to_cluster_many_loop (nodes : list pyval) (L : pyval) (self : Graph.t) :
  NoDup (dict.keys (Graph.clusters self)) ->
  (forall n, n ∈ nodes -> exists i, Graph.__get_node_by_name__ self n = Ok i) ->
  exists self',
    for_each nodes (fun n => Graph.add_to_cluster_one n L) self = (Ok tt, self')
    /\ NoDup (dict.keys (Graph.clusters self'))
    /\ (forall m, Graph.__get_node_by_name__ self' m = Graph.__get_node_by_name__ self m)
    /\ members_of self' L = members_of self L ++ nodes
    /\ (forall L', L' <> L ->
          dict.get (Graph.clusters self') L' = dict.get (Graph.clusters self) L')
    /\ (forall j, (exists n, n ∈ nodes /\ Graph.__get_node_by_name__ self n = Ok j) ->
                  label_of self' j = Some L)
    /\ (forall j, (forall n, n ∈ nodes -> Graph.__get_node_by_name__ self n <> Ok j) ->
                  label_of self' j = label_of self j).
Proof.
  revert self. induction nodes as [|n rest IH]; intros self Hnd Hres; simpl.
  - exists self. repeat split; auto.
    + now rewrite app_nil_r.
    + intros j (n & Hn & _). inversion Hn.
  - destruct (Hres n) as [i Hi]; [constructor|].
    destruct (add_to_cluster_spec self n L i Hnd Hi)
      as (s1 & Hrun & Hnd1 & Hnode1 & Hl1 & Hother1 & Hlabel1).
    simpl in Hrun.
    assert (forall j, j <> i -> label_of s1 j = label_of self j) as Hkeep1.
    { intros j Hj. rewrite (add_to_cluster_one_eq self n L i Hi) in Hrun.
      injection Hrun as <-. now apply label_of_set_cluster_other. }
    destruct (IH s1 Hnd1) as (s2 & Hrun2 & Hnd2 & Hnode2 & Hl2 & Hother2 & Hlab2 & Hkeep2).
    { intros m Hm. rewrite Hnode1. apply Hres. now constructor. }
    exists s2. unfold bind. rewrite Hrun, Hrun2. repeat split; auto.
    + intros m. now rewrite Hnode2, Hnode1.
    + rewrite Hl2, (members_of_get s1 L _ Hl1). now rewrite <- app_assoc.
    + intros L' Hne. now rewrite Hother2, Hother1.
    + intros j (m & Hm & Hj).
      destruct (decide (Exists (fun m => Graph.__get_node_by_name__ self m = Ok j) rest))
        as [Hex|Hex].
      * apply Exists_exists in Hex as (m' & Hm' & Hj').
        apply Hlab2. exists m'. split; [exact Hm'|]. now rewrite Hnode1.
      * rewrite Hkeep2.
        -- apply elem_of_cons in Hm as [->|Hm].
           ++ assert (j = i) as -> by congruence. exact Hlabel1.
           ++ exfalso. apply Hex. apply Exists_exists. now exists m.
        -- intros m' Hm' Hj'. apply Hex. apply Exists_exists. exists m'.
           split; [exact Hm'|]. now rewrite <- Hnode1.
    + intros j Hj. rewrite Hkeep2, Hkeep1; [reflexivity| |].
      * intros ->. apply (Hj n); [constructor|exact Hi].
      * intros m Hm. rewrite Hnode1. apply Hj. now constructor.
Qed.

(** X13. [add_to_cluster] with a list of known vertices handles them one
    by one, in order: the names are appended to the member list of the
    label in the order given (repeated names are recorded again), the
    other member lists are untouched, every vertex named gets the label,
    and the labels of the other vertices do not change. *)
Theorem add_to_cluster_list (self : Graph.t) (nodes : list pyval) (L : pyval) :
  NoDup (dict.keys (Graph.clusters self)) ->
  (forall n, n ∈ nodes -> exists i, Graph.__get_node_by_name__ self n = Ok i) ->
  exists self',
    Graph.add_to_cluster (Graph.Many nodes) L self = (Ok tt, self')
    /\ members_of self' L = members_of self L ++ nodes
    /\ (forall L', L' <> L -> members_of self' L' = members_of self L')
    /\ (forall n j, n ∈ nodes -> Graph.__get_node_by_name__ self n = Ok j ->
                    label_of self' j = Some L)
    /\ (forall j, (forall n, n ∈ nodes -> Graph.__get_node_by_name__ self n <> Ok j) ->
                  label_of self' j = label_of self j).
Proof.
  intros Hnd Hres.
  destruct (add_to_cluster_many_loop nodes L self Hnd Hres)
    as (s & Hrun & _ & _ & Hl & Hother & Hlab & Hkeep).
  exists s. repeat split; auto.
  - intros L' Hne. unfold members_of. now rewrite Hother.
  - intros n j Hn Hj. apply Hlab. now exists n.
Qed.

Lemma add_to_cluster_list_witness :
  exists self',
    Graph.add_to_cluster (Graph.Many [PyStr "c"; PyStr "a"]) (PyStr "C1") graph_abcd
    = (Ok tt, self')
    /\ members_of self' (PyStr "C1") = members_of graph_abcd (PyStr "C1") ++ [PyStr "c"; PyStr "a"]
    /\ (forall L', L' <> PyStr "C1" -> members_of self' L' = members_of graph_abcd L')
    /\ (forall n j, n ∈ [PyStr "c"; PyStr "a"] ->
                    Graph.__get_node_by_name__ graph_abcd n = Ok j ->
                    label_of self' j = Some (PyStr "C1"))
    /\ (forall j, (forall n, n ∈ [PyStr "c"; PyStr "a"] ->
                             Graph.__get_node_by_name__ graph_abcd n <> Ok j) ->
                  label_of self' j = label_of graph_abcd j).
Proof.
  apply add_to_cluster_list.
  - simpl. apply NoDup_singleton.
  - intros n Hn. apply list_elem_of_In in Hn. simpl in Hn.
    destruct Hn as [<-|[<-|[]]]; eexists; reflexivity.
Defined.

Lemma positions_from_complete {A} (p : A -> bool) (k j : nat) (l : list A) (x : A) :
  l !! j = Some x -> p x = true -> k + j ∈ positions_from p k l.
Proof.
  revert k j. induction l as [|y l IH]; intros k j Hj Hp; [discriminate|].
  simpl. destruct j as [|j]; simpl in Hj.
  - injection Hj as ->. rewrite Hp, Nat.add_0_r. constructor.
  - replace (k + S j) with (S k + j) by lia.
    destruct (p y); [constructor|]; now apply IH.
Qed.

Lemma get_node_only (self : Graph.t) (n : pyval) (i j : nat) (v : igraph.Vertex) :
  Graph.__get_node_by_name__ self n = Ok i ->
  igraph.vs (Graph.__graph__ self) !! j = Some v ->
  igraph.name v = n ->
  j = i.
Proof.
  unfold Graph.__get_node_by_name__, igraph.select_name, positions.
  intros Hn Hj Hname.
  pose proof (positions_from_complete (fun v => bool_decide (igraph.name v = n)) 0 j _ v Hj)
    as Hin.
  destruct (positions_from _ 0 _) as [|i' [|? ?]]; try discriminate.
  injection Hn as ->. simpl in Hin.
  apply list_elem_of_singleton in Hin; [exact Hin|]. now apply bool_decide_eq_true.
Qed.

Lemma first_cluster_of_cases (items : dict.t pyval (list pyval)) (n : pyval) :
  (Graph.first_cluster_of items n = PyNone /\ forall L l, (L, l) ∈ items -> n ∉ l)
  \/ exists l, (Graph.first_cluster_of items n, l) ∈ items /\ n ∈ l.
Proof.
  induction items as [|[L l] items IH]; simpl.
  - left. split; [reflexivity|]. intros L l H. inversion H.
  - unfold list_in. destruct (decide (n ∈ l)) as [Hl|Hl].
    + rewrite bool_decide_eq_true_2 by assumption. right. exists l. split; [constructor|exact Hl].
    + rewrite bool_decide_eq_false_2 by assumption.
      destruct IH as [[Hnone Hall]|(l' & Hin & Hn)].
      * left. split; [exact Hnone|]. intros L' l' H.
        apply elem_of_cons in H as [[= -> ->]|H]; [exact Hl|eauto].
      * right. exists l'. split; [now constructor|exact Hn].
Qed.

Lemma add_to_cluster_one_raise (self : Graph.t) (n L : pyval) (e : exn) :
  Graph.__get_node_by_name__ self n = Raise e ->
  fst (Graph.add_to_cluster_one n L self) = Raise e.
Proof.
  intros Hn.
  unfold Graph.add_to_cluster_one, bind, modify, ret, Graph.__add_label__, dict.contains.
  destruct (dict.get (Graph.clusters self) L) as [l|] eqn:Hl; simpl.
  - rewrite Hl.
    change (Graph.__get_node_by_name__ _ n) with (Graph.__get_node_by_name__ self n).
    now rewrite Hn.
  - rewrite dict_get_set_eq.
    change (Graph.__get_node_by_name__ _ n) with (Graph.__get_node_by_name__ self n).
    now rewrite Hn.
Qed.

(** X14. The agreement of label fields and cluster index is kept by
    every [add_to_cluster] and [remove_from_cluster] of a single node that
    returns normally: afterwards each vertex without label is still listed
    nowhere and each labelled vertex is still listed under its label. *)
Theorem cluster_operations_keep_consistent (self : Graph.t) (n L : pyval) :
  consistent self ->
  NoDup (dict.keys (Graph.clusters self)) ->
  (forall self', Graph.add_to_cluster (Graph.One n) L self = (Ok tt, self') ->
                 consistent self' /\ NoDup (dict.keys (Graph.clusters self')))
  /\ (forall self', Graph.remove_from_cluster (Graph.One n) L self = (Ok tt, self') ->
                    consistent self' /\ NoDup (dict.keys (Graph.clusters self'))).
Proof.
  intros Hcons Hnd. split; intros self' Hrun.
  - destruct (Graph.__get_node_by_name__ self n) as [i|e] eqn:Hn.
    2:{ exfalso. simpl in Hrun.
        pose proof (add_to_cluster_one_raise self n L e Hn) as Hraise.
        rewrite Hrun in Hraise. discriminate. }
    destruct (add_to_cluster_spec self n L i Hnd Hn)
      as (s1 & Hrun1 & Hnd1 & _ & Hl1 & Hother1 & Hlabel1).
    rewrite Hrun1 in Hrun. injection Hrun as <-. split; [|exact Hnd1].
    pose proof (add_to_cluster_one_eq self n L i Hn) as Heq.
    simpl in Hrun1. rewrite Hrun1 in Heq. injection Heq as Heq.
    assert (forall m L', m <> n -> (m ∈ members_of s1 L' <-> m ∈ members_of self L')) as Hmem.
    { intros m L' Hm. destruct (decide (L' = L)) as [->|Hne].
      - rewrite (members_of_get s1 L _ Hl1), elem_of_app, list_elem_of_singleton.
        intuition congruence.
      - unfold members_of. now rewrite Hother1. }
    intros j v Hj. destruct (decide (j = i)) as [->|Hji].
    + right. unfold label_of in Hlabel1. rewrite Hj in Hlabel1. injection Hlabel1 as ->.
      rewrite (members_of_get s1 L _ Hl1). apply elem_of_app. right.
      rewrite Heq in Hj. simpl in Hj. rewrite list_lookup_alter_eq in Hj.
      destruct (get_node_lookup self n i Hn) as (v0 & Hv0 & Hname).
      rewrite Hv0 in Hj. injection Hj as <-. simpl. rewrite Hname. constructor.
    + assert (igraph.vs (Graph.__graph__ self) !! j = Some v) as Hj0.
      { rewrite Heq in Hj. simpl in Hj. now rewrite list_lookup_alter_ne in Hj by congruence. }
      assert (igraph.name v <> n) as Hname
        by (intros Hname; apply Hji; eapply get_node_only; eassumption).
      destruct (Hcons j v Hj0) as [[Hnone Hall]|Hin].
      * left. split; [exact Hnone|]. intros L'. rewrite Hmem by assumption. apply Hall.
      * right. now rewrite Hmem.
  - destruct (dict.get (Graph.clusters self) L) as [l|] eqn:Hl.
    2:{ exfalso. revert Hrun. unfold Graph.remove_from_cluster, dict.contains.
        rewrite Hl. discriminate. }
    destruct (list_remove n l) as [l'|e] eqn:Hr.
    2:{ exfalso. revert Hrun.
        unfold Graph.remove_from_cluster, Graph.remove_from_cluster_one, dict.contains.
        rewrite Hl. simpl. rewrite Hr. discriminate. }
    destruct (Graph.__get_node_by_name__ self n) as [i|e] eqn:Hn.
    2:{ exfalso. revert Hrun.
        unfold Graph.remove_from_cluster, Graph.remove_from_cluster_one, dict.contains.
        rewrite Hl. simpl. rewrite Hr. unfold bind, Graph.__add_label__.
        change (Graph.__get_node_by_name__ _ n) with (Graph.__get_node_by_name__ self n).
        rewrite Hn. discriminate. }
    rewrite (remove_from_cluster_eq self n L l l' i Hn Hl Hr) in Hrun.
    injection Hrun as <-.
    assert (NoDup (map fst (dict.set (Graph.clusters self) L l'))) as Hnd'
      by now apply dict_set_NoDup.
    split; [|exact Hnd'].
    set (c' := dict.set (Graph.clusters self) L l') in *.
    assert (forall m L', m <> n ->
              (m ∈ default [] (dict.get c' L') <-> m ∈ members_of self L')) as Hmem.
    { intros m L' Hm. unfold c', members_of. destruct (decide (L' = L)) as [->|Hne].
      - rewrite dict_get_set_eq, Hl. simpl. eapply list_remove_other; eassumption.
      - now rewrite dict_get_set_ne by congruence. }
    intros j v Hj. simpl in Hj. unfold members_of. simpl.
    destruct (decide (j = i)) as [->|Hji].
    + rewrite list_lookup_alter_eq in Hj.
      destruct (get_node_lookup self n i Hn) as (v0 & Hv0 & Hname).
      rewrite Hv0 in Hj. injection Hj as <-. simpl. rewrite Hname.
      destruct (first_cluster_of_cases c' n) as [[Hnone Hall]|(l0 & Hin & Hn0)].
      * left. split; [exact Hnone|]. intros L'.
        destruct (dict.get c' L') as [l0|] eqn:Hget; simpl.
        -- apply (Hall L'). now apply dict_get_Some_elem.
        -- intros H. inversion H.
      * right. now rewrite (dict_get_elem c' _ l0 Hnd' Hin).
    + rewrite list_lookup_alter_ne in Hj by congruence.
      assert (igraph.name v <> n) as Hname
        by (intros Hname; apply Hji; eapply get_node_only; eassumption).
      destruct (Hcons j v Hj) as [[Hnone Hall]|Hin].
      * left. split; [exact Hnone|]. intros L'. rewrite Hmem by assumption. apply Hall.
      * right. now rewrite Hmem.
Qed.

Lemma consistent_graph_a_in_A : consistent graph_a_in_A.
Proof.
  intros j v Hj. destruct j as [|j]; simpl in Hj; [|discriminate].
  injection Hj as <-. right. apply list_elem_of_In. simpl. auto.
Qed.

Lemma cluster_operations_keep_consistent_witness :
  (forall self',
      Graph.add_to_cluster (Graph.One (PyStr "a")) (PyStr "B") graph_a_in_A = (Ok tt, self') ->
      consistent self' /\ NoDup (dict.keys (Graph.clusters self')))
  /\ (forall self',
        Graph.remove_from_cluster (Graph.One (PyStr "a")) (PyStr "B") graph_a_in_A
        = (Ok tt, self') ->
        consistent self' /\ NoDup (dict.keys (Graph.clusters self'))).
Proof.
  apply cluster_operations_keep_consistent.
  - exact consistent_graph_a_in_A.
  - simpl. apply NoDup_singleton.
Defined.

(** A new graph filled by [add_vertices] is consistent: no labels, no
    clusters. *)
Lemma consistent_after_add_vertices (names : list pyval) :
  consistent (snd (Graph.add_vertices names (Graph.__init__ None))).
Proof.
  rewrite add_vertices_eq. intros j v Hj. simpl in Hj. left.
  rewrite list_lookup_fmap in Hj. destruct (names !! j); simpl in Hj; [|discriminate].
  injection Hj as <-. split; [reflexivity|]. intros L H. inversion H.
Qed.

Lemma select_cluster_label (self : Graph.t) (c : pyval) (j : nat) :
  j ∈ igraph.select_cluster (Graph.__graph__ self) c <-> label_of self j = Some c.
Proof.
  unfold igraph.select_cluster, positions, label_of. split.
  - intros H. apply positions_from_elem in H as (v & Hv & Hp & _).
    rewrite Nat.sub_0_r in Hv. rewrite Hv. simpl. f_equal.
    now apply bool_decide_eq_true in Hp.
  - intros H. destruct (igraph.vs (Graph.__graph__ self) !! j) as [v|] eqn:Hv;
      simpl in H; [|discriminate].
    injection H as H.
    apply (positions_from_complete _ 0 j _ v Hv). now apply bool_decide_eq_true.
Qed.

(** X15. The graph query and the cluster index drift apart: after a
    known vertex is added to cluster [A] and then to another cluster [B],
    the index still lists it under [A], but [nodes_in_cluster(A,
    use_dict=False)], which selects by label field, no longer returns it;
    it is returned for [B] only. *)
Theorem nodes_in_cluster_by_label (self : Graph.t) (n A B : pyval) (i : nat) :
  NoDup (dict.keys (Graph.clusters self)) ->
  Graph.__get_node_by_name__ self n = Ok i ->
  A <> B ->
  exists s1 s2 in_A in_B,
    Graph.add_to_cluster (Graph.One n) A self = (Ok tt, s1)
    /\ Graph.add_to_cluster (Graph.One n) B s1 = (Ok tt, s2)
    /\ n ∈ members_of s2 A
    /\ n ∈ members_of s2 B
    /\ Graph.nodes_in_cluster s2 A false = Ok (Graph.FromGraph in_A)
    /\ (i ∉ in_A)
    /\ Graph.nodes_in_cluster s2 B false = Ok (Graph.FromGraph in_B)
    /\ i ∈ in_B.
Proof.
  intros Hnd Hn Hne.
  destruct (add_to_cluster_spec self n A i Hnd Hn)
    as (s1 & Hrun1 & Hnd1 & Hnode1 & Hl1 & _ & _).
  assert (Graph.__get_node_by_name__ s1 n = Ok i) as Hn1 by now rewrite Hnode1.
  destruct (add_to_cluster_spec s1 n B i Hnd1 Hn1)
    as (s2 & Hrun2 & _ & _ & Hl2 & Hother2 & Hlabel2).
  exists s1, s2. do 2 eexists.
  split; [exact Hrun1|]. split; [exact Hrun2|]. split; [|split].
  - unfold members_of. rewrite Hother2, Hl1 by congruence. simpl.
    apply elem_of_app. right. constructor.
  - rewrite (members_of_get s2 B _ Hl2). apply elem_of_app. right. constructor.
  - split; [reflexivity|]. split; [|split; [reflexivity|]].
    + rewrite select_cluster_label, Hlabel2. congruence.
    + now rewrite select_cluster_label.
Qed.

Lemma nodes_in_cluster_by_label_witness :
  exists s1 s2 in_A in_B,
    Graph.add_to_cluster (Graph.One (PyStr "a")) (PyStr "A") graph_a = (Ok tt, s1)
    /\ Graph.add_to_cluster (Graph.One (PyStr "a")) (PyStr "B") s1 = (Ok tt, s2)
    /\ PyStr "a" ∈ members_of s2 (PyStr "A")
    /\ PyStr "a" ∈ members_of s2 (PyStr "B")
    /\ Graph.nodes_in_cluster s2 (PyStr "A") false = Ok (Graph.FromGraph in_A)
    /\ (0 ∉ in_A)
    /\ Graph.nodes_in_cluster s2 (PyStr "B") false = Ok (Graph.FromGraph in_B)
    /\ 0 ∈ in_B.
Proof.
  apply (nodes_in_cluster_by_label graph_a (PyStr "a") (PyStr "A") (PyStr "B") 0).
  - simpl. apply NoDup_nil_2.
  - reflexivity.
  - discriminate.
Defined.

(** ** Saving several graphs *)

(** With one file per path string, these are [Graph.save] and
    [Graph.load]. *)
Lemma save_one_file_per_path (self : Graph.t) (location : string) :
  GraphFiles.save (fun path => path) self location = Graph.save self location.
Proof. reflexivity. Qed.

Lemma load_one_file_per_path (location : string) (fs : gmap string file) :
  GraphFiles.load (fun path => path) location fs = Graph.load location fs.
Proof. reflexivity. Qed.

(** X16. Two saves do not disturb each other as long as they write
    different files: after a graph is saved at [l1] and another at [l2],
    where the four paths [l1], [l1 + '_dict'], [l2] and [l2 + '_dict']
    name four files (whatever the way paths name files), loading [l1]
    still gives the first graph. *)
Theorem save_twice_load_first `{Countable F} (file_of : string -> F) (G1 G2 : Graph.t)
    (l1 l2 : string) (fs : gmap F file) :
  well_formed (Graph.__graph__ G1) = true ->
  file_of (l1 +:+ "_dict") <> file_of l1 ->
  file_of l2 <> file_of l1 ->
  file_of l2 <> file_of (l1 +:+ "_dict") ->
  file_of (l2 +:+ "_dict") <> file_of l1 ->
  file_of (l2 +:+ "_dict") <> file_of (l1 +:+ "_dict") ->
  GraphFiles.load file_of l1
    (snd (GraphFiles.save file_of G2 l2 (snd (GraphFiles.save file_of G1 l1 fs))))
  = Ok G1.
Proof.
  intros Hwf H0 H1 H2 H3 H4.
  unfold GraphFiles.save, GraphFiles.load, bind, modify. simpl.
  rewrite (lookup_insert_ne _ (file_of (l2 +:+ "_dict")) (file_of l1)) by assumption.
  rewrite (lookup_insert_ne _ (file_of l2) (file_of l1)) by assumption.
  rewrite (lookup_insert_ne _ (file_of (l1 +:+ "_dict")) (file_of l1)) by assumption.
  rewrite lookup_insert_eq.
  rewrite (lookup_insert_ne _ (file_of (l2 +:+ "_dict")) (file_of (l1 +:+ "_dict")))
    by assumption.
  rewrite (lookup_insert_ne _ (file_of l2) (file_of (l1 +:+ "_dict"))) by assumption.
  rewrite lookup_insert_eq.
  unfold Graph.set_clusters. rewrite init_well_formed by assumption.
  now destruct G1.
Qed.

Lemma save_twice_load_first_witness :
  GraphFiles.load drop_dot_slash "foo"
    (snd (GraphFiles.save drop_dot_slash graph_ab "./bar"
            (snd (GraphFiles.save drop_dot_slash graph_abcd "foo" ∅))))
  = Ok graph_abcd.
Proof.
  apply save_twice_load_first; [reflexivity|vm_compute; discriminate..].
Defined.

(** Where the second path names the file of the first, the second save
    replaces the first: ["./foo"] after ["foo"]. *)
Lemma save_same_file_load_second :
  "./foo" <> "foo"
  /\ GraphFiles.load drop_dot_slash "foo"
       (snd (GraphFiles.save drop_dot_slash graph_ab "./foo"
               (snd (GraphFiles.save drop_dot_slash graph_abcd "foo" ∅))))
     = Ok graph_ab.
Proof. split; [discriminate|]. vm_compute. reflexivity. Qed.

(** * Further properties of [loader.py] *)

(** ** Top-k selection with ties *)

Lemma insert_desc_sorted_le x s :
  StronglySorted not_lighter s -> StronglySorted not_lighter (pandas.insert_desc x s).
Proof.
  induction s as [|y s IH]; simpl; intros Hs.
  - repeat constructor.
  - apply StronglySorted_cons in Hs as [Hy Hs].
    destruct (Qlt_le_dec (snd x) (snd y)) as [Hlt|Hle].
    + apply StronglySorted_cons. split; [|now apply IH].
      rewrite insert_desc_perm. constructor; [|exact Hy].
      unfold not_lighter. now apply Qlt_le_weak.
    + apply StronglySorted_cons. split.
      * constructor; [exact Hle|].
        eapply Forall_impl; [exact Hy|]. unfold not_lighter. intros z Hz.
        eapply Qle_trans; eassumption.
      * apply StronglySorted_cons. now split.
Qed.

Lemma sort_values_sorted_le s : StronglySorted not_lighter (pandas.sort_values s).
Proof.
  induction s as [|x s IH]; simpl; [constructor|]. now apply insert_desc_sorted_le.
Qed.

(** X17. The top-[k] selection of a row with distinct labels has
    min(k, number of entries) entries, all of them entries of the row, and
    no entry left out is heavier than an entry kept, ties included. *)
Theorem top_k_heaviest (k : nat) (row : pandas.Series Q) :
  NoDup (map fst row) ->
  length (Loader.top_k k row) = Nat.min k (length row)
  /\ (forall x, x ∈ Loader.top_k k row -> x ∈ row)
  /\ (forall x y, x ∈ row -> x ∉ Loader.top_k k row -> y ∈ Loader.top_k k row ->
                  (snd x <= snd y)%Q).
Proof.
  intros Hnd. rewrite top_k_take by assumption.
  pose proof (sort_values_perm row) as Hperm.
  pose proof (sort_values_sorted_le row) as Hs.
  set (sorted := pandas.sort_values row) in *.
  split; [|split].
  - now rewrite length_take, (Permutation_length Hperm).
  - intros x Hx. rewrite <- Hperm. eapply elem_of_sublist; [exact Hx|apply sublist_take].
  - intros x y Hx Hout Hy.
    rewrite <- Hperm, <- (take_drop k sorted) in Hx.
    apply elem_of_app in Hx as [Hx|Hx]; [contradiction|].
    rewrite <- (take_drop k sorted) in Hs.
    exact (StronglySorted_app_1_elem_of _ _ _ _ _ Hs Hy Hx).
Qed.

Lemma top_k_heaviest_witness :
  length (Loader.top_k 2 row_tie) = Nat.min 2 (length row_tie)
  /\ (forall x, x ∈ Loader.top_k 2 row_tie -> x ∈ row_tie)
  /\ (forall x y, x ∈ row_tie -> x ∉ Loader.top_k 2 row_tie -> y ∈ Loader.top_k 2 row_tie ->
                  (snd x <= snd y)%Q).
Proof.
  apply top_k_heaviest. simpl.
  repeat constructor; intros H; apply list_elem_of_In in H; simpl in H; intuition discriminate.
Defined.

(** ** Shrinking any neighbour map *)

Lemma min_from_least (d : dict.t Z Q) (best : Z) (kbest : Q) (rest : list (Z * Q)) :
  NoDup (map fst d) ->
  (forall x, x ∈ rest -> x ∈ d) ->
  exists k w,
    min_from (Loader.dict_get_key d) best kbest (map fst rest) = Ok k
    /\ ((k = best /\ w = kbest) \/ (k, w) ∈ rest)
    /\ (w <= kbest)%Q
    /\ Forall (fun y => (w <= snd y)%Q) rest.
Proof.
  intros Hnd. revert best kbest.
  induction rest as [|[k0 w0] rest IH]; intros best kbest Hin; simpl.
  - exists best, kbest. repeat split; [now left|apply Qle_refl|constructor].
  - rewrite (dict_get_key_elem d k0 w0 Hnd) by (apply Hin; constructor). simpl.
    destruct (Qlt_le_dec w0 kbest) as [Hlt|Hle].
    + destruct (IH k0 w0) as (k & w & Hrun & Hwhich & Hle & Hall);
        [intros x Hx; apply Hin; now constructor|].
      exists k, w. split; [exact Hrun|]. split; [|split].
      * right. destruct Hwhich as [[-> ->]|Hw]; [constructor|now constructor].
      * eapply Qle_trans; [exact Hle|]. now apply Qlt_le_weak.
      * constructor; assumption.
    + destruct (IH best kbest) as (k & w & Hrun & Hwhich & Hle' & Hall);
        [intros x Hx; apply Hin; now constructor|].
      exists k, w. split; [exact Hrun|]. split; [|split].
      * destruct Hwhich as [Hb|Hw]; [now left|right; now constructor].
      * exact Hle'.
      * constructor; [|exact Hall]. simpl. eapply Qle_trans; eassumption.
Qed.

Lemma py_min_least (d : dict.t Z Q) :
  NoDup (map fst d) -> d <> [] ->
  exists k w,
    py_min (Loader.dict_get_key d) (dict.keys d) = Ok k
    /\ (k, w) ∈ d
    /\ Forall (fun y => (w <= snd y)%Q) d.
Proof.
  intros Hnd Hne. destruct d as [|[k0 w0] d]; [congruence|]. unfold dict.keys. simpl.
  rewrite (dict_get_key_elem ((k0, w0) :: d) k0 w0) by (assumption || constructor).
  simpl.
  destruct (min_from_least ((k0, w0) :: d) k0 w0 d Hnd) as (k & w & Hrun & Hwhich & Hle & Hall).
  { intros x Hx. now constructor. }
  exists k, w. split; [exact Hrun|]. split.
  - destruct Hwhich as [[-> ->]|Hw]; [constructor|now constructor].
  - constructor; assumption.
Qed.

Lemma dict_pop_spec {K V} `{EqDecision K} (d : dict.t K V) (k : K) (v : V) :
  NoDup (map fst d) -> (k, v) ∈ d ->
  NoDup (map fst (dict.pop d k))
  /\ S (length (dict.pop d k)) = length d
  /\ dict.pop d k `sublist_of` d
  /\ (forall x, x ∈ d -> x = (k, v) \/ x ∈ dict.pop d k).
Proof.
  induction d as [|[k' v'] d IH]; simpl; intros Hnd Hin; [inversion Hin|].
  apply NoDup_cons in Hnd as [Hk' Hnd].
  destruct (decide (k' = k)) as [->|Hne].
  - assert (v' = v) as ->.
    { apply elem_of_cons in Hin as [[= ->]|Hin]; [reflexivity|].
      exfalso. apply Hk'. now apply (list_elem_of_fmap_2 fst) in Hin. }
    split; [exact Hnd|]. split; [reflexivity|]. split; [now apply sublist_cons_r; left|].
    intros x Hx. apply elem_of_cons in Hx as [->|Hx]; auto.
  - apply elem_of_cons in Hin as [[= -> ->]|Hin]; [congruence|].
    destruct (IH Hnd Hin) as (Hnd' & Hlen & Hsub & Hall).
    split; [|split; [|split]].
    + simpl. apply NoDup_cons. split; [|exact Hnd'].
      intros Hk. apply Hk'. eapply elem_of_sublist; [exact Hk|].
      now apply (fmap_sublist fst).
    + simpl. now rewrite Hlen.
    + now apply sublist_skip.
    + intros x Hx. apply elem_of_cons in Hx as [->|Hx].
      * right. constructor.
      * destruct (Hall x Hx) as [->|Hx']; [now left|right; now constructor].
Qed.

Lemma shrink_while_general (fuel bound : nat) (d : dict.t Z Q) :
  NoDup (map fst d) ->
  length d - bound <= fuel ->
  exists d',
    Loader.shrink_while fuel bound d = Some (Ok d')
    /\ length d' = Nat.min bound (length d)
    /\ d' `sublist_of` d
    /\ (forall x y, x ∈ d -> x ∉ d' -> y ∈ d' -> (snd x <= snd y)%Q).
Proof.
  revert d. induction fuel as [|fuel IH]; intros d Hnd Hfuel;
    rewrite shrink_while_eq; destruct (Nat.ltb bound (length d)) eqn:Hb.
  - apply Nat.ltb_lt in Hb. lia.
  - apply Nat.ltb_ge in Hb. exists d. repeat split; [lia|reflexivity|]. intros; contradiction.
  - apply Nat.ltb_lt in Hb.
    destruct (py_min_least d Hnd) as (k & w & Hmin & Hkw & Hleast).
    { intros ->. simpl in Hb. lia. }
    rewrite Hmin.
    destruct (dict_pop_spec d k w Hnd Hkw) as (Hnd' & Hlen & Hsub & Hall).
    destruct (IH (dict.pop d k) Hnd') as (d' & Hrun & Hlen' & Hsub' & Hdom); [lia|].
    exists d'. split; [exact Hrun|]. split; [lia|]. split; [now transitivity (dict.pop d k)|].
    intros x y Hx Hout Hy.
    destruct (Hall x Hx) as [->|Hx'].
    + apply (proj1 (Forall_forall _ _) Hleast).
      eapply elem_of_sublist; [exact Hy|]. now transitivity (dict.pop d k).
    + now apply Hdom.
  - apply Nat.ltb_ge in Hb. exists d. repeat split; [lia|reflexivity|]. intros; contradiction.
Qed.

(** X18. The loop that removes the smallest entry, run on any neighbour
    map down to [bound] entries, ends without error; what is left has
    min(bound, size) entries, in their original order, and no entry
    removed is heavier than an entry left, ties included. *)
Theorem shrink_keeps_heaviest (bound : nat) (d : dict.t Z Q) :
  NoDup (dict.keys d) ->
  exists d',
    Loader.shrink bound d = Some (Ok d')
    /\ length d' = Nat.min bound (length d)
    /\ d' `sublist_of` d
    /\ (forall x y, x ∈ d -> x ∉ d' -> y ∈ d' -> (snd x <= snd y)%Q).
Proof.
  intros Hnd. unfold Loader.shrink. apply shrink_while_general; [exact Hnd|lia].
Qed.

Lemma shrink_keeps_heaviest_witness :
  exists d',
    Loader.shrink 2 row_tie = Some (Ok d')
    /\ length d' = Nat.min 2 (length row_tie)
    /\ d' `sublist_of` row_tie
    /\ (forall x y, x ∈ row_tie -> x ∉ d' -> y ∈ d' -> (snd x <= snd y)%Q).
Proof.
  apply shrink_keeps_heaviest. simpl.
  repeat constructor; intros H; apply list_elem_of_In in H; simpl in H; intuition discriminate.
Defined.

(** ** The neighbour maps of [make_graphs] *)

Lemma edge_dict_rows_prefix (similarity : pandas.DataFrame Q) (k a m : nat) :
  NoDup (pandas.index similarity) ->
  length (pandas.values similarity) = length (pandas.index similarity) ->
  a + m <= length (pandas.index similarity) ->
  let entries :=
    zip_with (fun label r => (label, Loader.top_k k (combine (pandas.columns similarity) r)))
             (pandas.index similarity) (pandas.values similarity) in
  Loader.edge_dict_rows similarity k (seq a m) (take a entries)
  = Ok (take (a + m) entries).
Proof.
  intros Hnd Hlen Ham entries. revert a Ham.
  induction m as [|m IH]; intros a Ham; simpl.
  - now rewrite Nat.add_0_r.
  - destruct (lookup_lt_is_Some_2 (pandas.index similarity) a) as [label Hlabel]; [lia|].
    destruct (lookup_lt_is_Some_2 (pandas.values similarity) a) as [r Hr]; [lia|].
    unfold pandas.iloc. rewrite Hlabel, Hr. simpl.
    assert (entries !! a
            = Some (label, Loader.top_k k (combine (pandas.columns similarity) r))) as Ha.
    { unfold entries. rewrite lookup_zip_with, Hlabel. simpl. now rewrite Hr. }
    rewrite dict_set_fresh.
    + rewrite <- (take_S_r _ _ _ Ha). replace (a + S m) with (S a + m) by lia.
      apply IH. lia.
    + intros Hin. apply list_elem_of_fmap in Hin as ([l0 d0] & Hl0 & Hin). simpl in Hl0.
      subst l0. apply elem_of_take in Hin as (i & Hi & Hia).
      unfold entries in Hi. apply lookup_zip_with_Some in Hi as (l1 & r1 & Heq & Hl1 & _).
      injection Heq as -> _.
      assert (i = a) by (eapply NoDup_lookup; eassumption). lia.
Qed.

(** X19. For a similarity frame with distinct row labels and one row of
    values per label, the neighbour maps [make_graphs] builds are, row by
    row and in the order of the frame, the row label with the top-[k]
    selection of that row. *)
Theorem make_edge_dict_rows (similarity : pandas.DataFrame Q) (k : nat) :
  NoDup (pandas.index similarity) ->
  length (pandas.values similarity) = length (pandas.index similarity) ->
  Loader.make_edge_dict similarity k
  = Ok (zip_with (fun label r =>
                    (label, Loader.top_k k (combine (pandas.columns similarity) r)))
                 (pandas.index similarity) (pandas.values similarity)).
Proof.
  intros Hnd Hlen. unfold Loader.make_edge_dict, pandas.shape0.
  pose proof (edge_dict_rows_prefix similarity k 0 (length (pandas.index similarity))
                Hnd Hlen) as H.
  cbv zeta in H. specialize (H (Nat.le_refl _)).
  etransitivity; [exact H|]. f_equal. apply take_ge.
  rewrite length_zip_with. simpl. lia.
Qed.

Lemma make_edge_dict_rows_witness :
  Loader.make_edge_dict similarity_12 1
  = Ok (zip_with (fun label r =>
                    (label, Loader.top_k 1 (combine (pandas.columns similarity_12) r)))
                 (pandas.index similarity_12) (pandas.values similarity_12)).
Proof.
  apply make_edge_dict_rows.
  - simpl. repeat constructor; intros H; apply list_elem_of_In in H; simpl in H;
      intuition discriminate.
  - reflexivity.
Defined.

Lemma dict_set_length_le {K V} `{EqDecision K} (d : dict.t K V) (k : K) (v : V) :
  length (dict.set d k v) <= S (length d).
Proof.
  induction d as [|[k' v'] d IH]; simpl; [lia|].
  destruct (decide (k' = k)); simpl; lia.
Qed.

Lemma dict_set_Forall {K V} `{EqDecision K} (P : K * V -> Prop) (d : dict.t K V)
    (k : K) (v : V) :
  Forall P d -> (forall k', P (k', v)) -> Forall P (dict.set d k v).
Proof.
  intros Hd Hv. induction Hd as [|[k' v'] d Hx Hd IH]; simpl.
  - repeat constructor. apply Hv.
  - destruct (decide (k' = k)); constructor; auto.
Qed.

Lemma top_k_length_le (k : nat) (row : pandas.Series Q) :
  length (Loader.top_k k row) <= k.
Proof.
  unfold Loader.top_k.
  set (sorted_row := pandas.sort_values row).
  assert (forall keys (acc : dict.t Z Q),
             length (fold_left (fun d key =>
                                  match pandas.getitem sorted_row key with
                                  | Ok w => dict.set d key w
                                  | Raise _ => d
                                  end) keys acc)
             <= length acc + length keys) as Hfold.
  { induction keys as [|key keys IH]; intros acc; simpl; [lia|].
    etransitivity; [apply IH|].
    destruct (pandas.getitem sorted_row key); [|lia].
    pose proof (dict_set_length_le acc key a). lia. }
  etransitivity; [apply Hfold|]. simpl. rewrite length_map, length_take. lia.
Qed.

Lemma edge_dict_rows_bounded (similarity : pandas.DataFrame Q) (k : nat)
    (rows : list nat) (acc edge_dict : Loader.edge_dict_t) :
  Forall (fun entry => length (snd entry) <= k) acc ->
  Loader.edge_dict_rows similarity k rows acc = Ok edge_dict ->
  Forall (fun entry => length (snd entry) <= k) edge_dict.
Proof.
  revert acc. induction rows as [|i rows IH]; intros acc Hacc; simpl.
  - now intros [= <-].
  - destruct (pandas.iloc similarity i) as [[label row]|]; simpl; [|discriminate].
    apply IH. apply dict_set_Forall; [exact Hacc|].
    intros k'. simpl. apply top_k_length_le.
Qed.

Lemma top_k_length (k : nat) (row : pandas.Series Q) :
  NoDup (map fst row) -> length (Loader.top_k k row) = Nat.min k (length row).
Proof.
  intros Hnd. rewrite top_k_take by assumption.
  now rewrite length_take, (Permutation_length (sort_values_perm row)).
Qed.

Lemma make_edge_dict_lookup (similarity : pandas.DataFrame Q) (k i : nat)
    (edge_dict : Loader.edge_dict_t) (label : Z) (row : pandas.Series Q) :
  NoDup (pandas.index similarity) ->
  length (pandas.values similarity) = length (pandas.index similarity) ->
  Loader.make_edge_dict similarity k = Ok edge_dict ->
  pandas.iloc similarity i = Ok (label, row) ->
  dict.get edge_dict label = Some (Loader.top_k k row).
Proof.
  intros Hnd Hlen Hbuild Hrow.
  pose proof (edge_dict_rows_prefix similarity k 0 (length (pandas.index similarity))
                Hnd Hlen) as H.
  cbv zeta in H. specialize (H (Nat.le_refl _)).
  unfold Loader.make_edge_dict, pandas.shape0 in Hbuild.
  change (take 0 _) with (@nil (Z * dict.t Z Q)) in H.
  rewrite H in Hbuild. injection Hbuild as <-.
  rewrite take_ge by (rewrite length_zip_with; simpl; lia).
  unfold pandas.iloc in Hrow.
  destruct (pandas.index similarity !! i) as [label'|] eqn:Hlabel; [|discriminate].
  destruct (pandas.values similarity !! i) as [r|] eqn:Hr; [|discriminate].
  injection Hrow as -> <-.
  apply dict_get_elem.
  - assert (map fst (zip_with (fun label r =>
                (label, Loader.top_k k (combine (pandas.columns similarity) r)))
              (pandas.index similarity) (pandas.values similarity))
            = pandas.index similarity) as ->; [|exact Hnd].
    clear -Hlen. revert Hlen.
    generalize (pandas.values similarity). generalize (pandas.index similarity).
    induction l as [|a l IH]; intros [|r rs]; simpl; intros Hlen;
      try reflexivity; try discriminate.
    f_equal. apply IH. lia.
  - apply list_elem_of_lookup. exists i.
    rewrite lookup_zip_with, Hlabel. simpl. now rewrite Hr.
Qed.

(** C2. The graphs for the smaller values of the list are not made the
    way the claim says. Whatever neighbour maps lines 251-258 build for
    [k], the loop of lines 266-270 compares their lengths with [k], not
    with [nearest]: it removes nothing, and the round for [nearest] hands
    the graph builder the maps as they were built, then stops with
    [AttributeError]. For distinct row labels, the map kept for a row with
    more than [nearest] entries, [nearest < k], has more than [nearest]
    entries: it is the top-[k] selection, not the top-[nearest] one. *)
Theorem make_graphs_never_shrinks (similarity : pandas.DataFrame Q) (k nearest : nat)
    (rest : list nat) (edge_dict : Loader.edge_dict_t) :
  Loader.make_edge_dict similarity k = Ok edge_dict ->
  Loader.working_for k edge_dict = Some (Ok edge_dict)
  /\ Loader.make_graphs_loop k (nearest :: rest) edge_dict
     = Some (Raise AttributeError, [(nearest, edge_dict)])
  /\ (NoDup (pandas.index similarity) ->
      length (pandas.values similarity) = length (pandas.index similarity) ->
      forall i label row,
        pandas.iloc similarity i = Ok (label, row) ->
        NoDup (map fst row) ->
        nearest < k -> nearest < length row ->
        dict.get edge_dict label = Some (Loader.top_k k row)
        /\ nearest < length (Loader.top_k k row)
        /\ Loader.top_k k row <> Loader.top_k nearest row).
Proof.
  intros Hbuild.
  assert (Hbound : Forall (fun entry => length (snd entry) <= k) edge_dict).
  { eapply edge_dict_rows_bounded; [|exact Hbuild]. constructor. }
  split; [now apply working_for_noop|].
  split; [now apply make_graphs_loop_first_round|].
  intros Hnd Hlen i label row Hrow Hrownd Hk Hlong.
  split; [eapply make_edge_dict_lookup; eassumption|].
  pose proof (top_k_length k row Hrownd) as Hk1.
  pose proof (top_k_length nearest row Hrownd) as Hk2.
  split; [lia|].
  intros Heq. rewrite Heq in Hk1. lia.
Qed.

Lemma make_graphs_never_shrinks_witness :
  exists edge_dict,
    Loader.make_edge_dict similarity_123 2 = Ok edge_dict
    /\ Loader.working_for 2 edge_dict = Some (Ok edge_dict)
    /\ Loader.make_graphs_loop 2 [2; 1] edge_dict
       = Some (Raise AttributeError, [(2, edge_dict)])
    /\ dict.get edge_dict 1%Z = Some [(2%Z, (9 # 10)%Q); (3%Z, (1 # 2)%Q)]
    /\ Loader.top_k 1 [(1%Z, 0%Q); (2%Z, (9 # 10)%Q); (3%Z, (1 # 2)%Q)]
       = [(2%Z, (9 # 10)%Q)].
Proof.
  eexists. split; [reflexivity|].
  destruct (make_graphs_never_shrinks similarity_123 2 2 [1] _ eq_refl) as (Hw & Hloop & _).
  destruct (make_graphs_never_shrinks similarity_123 2 1 [] _ eq_refl) as (_ & _ & Hrows).
  split; [exact Hw|]. split; [exact Hloop|].
  split; [|reflexivity].
  assert (Hnd1 : NoDup [1%Z; 2%Z; 3%Z]).
  { repeat constructor; intros H; apply list_elem_of_In in H; simpl in H;
      intuition discriminate. }
  destruct (Hrows Hnd1 eq_refl 0 1%Z
              [(1%Z, 0%Q); (2%Z, (9 # 10)%Q); (3%Z, (1 # 2)%Q)] eq_refl Hnd1)
    as (Hget & _ & _); [lia|simpl; lia|].
  exact Hget.
Defined.

Lemma sort_reverse_nonempty (l : list nat) : l <> [] -> Loader.sort_reverse l <> [].
Proof.
  destruct l as [|x l]; [congruence|]. intros _. simpl.
  destruct (Loader.sort_reverse l) as [|y r]; simpl; [discriminate|].
  destruct (Nat.ltb x y); discriminate.
Qed.

(** X20. [make_graphs] never returns normally and never gets to save a
    graph: whatever the feature table and the values of [k], it raises,
    with [ValueError] when neither [k] nor a candidate is given, and
    otherwise at the latest in the first round of its loop, where [Graph]
    has no [add_edge_dict]. *)
Theorem make_graphs_never_completes (sqrt : Q -> Q) (all_photos : pandas.DataFrame Q)
    (k : option nat) (all_ks : list nat) :
  exists e built,
    Loader.make_graphs sqrt all_photos k all_ks = Some (Raise e, built)
    /\ length built <= 1
    /\ (k = None -> all_ks = [] -> e = ValueError).
Proof.
  unfold Loader.make_graphs.
  assert (forall k0 ks, ks <> [] ->
            exists e built,
              match
                rbind (Loader.similarity_matrix 0%Q Qplus Qmult Qdiv sqrt all_photos)
                      (fun similarity => Loader.make_edge_dict similarity k0)
              with
              | Raise e => Some (Raise e, [])
              | Ok edge_dict => Loader.make_graphs_loop k0 (Loader.sort_reverse ks) edge_dict
              end = Some (Raise e, built) /\ length built <= 1) as Hmain.
  { intros k0 ks Hks.
    destruct (rbind _ _) as [edge_dict|e] eqn:Hbuild.
    - apply sort_reverse_nonempty in Hks.
      destruct (Loader.sort_reverse ks) as [|nearest rest]; [congruence|].
      rewrite make_graphs_loop_first_round.
      + do 2 eexists. split; [reflexivity|]. simpl. lia.
      + destruct (Loader.similarity_matrix _ _ _ _ _ _) as [similarity|]; simpl in Hbuild;
          [|discriminate].
        eapply edge_dict_rows_bounded; [|exact Hbuild]. constructor.
    - do 2 eexists. split; [reflexivity|]. simpl. lia. }
  destruct k as [k0|].
  - destruct (Hmain k0 [k0]) as (e & built & Hrun & Hlen); [discriminate|].
    exists e, built. repeat split; [exact Hrun|exact Hlen|discriminate].
  - destruct all_ks as [|x ks].
    + exists ValueError, []. repeat split. simpl. lia.
    + destruct (Hmain (list_max (x :: ks)) (x :: ks)) as (e & built & Hrun & Hlen);
        [discriminate|].
      exists e, built. repeat split; [exact Hrun|exact Hlen|discriminate].
Qed.

(** * Properties of the readers of [loader.py] *)

(** ** Splitting and stripping *)

Lemma append_cons (a : Ascii.ascii) (s t : string) :
  String.append (String a s) t = String a (String.append s t).
Proof. reflexivity. Qed.

Lemma append_nil (t : string) : String.append EmptyString t = t.
Proof. reflexivity. Qed.

Lemma contains_append (c : Ascii.ascii) (s t : string) :
  str.contains c (String.append s t) = str.contains c s || str.contains c t.
Proof.
  induction s as [|a s IH]; [reflexivity|].
  rewrite append_cons. simpl. now rewrite IH, orb_assoc.
Qed.

Lemma split_clean (c : Ascii.ascii) (s : string) :
  str.contains c s = false -> str.split c s = [s].
Proof.
  induction s as [|a s IH]; simpl; [reflexivity|].
  intros H. apply orb_false_iff in H as [Ha Hs]. rewrite Ha, IH by assumption.
  reflexivity.
Qed.

Lemma split_append (c : Ascii.ascii) (s t : string) :
  str.contains c s = false ->
  str.split c (String.append s (String c t)) = s :: str.split c t.
Proof.
  induction s as [|a s IH]; intros H.
  - rewrite append_nil. simpl. now rewrite Ascii.eqb_refl.
  - simpl in H. apply orb_false_iff in H as [Ha Hs].
    rewrite append_cons. simpl. now rewrite Ha, IH.
Qed.

Lemma lstrip_clean (c : Ascii.ascii) (s t : string) :
  str.contains c s = false -> s <> EmptyString ->
  str.lstrip c (String.append s t) = String.append s t.
Proof.
  destruct s as [|a s]; [congruence|]. simpl. intros H _.
  apply orb_false_iff in H as [Ha _]. rewrite append_cons. simpl. now rewrite Ha.
Qed.

Lemma rstrip_clean (c : Ascii.ascii) (s : string) :
  str.contains c s = false -> str.rstrip c s = s.
Proof.
  induction s as [|a s IH]; simpl; [reflexivity|].
  intros H. apply orb_false_iff in H as [Ha Hs]. rewrite IH, Ha by assumption.
  now destruct s.
Qed.

Lemma rstrip_append_char (c : Ascii.ascii) (s : string) :
  str.rstrip c (String.append s (String c EmptyString)) = str.rstrip c s.
Proof.
  induction s as [|a s IH].
  - simpl. now rewrite Ascii.eqb_refl.
  - rewrite append_cons. simpl. now rewrite IH.
Qed.

Lemma strip_line (c : Ascii.ascii) (s : string) :
  str.contains c s = false ->
  str.strip c (String.append s (String c EmptyString)) = s.
Proof.
  intros H. unfold str.strip. destruct s as [|a s].
  - simpl. now rewrite Ascii.eqb_refl.
  - rewrite lstrip_clean by (assumption || discriminate).
    now rewrite rstrip_append_char, rstrip_clean.
Qed.

(** ** [load_name_corr] *)

Lemma plain_spec (s : string) :
  plain s = true -> str.contains str.tab s = false /\ str.contains str.newline s = false.
Proof.
  unfold plain. intros H. apply andb_true_iff in H as [H1 H2].
  now apply negb_true_iff in H1, H2.
Qed.

Lemma name_corr_line_fields (entry : string * string) :
  plain (fst entry) = true -> plain (snd entry) = true ->
  str.split str.tab (str.strip str.newline (name_corr_line entry))
  = [fst entry; snd entry].
Proof.
  destruct entry as [name title]. simpl. intros Hn Ht.
  apply plain_spec in Hn as [Hn1 Hn2], Ht as [Ht1 Ht2].
  unfold name_corr_line. simpl.
  assert (String.append name (String str.tab (String.append title (String str.newline EmptyString)))
          = String.append (String.append name (String str.tab title))
                          (String str.newline EmptyString)) as ->.
  { clear. induction name as [|a name IH]; [reflexivity|].
    rewrite !append_cons. now rewrite IH. }
  rewrite strip_line.
  - rewrite split_append by assumption. now rewrite split_clean.
  - rewrite contains_append. simpl. now rewrite Hn2, Ht2.
Qed.

Lemma name_corr_lines_fold (entries : list (string * string))
    (acc : dict.t string string) :
  Forall (fun entry => plain (fst entry) = true /\ plain (snd entry) = true) entries ->
  LocationReader.name_corr_lines (map name_corr_line entries) acc
  = Done (fold_left (fun d entry => dict.set d (snd entry) (fst entry)) entries acc).
Proof.
  intros H. revert acc. induction H as [|entry entries [Hn Ht] _ IH]; intros acc; simpl.
  - reflexivity.
  - rewrite name_corr_line_fields by assumption. apply IH.
Qed.

Lemma dict_get_app {K V} `{EqDecision K} (d1 d2 : dict.t K V) (k : K) :
  dict.get (d1 ++ d2) k
  = match dict.get d1 k with Some v => Some v | None => dict.get d2 k end.
Proof.
  induction d1 as [|[k' v'] d1 IH]; simpl; [reflexivity|].
  now destruct (decide (k' = k)).
Qed.

Lemma dict_get_fold_set (entries : list (string * string)) (acc : dict.t string string)
    (title : string) :
  dict.get (fold_left (fun d entry => dict.set d (snd entry) (fst entry)) entries acc) title
  = match dict.get (rev (map (fun entry => (snd entry, fst entry)) entries)) title with
    | Some name => Some name
    | None => dict.get acc title
    end.
Proof.
  revert acc. induction entries as [|[n t] entries IH]; intros acc; simpl; [reflexivity|].
  rewrite IH, dict_get_app. destruct (dict.get (rev _) title); [reflexivity|].
  simpl. destruct (decide (t = title)) as [->|Hne].
  - apply dict_get_set_eq.
  - now apply dict_get_set_ne.
Qed.

(** X21. Reading back a name correspondence file: for a file made of one
    line [name TAB title] per entry, names and titles free of tabs and
    line breaks, [load_name_corr] returns a dictionary that maps every
    title to the name on its line, the last such line when a title comes
    more than once, and that has no other key. *)
Theorem load_name_corr_round_trip (fs : gmap string os.node) (file : string)
    (entries : list (string * string)) :
  fs !! file = Some (os.RegularFile (map name_corr_line entries)) ->
  Forall (fun entry => plain (fst entry) = true /\ plain (snd entry) = true) entries ->
  exists name_correlation,
    LocationReader.load_name_corr fs file = Done name_correlation
    /\ forall title,
         dict.get name_correlation title
         = dict.get (rev (map (fun entry => (snd entry, fst entry)) entries)) title.
Proof.
  intros Hfile Hplain. unfold LocationReader.load_name_corr, os.isfile.
  rewrite Hfile. simpl. rewrite name_corr_lines_fold by assumption.
  eexists. split; [reflexivity|]. intros title.
  rewrite dict_get_fold_set. now destruct (dict.get _ title).
Qed.

Lemma load_name_corr_round_trip_witness :
  exists name_correlation,
    LocationReader.load_name_corr
      {[ "poiNameCorrespondences.txt" :=
           os.RegularFile (map name_corr_line
                               [("Acropolis Athens", "acropolis_athens");
                                ("Big Ben", "big_ben")]) ]}
      "poiNameCorrespondences.txt"
    = Done name_correlation
    /\ forall title,
         dict.get name_correlation title
         = dict.get (rev (map (fun entry => (snd entry, fst entry))
                              [("Acropolis Athens", "acropolis_athens");
                               ("Big Ben", "big_ben")])) title.
Proof.
  apply load_name_corr_round_trip.
  - apply lookup_singleton_eq.
  - repeat constructor.
Defined.

Lemma name_corr_lines_raises (lines : list string) (acc : dict.t string string)
    (e : io_exn) :
  LocationReader.name_corr_lines lines acc = Fail e -> e = Builtin ValueError.
Proof.
  revert acc. induction lines as [|line lines IH]; intros acc; simpl; [discriminate|].
  destruct (str.split str.tab (str.strip str.newline line)) as [|a [|b [|c l]]];
    try (intros [= <-]; reflexivity).
  apply IH.
Qed.

Lemma name_corr_lines_bad_line (lines : list string) (acc : dict.t string string)
    (line : string) :
  line ∈ lines ->
  length (str.split str.tab (str.strip str.newline line)) <> 2 ->
  LocationReader.name_corr_lines lines acc = Fail (Builtin ValueError).
Proof.
  revert acc. induction lines as [|l0 lines IH]; intros acc Hin Hbad; [inversion Hin|].
  simpl.
  destruct (str.split str.tab (str.strip str.newline l0)) as [|a [|b [|c l]]] eqn:Hs;
    try reflexivity.
  apply elem_of_cons in Hin as [->|Hin]; [rewrite Hs in Hbad; simpl in Hbad; lia|].
  now apply IH.
Qed.

(** X22. [load_name_corr] on anything but a regular file raises
    [OSError]; on a file with a line that does not split into exactly two
    fields at the tabs (a blank line, a line without tab, a line with two
    tabs) it raises [ValueError] and returns no dictionary. *)
Theorem load_name_corr_rejects (fs : gmap string os.node) (file : string) :
  (os.isfile fs file = false -> LocationReader.load_name_corr fs file = Fail OSError)
  /\ (forall lines line,
        fs !! file = Some (os.RegularFile lines) ->
        line ∈ lines ->
        length (str.split str.tab (str.strip str.newline line)) <> 2 ->
        LocationReader.load_name_corr fs file = Fail (Builtin ValueError)).
Proof.
  split.
  - intros H. unfold LocationReader.load_name_corr. now rewrite H.
  - intros lines line Hfile Hin Hbad.
    unfold LocationReader.load_name_corr, os.isfile. rewrite Hfile. simpl.
    eapply name_corr_lines_bad_line; eassumption.
Qed.

(** A blank line at the end of the file is such a line. *)
Lemma load_name_corr_rejects_witness :
  LocationReader.load_name_corr
    {[ "corr.txt" := os.RegularFile [name_corr_line ("Big Ben", "big_ben");
                                     String str.newline EmptyString] ]}
    "corr.txt"
  = Fail (Builtin ValueError).
Proof.
  apply (proj2 (load_name_corr_rejects _ "corr.txt")
               [name_corr_line ("Big Ben", "big_ben"); String str.newline EmptyString]
               (String str.newline EmptyString)).
  - apply lookup_singleton_eq.
  - repeat constructor.
  - vm_compute. discriminate.
Defined.

(** ** [VisualDescriptionReader.load_folder] *)

Lemma child_inj (folder a b : string) : os.child folder a = os.child folder b -> a = b.
Proof.
  unfold os.child. induction folder as [|c folder IH]; simpl; intros H.
  - now injection H.
  - rewrite !append_cons in H. injection H as H. now apply IH.
Qed.

Lemma load_plain_visual (files : list string) (acc : dict.t pyval string) :
  NoDup files ->
  (forall file, file ∈ files -> PyStr file ∉ map fst acc) ->
  GenericReader.load_plain VisualDescriptionReader.load_file files acc
  = Done (acc ++ map (fun file => (PyStr file, file)) files).
Proof.
  revert acc. induction files as [|file files IH]; intros acc Hnd Hfresh; simpl.
  - now rewrite app_nil_r.
  - apply NoDup_cons in Hnd as [Hfile Hnd].
    rewrite dict_set_fresh by (apply Hfresh; constructor).
    rewrite IH; [now rewrite <- app_assoc|exact Hnd|].
    intros f Hf. rewrite map_app. simpl. intros Hin.
    apply elem_of_app in Hin as [Hin|Hin].
    + revert Hin. apply Hfresh. now constructor.
    + apply list_elem_of_singleton in Hin. injection Hin as ->. contradiction.
Qed.

(** X23. [VisualDescriptionReader().load_folder(folder)], as
    [make_database] calls it: for a directory (whose listing names no
    entry twice) it returns a dictionary that has, in the order of the
    listing, one key per regular file of the directory whose name does not
    start with a dot, the path [folder/name], mapped to that same path;
    sub-directories and hidden files are left out. *)
Theorem visual_load_folder (fs : gmap string os.node) (folder : string)
    (entries : list string) :
  fs !! folder = Some (os.Directory entries) ->
  NoDup entries ->
  VisualDescriptionReader.load_folder fs folder
  = Done (map (fun name => (PyStr (os.child folder name), os.child folder name))
              (List.filter (fun name => os.isfile fs (os.child folder name)
                                        && negb (str.startswith str.dot name))
                           entries)).
Proof.
  intros Hdir Hnd.
  unfold VisualDescriptionReader.load_folder, GenericReader.load_folder,
    GenericReader.__get_files__, os.listdir.
  rewrite Hdir. simpl. unfold GenericReader.load_files.
  rewrite load_plain_visual.
  - simpl. now rewrite map_map.
  - apply NoDup_fmap_2; [intros a b; apply child_inj|].
    apply NoDup_ListNoDup, List.NoDup_filter, NoDup_ListNoDup, Hnd.
  - intros file _ H. inversion H.
Qed.

Lemma visual_load_folder_witness :
  let fs : gmap string os.node :=
    {[ "img" := os.Directory ["a.csv"; ".hidden"; "sub"];
       "img/a.csv" := os.RegularFile [];
       "img/.hidden" := os.RegularFile [];
       "img/sub" := os.Directory [] ]} in
  VisualDescriptionReader.load_folder fs "img"
  = Done (map (fun name => (PyStr (os.child "img" name), os.child "img" name))
              (List.filter (fun name => os.isfile fs (os.child "img" name)
                                        && negb (str.startswith str.dot name))
                           ["a.csv"; ".hidden"; "sub"])).
Proof.
  apply visual_load_folder.
  - reflexivity.
  - repeat constructor; intros H; apply list_elem_of_In in H; simpl in H;
      intuition discriminate.
Defined.

(** ** [DescriptionReader.load_file] *)

Lemma append_assoc (s t u : string) :
  String.append (String.append s t) u = String.append s (String.append t u).
Proof. induction s as [|a s IH]; [reflexivity|]. rewrite !append_cons. now rewrite IH. Qed.

Lemma split_join (c : Ascii.ascii) (tokens : list string) :
  Forall (fun s => str.contains c s = false) tokens ->
  tokens <> [] ->
  str.split c (str.join c tokens) = tokens.
Proof.
  induction 1 as [|s rest Hs Hrest IH]; intros Hne; [congruence|].
  destruct rest as [|s2 rest].
  - simpl. now apply split_clean.
  - change (str.join c (s :: s2 :: rest))
      with (String.append s (String c (str.join c (s2 :: rest)))).
    rewrite split_append by assumption. now rewrite IH.
Qed.

Lemma join_snoc (c : Ascii.ascii) (tokens : list string) (s : string) :
  tokens <> [] ->
  str.join c (tokens ++ [s]) = String.append (str.join c tokens) (String c s).
Proof.
  induction tokens as [|a rest IH]; intros Hne; [congruence|].
  destruct rest as [|b rest]; [reflexivity|].
  change (str.join c ((a :: b :: rest) ++ [s]))
    with (String.append a (String c (str.join c ((b :: rest) ++ [s])))).
  rewrite IH by discriminate.
  change (str.join c (a :: b :: rest))
    with (String.append a (String c (str.join c (b :: rest)))).
  now rewrite append_assoc.
Qed.

Lemma split_contains (c q : Ascii.ascii) (s : string) :
  str.contains q s = false ->
  Forall (fun t => str.contains q t = false) (str.split c s).
Proof.
  induction s as [|a s IH]; simpl; intros H.
  - repeat constructor.
  - apply orb_false_iff in H as [Ha Hs]. specialize (IH Hs).
    destruct (Ascii.eqb a c).
    + constructor; [reflexivity|exact IH].
    + destruct (str.split c s) as [|h t]; [repeat constructor; simpl; now rewrite Ha|].
      apply Forall_cons in IH as [Hh Ht]. constructor; [|exact Ht].
      simpl. now rewrite Ha, Hh.
Qed.

Lemma list_remove_Forall `{EqDecision A} (P : A -> Prop) (x : A) (l l' : list A) :
  Forall P l -> list_remove x l = Ok l' -> Forall P l'.
Proof.
  intros H. revert l'. induction H as [|y l Hy Hl IH]; simpl; intros l'; [discriminate|].
  destruct (decide (y = x)); [now intros [= <-]|].
  destruct (list_remove x l) as [r|]; simpl; [|discriminate].
  intros [= <-]. constructor; auto.
Qed.

Lemma first_quoted_none (k : nat) (tokens : list string) :
  Forall (fun t => str.contains str.quote t = false) tokens ->
  DescriptionReader.first_quoted_from k tokens = None.
Proof.
  intros H. revert k. induction H as [|t rest Ht _ IH]; intros k; simpl; [reflexivity|].
  now rewrite Ht.
Qed.

Lemma first_quoted_at (k : nat) (before : list string) (t : string) (after : list string) :
  Forall (fun t => str.contains str.quote t = false) before ->
  str.contains str.quote t = true ->
  DescriptionReader.first_quoted_from k (before ++ t :: after) = Some (k + length before).
Proof.
  intros H Ht. revert k. induction H as [|b rest Hb _ IH]; intros k; simpl.
  - now rewrite Ht, Nat.add_0_r.
  - rewrite Hb, IH. f_equal. lia.
Qed.

Lemma line_tokens_contains (q : Ascii.ascii) (line : string) :
  str.contains q line = false ->
  Forall (fun t => str.contains q t = false) (line_tokens line).
Proof.
  intros H. apply (split_contains str.space) in H. unfold line_tokens.
  destruct (bool_decide _); [|exact H].
  destruct (list_remove _ _) eqn:Hr; [|exact H].
  eapply list_remove_Forall; eassumption.
Qed.

(** X24. The variable [j] is only bound by a token with a quotation
    mark: a description file whose first line has none (a blank line, a
    bare identifier) makes [load_file] raise [UnboundLocalError]. *)
Theorem description_first_line_unquoted (int : string -> option Z)
    (fs : gmap string os.node) (file : string) (index : pyval)
    (line : string) (rest : list string) :
  fs !! file = Some (os.RegularFile (line :: rest)) ->
  str.contains str.quote line = false ->
  DescriptionReader.load_file int fs file (Some index) = Fail UnboundLocalError.
Proof.
  intros Hfile Hline. unfold DescriptionReader.load_file, os.isfile. rewrite Hfile. simpl.
  unfold DescriptionReader.load_line. fold (line_tokens line).
  unfold DescriptionReader.first_quoted.
  now rewrite first_quoted_none by now apply line_tokens_contains.
Qed.

Lemma description_first_line_unquoted_witness :
  DescriptionReader.load_file (fun _ => None)
    {[ "devset_textTermsPerPOI.txt" := os.RegularFile [String str.newline EmptyString] ]}
    "devset_textTermsPerPOI.txt" (Some (PyStr "poi"))
  = Fail UnboundLocalError.
Proof.
  apply (description_first_line_unquoted _ _ _ _ (String str.newline EmptyString) []).
  - apply lookup_singleton_eq.
  - reflexivity.
Defined.

Lemma remove_clean (c : Ascii.ascii) (s : string) :
  str.contains c s = false -> str.remove c s = s.
Proof.
  induction s as [|a s IH]; simpl; [reflexivity|].
  intros H. apply orb_false_iff in H as [Ha Hs]. rewrite Ha. now rewrite IH.
Qed.

Lemma remove_append (c : Ascii.ascii) (s t : string) :
  str.remove c (String.append s t) = String.append (str.remove c s) (str.remove c t).
Proof.
  induction s as [|a s IH]; [reflexivity|]. rewrite append_cons. simpl.
  destruct (Ascii.eqb a c); [exact IH|]. rewrite append_cons. now rewrite IH.
Qed.

Lemma append_empty (s : string) : String.append s EmptyString = s.
Proof. induction s as [|a s IH]; [reflexivity|]. rewrite append_cons. now rewrite IH. Qed.

Lemma remove_quoted (term : string) :
  str.contains str.quote term = false -> str.remove str.quote (quoted term) = term.
Proof.
  intros H. unfold quoted.
  change (str.remove str.quote (String str.quote ?s)) with (str.remove str.quote s).
  rewrite remove_append, (remove_clean _ term H).
  change (str.remove str.quote (String str.quote EmptyString)) with EmptyString.
  apply append_empty.
Qed.

Lemma token_spec (s : string) :
  token s = true <-> str.contains str.space s = false /\ str.contains str.newline s = false.
Proof.
  unfold token. rewrite andb_true_iff, !negb_true_iff. tauto.
Qed.

Lemma contains_quoted (c : Ascii.ascii) (term : string) :
  c <> str.quote ->
  str.contains c (quoted term) = str.contains c term.
Proof.
  intros Hc. unfold quoted.
  assert (Hq : Ascii.eqb str.quote c = false) by (apply Ascii.eqb_neq; congruence).
  cbn [str.contains]. rewrite contains_append. cbn [str.contains].
  rewrite Hq. now rewrite !orb_false_r.
Qed.

Lemma description_tokens_clean (d : description) (c : Ascii.ascii) :
  description_ok d -> c = str.space \/ c = str.newline ->
  Forall (fun s => str.contains c s = false) (description_tokens d).
Proof.
  intros (Hid & Hes & _) Hc. unfold description_tokens. apply Forall_app. split.
  - eapply Forall_impl; [exact Hid|]. intros s [Ht _].
    apply token_spec in Ht. destruct Hc as [-> | ->]; tauto.
  - induction Hes as [|[[[term tf] idf] tfidf] es (Hterm & _ & Htf & Hidf & Htfidf) _ IH];
      [constructor|].
    apply token_spec in Hterm, Htf, Hidf, Htfidf. simpl.
    repeat constructor; try exact IH;
      try (rewrite contains_quoted by (destruct Hc as [-> | ->]; discriminate));
      destruct Hc as [-> | ->]; tauto.
Qed.

Lemma description_tokens_nonempty (d : description) :
  description_ok d -> description_tokens d <> [].
Proof.
  intros (_ & _ & Hne). unfold description_tokens.
  destruct (snd d) as [|[[[term tf] idf] tfidf] es]; [congruence|].
  simpl. intros H. apply app_eq_nil in H as [_ H]. discriminate.
Qed.

Lemma list_remove_last `{EqDecision A} (x : A) (l : list A) :
  x ∉ l -> list_remove x (l ++ [x]) = Ok l.
Proof.
  induction l as [|y l IH]; simpl; intros H.
  - now rewrite decide_True.
  - apply not_elem_of_cons in H as [Hne Hl].
    rewrite decide_False by congruence. now rewrite IH.
Qed.

Lemma line_tokens_description (d : description) :
  description_ok d -> line_tokens (description_line d) = description_tokens d.
Proof.
  intros Hok. unfold line_tokens, description_line.
  pose proof (description_tokens_clean d str.space Hok (or_introl eq_refl)) as Hsp.
  pose proof (description_tokens_clean d str.newline Hok (or_intror eq_refl)) as Hnl.
  pose proof (description_tokens_nonempty d Hok) as Hne.
  rewrite <- join_snoc by assumption.
  rewrite split_join.
  - assert (Hnot : String str.newline EmptyString ∉ description_tokens d).
    { intros Hin. rewrite Forall_forall in Hnl. now specialize (Hnl _ Hin). }
    rewrite bool_decide_eq_true_2 by (apply elem_of_app; right; constructor).
    now rewrite list_remove_last.
  - apply Forall_app. split; [exact Hsp|]. now repeat constructor.
  - intros H. apply app_eq_nil in H as [_ H]. discriminate.
Qed.

Lemma first_quoted_description (d : description) :
  description_ok d ->
  DescriptionReader.first_quoted (description_tokens d) = Some (length (fst d)).
Proof.
  intros (Hid & Hes & Hne). unfold DescriptionReader.first_quoted, description_tokens.
  destruct (snd d) as [|[[[term tf] idf] tfidf] es]; [congruence|].
  simpl. rewrite first_quoted_at; [reflexivity| |].
  - eapply Forall_impl; [exact Hid|]. now intros s [_ H].
  - unfold quoted. simpl. reflexivity.
Qed.

Lemma range4_tuples (j n : nat) :
  DescriptionReader.range4 j (j + 4 * n) = map (fun i => j + 4 * i) (seq 0 n).
Proof.
  unfold DescriptionReader.range4. do 2 f_equal.
  replace (j + 4 * n - j + 3) with (3 + n * 4) by lia.
  rewrite Nat.div_add by discriminate. reflexivity.
Qed.

Lemma entries_length (es : list (string * string * string * string)) :
  length (concat (map entry_tokens es)) = 4 * length es.
Proof.
  induction es as [|[[[term tf] idf] tfidf] es IH]; [reflexivity|].
  simpl in *. lia.
Qed.

Lemma terms_loop_entries (es : list (string * string * string * string))
    (before : list string) (terms : dict.t string string) :
  Forall (fun e => let '(term, tf, idf, tfidf) := e in
                   token term = true /\ str.contains str.quote term = false
                   /\ token tf = true /\ token idf = true /\ token tfidf = true) es ->
  DescriptionReader.terms_loop (before ++ concat (map entry_tokens es))
    (map (fun i => length before + 4 * i) (seq 0 (length es))) terms
  = Done (fold_left (fun terms e => let '(term, tf, idf, tfidf) := e in
                                    dict.set terms term tfidf) es terms).
Proof.
  intros H. revert before terms.
  induction H as [|[[[term tf] idf] tfidf] es (_ & Hq & _) _ IH]; intros before terms;
    [reflexivity|].
  cbn [length seq map DescriptionReader.terms_loop concat fold_left].
  rewrite Nat.mul_0_r, Nat.add_0_r, drop_app_length.
  cbn [entry_tokens app take]. rewrite remove_quoted by assumption.
  rewrite <- seq_shift, map_map.
  specialize (IH (before ++ entry_tokens (term, tf, idf, tfidf))
                 (dict.set terms term tfidf)).
  rewrite <- app_assoc in IH. cbn [entry_tokens app] in IH.
  rewrite <- IH. f_equal. apply map_ext. intros i. rewrite length_app. simpl. lia.
Qed.

Lemma load_line_description (int : string -> option Z) (d : description)
    (table : DescriptionReader.table_t) (j : option nat) :
  description_ok d ->
  DescriptionReader.load_line int (description_line d) (table, j)
  = Done (dict.set table (description_key int d) (description_terms d),
          Some (length (fst d))).
Proof.
  intros Hok. unfold DescriptionReader.load_line. fold (line_tokens (description_line d)).
  rewrite line_tokens_description by assumption.
  rewrite first_quoted_description by assumption. cbv zeta.
  assert (Htake : take (length (fst d)) (description_tokens d) = fst d)
    by apply take_app_length.
  rewrite Htake. fold (description_key int d).
  assert (Hlen : length (description_tokens d) = length (fst d) + 4 * length (snd d)).
  { unfold description_tokens. now rewrite length_app, entries_length. }
  rewrite Hlen, range4_tuples. unfold description_tokens at 1.
  rewrite terms_loop_entries by apply Hok. simpl.
  now rewrite dict_set_set.
Qed.

Lemma load_lines_description (int : string -> option Z) (ds : list description)
    (table : DescriptionReader.table_t) (j : option nat) :
  Forall description_ok ds ->
  exists j',
    DescriptionReader.load_lines int (map description_line ds) (table, j)
    = Done (fold_left (fun t d => dict.set t (description_key int d) (description_terms d))
                      ds table, j')
    /\ (ds <> [] \/ is_Some j -> is_Some j').
Proof.
  intros H. revert table j. induction H as [|d ds Hd _ IH]; intros table j.
  - exists j. split; [reflexivity|]. now intros [H|H].
  - cbn [map DescriptionReader.load_lines fold_left].
    rewrite load_line_description by assumption. cbn [obind].
    destruct (IH (dict.set table (description_key int d) (description_terms d))
                 (Some (length (fst d)))) as (j' & Heq & Hj).
    exists j'. split; [exact Heq|]. intros _. apply Hj. right. now eexists.
Qed.

Lemma load_lines_app (int : string -> option Z) (l1 l2 : list string)
    (state : DescriptionReader.table_t * option nat) :
  DescriptionReader.load_lines int (l1 ++ l2) state
  = obind (DescriptionReader.load_lines int l1 state) (DescriptionReader.load_lines int l2).
Proof.
  revert state. induction l1 as [|line l1 IH]; intros state; [reflexivity|].
  cbn [app DescriptionReader.load_lines].
  destruct (DescriptionReader.load_line int line state); [apply IH|reflexivity].
Qed.

Lemma dict_get_fold_set_by {A K V} `{EqDecision K} (key : A -> K) (value : A -> V)
    (l : list A) (acc : dict.t K V) (k : K) :
  dict.get (fold_left (fun t a => dict.set t (key a) (value a)) l acc) k
  = match dict.get (rev (map (fun a => (key a, value a)) l)) k with
    | Some v => Some v
    | None => dict.get acc k
    end.
Proof.
  revert acc. induction l as [|a l IH]; intros acc; simpl; [reflexivity|].
  rewrite IH, dict_get_app. destruct (dict.get (rev _) k); [reflexivity|].
  simpl. destruct (decide (key a = k)) as [<-|Hne].
  - apply dict_get_set_eq.
  - now apply dict_get_set_ne.
Qed.

(** X25. Reading back a description file: for a file of lines
    [ID "term" tf idf tfidf ... ] (tokens separated by single spaces, a
    space before the line break, at least one term on every line, no
    quotation mark inside an identifier or a term), [load_file] returns a
    table whose keys are the identifiers, converted by [int] where it
    applies, and whose value for an identifier is the dictionary of the
    terms of the LAST line with that identifier, each term with the
    [tfidf] of its last entry on that line: an earlier line of the same
    identifier is overwritten, not merged. *)
Theorem description_round_trip (int : string -> option Z) (fs : gmap string os.node)
    (file : string) (index : pyval) (ds : list description) :
  fs !! file = Some (os.RegularFile (map description_line ds)) ->
  Forall description_ok ds ->
  exists table,
    DescriptionReader.load_file int fs file (Some index) = Done table
    /\ forall an_id,
         dict.get table an_id
         = dict.get (rev (map (fun d => (description_key int d, description_terms d)) ds))
                    an_id.
Proof.
  intros Hfile Hok. unfold DescriptionReader.load_file, os.isfile. rewrite Hfile.
  cbn [negb]. destruct (load_lines_description int ds [] None Hok) as (j' & Hj & _).
  eexists. split; [exact (f_equal (fun r => obind r (fun state => Done (fst state))) Hj)|].
  intros an_id. cbn [fst].
  rewrite dict_get_fold_set_by. now destruct (dict.get _ an_id).
Qed.

Lemma description_round_trip_witness :
  exists table,
    DescriptionReader.load_file (fun s => if String.eqb s "10" then Some 10%Z else None)
      {[ "devset_textTermsPerImage.txt" :=
           os.RegularFile (map description_line
                               [(["10"], [("arch", "2", "7", "0.28"); ("sky", "1", "4", "0.25")]);
                                (["big"; "ben"], [("clock", "3", "5", "0.6")]);
                                (["10"], [("sun", "1", "2", "0.5")])]) ]}
      "devset_textTermsPerImage.txt" (Some (PyStr "photos"))
    = Done table
    /\ forall an_id,
         dict.get table an_id
         = dict.get (rev (map (fun d => (description_key
                                           (fun s => if String.eqb s "10" then Some 10%Z else None) d,
                                         description_terms d))
                              [(["10"], [("arch", "2", "7", "0.28"); ("sky", "1", "4", "0.25")]);
                               (["big"; "ben"], [("clock", "3", "5", "0.6")]);
                               (["10"], [("sun", "1", "2", "0.5")])])) an_id.
Proof.
  apply description_round_trip.
  - apply lookup_singleton_eq.
  - repeat constructor; discriminate.
Defined.

Lemma terms_loop_short (tokens : list string) (k : nat) (ks : list nat)
    (terms : dict.t string string) :
  k < length tokens < k + 4 ->
  DescriptionReader.terms_loop tokens (k :: ks) terms = Fail (Builtin ValueError).
Proof.
  intros H. simpl.
  assert (Hlen : length (take 4 (drop k tokens)) = length tokens - k).
  { rewrite length_take, length_drop. lia. }
  destruct (take 4 (drop k tokens)) as [|a [|b [|c [|e [|f l]]]]]; try reflexivity;
    simpl in Hlen; lia.
Qed.

Lemma terms_loop_incomplete (tokens : list string) (r m k : nat)
    (terms : dict.t string string) :
  0 < r < 4 -> length tokens = k + 4 * m + r ->
  DescriptionReader.terms_loop tokens (map (fun i => k + 4 * i) (seq 0 (S m))) terms
  = Fail (Builtin ValueError).
Proof.
  intros Hr. revert k terms. induction m as [|m IH]; intros k terms Hlen.
  - cbn [seq map]. apply terms_loop_short. lia.
  - change (seq 0 (S (S m))) with (0 :: seq 1 (S m)).
    rewrite <- seq_shift, map_cons, map_map. cbn [DescriptionReader.terms_loop].
    assert (Htake : length (take 4 (drop (k + 4 * 0) tokens)) = 4).
    { rewrite length_take, length_drop. lia. }
    destruct (take 4 (drop (k + 4 * 0) tokens)) as [|a [|b [|c [|e [|f l]]]]];
      try discriminate Htake.
    rewrite <- (IH (k + 4) (dict.set terms (str.remove str.quote a) e)) by lia.
    f_equal. apply map_ext. intros i. lia.
Qed.

Lemma range4_incomplete (j m r : nat) :
  0 < r < 4 ->
  DescriptionReader.range4 j (j + 4 * m + r) = map (fun i => j + 4 * i) (seq 0 (S m)).
Proof.
  intros Hr. unfold DescriptionReader.range4. do 2 f_equal.
  replace (j + 4 * m + r - j + 3) with ((r + 3) + m * 4) by lia.
  rewrite Nat.div_add by discriminate.
  assert ((r + 3) / 4 = 1) as ->; [|lia].
  destruct r as [|[|[|[|r]]]]; try lia; reflexivity.
Qed.

(** X26. An entry that is not a full four-tuple stops the reader: after
    any number of well-formed lines, a line with a quotation mark whose
    tokens from the first quoted one on do not come in fours makes
    [load_file] raise [ValueError], whatever lines follow; no table is
    returned. *)
Theorem description_incomplete_tuple (int : string -> option Z) (fs : gmap string os.node)
    (file : string) (index : pyval) (ds : list description) (line : string)
    (rest : list string) (j : nat) :
  fs !! file = Some (os.RegularFile (map description_line ds ++ line :: rest)) ->
  Forall description_ok ds ->
  DescriptionReader.first_quoted (line_tokens line) = Some j ->
  (length (line_tokens line) - j) mod 4 <> 0 ->
  DescriptionReader.load_file int fs file (Some index) = Fail (Builtin ValueError).
Proof.
  intros Hfile Hok Hj Hmod. unfold DescriptionReader.load_file, os.isfile. rewrite Hfile.
  cbn [negb]. rewrite load_lines_app.
  destruct (load_lines_description int ds [] None Hok) as (j' & Hds & _).
  assert (Hline : forall state,
             DescriptionReader.load_line int line state = Fail (Builtin ValueError)).
  { intros state. unfold DescriptionReader.load_line. fold (line_tokens line).
    rewrite Hj. cbv zeta.
    assert (Hlt : j < length (line_tokens line)).
    { destruct (Nat.lt_ge_cases j (length (line_tokens line))) as [H|H]; [exact H|].
      replace (length (line_tokens line) - j) with 0 in Hmod by lia. now elim Hmod. }
    pose proof (Nat.div_mod_eq (length (line_tokens line) - j) 4) as Hdiv.
    pose proof (Nat.mod_upper_bound (length (line_tokens line) - j) 4) as Hup.
    set (m := (length (line_tokens line) - j) / 4) in *.
    set (r := (length (line_tokens line) - j) mod 4) in *.
    assert (Hlen : length (line_tokens line) = j + 4 * m + r) by lia.
    rewrite Hlen at 1. rewrite range4_incomplete by lia.
    now rewrite (terms_loop_incomplete _ r m) by lia. }
  assert (Hfail : forall state,
             DescriptionReader.load_lines int (line :: rest) state
             = Fail (Builtin ValueError)).
  { intros state. cbn [DescriptionReader.load_lines]. now rewrite Hline. }
  exact (eq_trans
           (f_equal (fun r => obind (obind r (DescriptionReader.load_lines int (line :: rest)))
                                    (fun state => Done (fst state))) Hds)
           (f_equal (fun r => obind r (fun state => Done (fst state))) (Hfail _))).
Qed.

Lemma description_incomplete_tuple_witness :
  DescriptionReader.load_file (fun _ => None)
    {[ "devset_textTermsPerUser.txt" :=
         os.RegularFile
           (map description_line [(["big"; "ben"], [("clock", "3", "5", "0.6")])]
            ++ [String.append "10 " (String.append (quoted "arch") " 2 7") ]) ]}
    "devset_textTermsPerUser.txt" (Some (PyStr "users"))
  = Fail (Builtin ValueError).
Proof.
  apply (description_incomplete_tuple _ _ _ _
           [(["big"; "ben"], [("clock", "3", "5", "0.6")])]
           (String.append "10 " (String.append (quoted "arch") " 2 7")) [] 1).
  - apply lookup_singleton_eq.
  - repeat constructor; discriminate.
  - reflexivity.
  - vm_compute. discriminate.
Defined.

(** X27. A line without quotation mark reuses the [j] of the line
    before: a blank line at the end of a well-formed, non-empty file does
    not raise; it enters the identifier made of no token, the empty
    string (or what [int] makes of it), with an empty dictionary of
    terms. *)
Theorem description_blank_line (int : string -> option Z) (fs : gmap string os.node)
    (file : string) (index : pyval) (ds : list description) :
  fs !! file
  = Some (os.RegularFile (map description_line ds ++ [String str.newline EmptyString])) ->
  Forall description_ok ds ->
  ds <> [] ->
  exists table,
    DescriptionReader.load_file int fs file (Some index) = Done table
    /\ dict.get table (match int EmptyString with
                       | Some z => PyInt z
                       | None => PyStr EmptyString
                       end) = Some [].
Proof.
  intros Hfile Hok Hne. unfold DescriptionReader.load_file, os.isfile. rewrite Hfile.
  cbn [negb]. rewrite load_lines_app.
  destruct (load_lines_description int ds [] None Hok) as (j' & Hds & Hj).
  destruct (Hj (or_introl Hne)) as [j ->].
  eexists. split.
  - refine (eq_trans
              (f_equal (fun r => obind (obind r (DescriptionReader.load_lines int
                                                   [String str.newline EmptyString]))
                                       (fun state => Done (fst state))) Hds) _).
    cbn [obind DescriptionReader.load_lines]. unfold DescriptionReader.load_line.
    fold (line_tokens (String str.newline EmptyString)).
    change (line_tokens (String str.newline EmptyString)) with (@nil string).
    cbn [DescriptionReader.first_quoted DescriptionReader.first_quoted_from snd fst].
    rewrite take_nil.
    change (DescriptionReader.range4 j (length (@nil string))) with
      (map (fun i => j + 4 * i) (seq 0 ((0 - j + 3) / 4))).
    replace (0 - j + 3) with 3 by lia.
    reflexivity.
  - cbn [fst]. apply dict_get_set_eq.
Qed.

Lemma description_blank_line_witness :
  exists table,
    DescriptionReader.load_file (fun _ => None)
      {[ "devset_textTermsPerPOI.txt" :=
           os.RegularFile
             (map description_line [(["big"; "ben"], [("clock", "3", "5", "0.6")])]
              ++ [String str.newline EmptyString]) ]}
      "devset_textTermsPerPOI.txt" (Some (PyStr "poi"))
    = Done table
    /\ dict.get table (PyStr EmptyString) = Some [].
Proof.
  apply (description_blank_line (fun _ => None) _ _ _
           [(["big"; "ben"], [("clock", "3", "5", "0.6")])]).
  - apply lookup_singleton_eq.
  - repeat constructor; discriminate.
  - discriminate.
Defined.

(** ** The methods of [GenericReader] *)

Lemma load_plain_first_fails {V} (load_file : string -> option pyval -> outcome V)
    (e : io_exn) (files : list string) (return_val : dict.t pyval V) :
  files <> [] -> (forall file, load_file file None = Fail e) ->
  GenericReader.load_plain load_file files return_val = Fail e.
Proof.
  intros Hne Hfail. destruct files as [|file rest]; [congruence|].
  simpl. now rewrite Hfail.
Qed.

(** X28. A [DescriptionReader] cannot load a folder: [load_folder] calls
    [load_file] with the file alone, and the method of this reader
    requires the index. As soon as the folder holds one regular file whose
    name does not start with a dot, [load_folder] raises [TypeError],
    whatever the files hold. *)
Theorem description_load_folder_fails (int : string -> option Z) (fs : gmap string os.node)
    (folder : string) (names : list string) (file : string) :
  fs !! folder = Some (os.Directory names) ->
  file ∈ names ->
  os.isfile fs (os.child folder file) = true ->
  str.startswith str.dot file = false ->
  description_load_folder int fs folder = Fail (Builtin TypeError).
Proof.
  intros Hfolder Hin Hfile Hdot.
  unfold description_load_folder, GenericReader.load_folder, GenericReader.__get_files__,
    os.listdir.
  rewrite Hfolder. cbn [obind GenericReader.load_files].
  apply load_plain_first_fails; [|reflexivity].
  intros Hnil. apply map_eq_nil in Hnil.
  assert (Hmem : In file (List.filter
                            (fun file => os.isfile fs (os.child folder file)
                                         && negb (str.startswith str.dot file)) names)).
  { apply filter_In. split; [now apply list_elem_of_In|]. now rewrite Hfile, Hdot. }
  rewrite Hnil in Hmem. exact Hmem.
Qed.

Lemma description_load_folder_fails_witness :
  description_load_folder (fun _ => None)
    {[ "desctxt" := os.Directory ["devset_textTermsPerPOI.txt"];
       os.child "desctxt" "devset_textTermsPerPOI.txt" := os.RegularFile [] ]}
    "desctxt"
  = Fail (Builtin TypeError).
Proof.
  apply (description_load_folder_fails _ _ _ ["devset_textTermsPerPOI.txt"]
           "devset_textTermsPerPOI.txt").
  - reflexivity.
  - constructor.
  - reflexivity.
  - reflexivity.
Defined.

Lemma load_folder_not_a_directory {V} (load_file : string -> option pyval -> outcome V)
    (fs : gmap string os.node) (folder : string) :
  (forall entries, fs !! folder <> Some (os.Directory entries)) ->
  exists e, GenericReader.load_folder load_file fs folder = Fail e.
Proof.
  intros H. unfold GenericReader.load_folder, GenericReader.__get_files__, os.listdir.
  destruct (fs !! folder) as [[lines|entries]|] eqn:E.
  - now eexists.
  - now elim (H entries).
  - now eexists.
Qed.

Lemma load_directory_loop_fails {V} (load_file : string -> option pyval -> outcome V)
    (fs : gmap string os.node) (directory : string) (folders : list string)
    (name : string) (return_val : list (dict.t pyval V)) :
  name ∈ folders ->
  (forall entries, fs !! os.child directory name <> Some (os.Directory entries)) ->
  exists e, GenericReader.load_directory_loop load_file fs directory folders return_val
            = Fail e.
Proof.
  intros Hin Hname. revert return_val.
  induction folders as [|folder rest IH]; intros return_val; [now apply elem_of_nil in Hin|].
  cbn [GenericReader.load_directory_loop].
  apply elem_of_cons in Hin as [<-|Hin].
  - destruct (load_folder_not_a_directory load_file fs _ Hname) as [e ->]. now exists e.
  - destruct (GenericReader.load_folder load_file fs (os.child directory folder)) as [out|e].
    + apply (IH Hin).
    + now exists e.
Qed.

(** X29. [load_directory] takes every entry of the directory for a
    folder: with any reader, a directory that lists one entry which is not
    itself a directory (a regular file, a dangling name) makes
    [load_directory] raise; the folders loaded before it are lost. *)
Theorem load_directory_needs_folders {V} (load_file : string -> option pyval -> outcome V)
    (fs : gmap string os.node) (directory : string) (folders : list string)
    (name : string) :
  fs !! directory = Some (os.Directory folders) ->
  name ∈ folders ->
  (forall entries, fs !! os.child directory name <> Some (os.Directory entries)) ->
  exists e, GenericReader.load_directory load_file fs directory = Fail e.
Proof.
  intros Hdir Hin Hname. unfold GenericReader.load_directory, os.listdir.
  rewrite Hdir. cbn [obind]. now apply (load_directory_loop_fails _ _ _ _ name).
Qed.

Lemma load_directory_needs_folders_witness :
  exists e,
    GenericReader.load_directory VisualDescriptionReader.load_file
      {[ "descvis" := os.Directory ["img"; "README"];
         os.child "descvis" "img" := os.Directory [];
         os.child "descvis" "README" := os.RegularFile [] ]}
      "descvis"
    = Fail e.
Proof.
  apply (load_directory_needs_folders _ _ _ ["img"; "README"] "README").
  - reflexivity.
  - repeat constructor.
  - intros entries. vm_compute. discriminate.
Defined.

Lemma zip_take_length {A B} (l : list A) (k : list B) :
  zip l k = zip l (take (length l) k).
Proof.
  revert k. induction l as [|a l IH]; intros [|b k]; simpl; try reflexivity.
  now rewrite <- IH.
Qed.

(** X30. [load_files] pairs the indexes with the files by [zip]: the
    files beyond the number of indexes are dropped without an error, the
    result is the one of the call with the first [len(indexes)] files. *)
Theorem load_files_ignores_unindexed {V} (load_file : string -> option pyval -> outcome V)
    (files : list string) (indexes : list pyval) :
  indexes <> [] ->
  GenericReader.load_files load_file files (Some indexes)
  = GenericReader.load_files load_file (take (length indexes) files) (Some indexes).
Proof.
  intros Hne. destruct indexes as [|index more]; [congruence|].
  unfold GenericReader.load_files. now rewrite <- zip_take_length.
Qed.

Lemma load_files_ignores_unindexed_witness :
  GenericReader.load_files (DescriptionReader.load_file (fun _ => None) ∅)
    ["devset_textTermsPerImage.txt"; "devset_textTermsPerUser.txt"] (Some [PyStr "photos"])
  = GenericReader.load_files (DescriptionReader.load_file (fun _ => None) ∅)
      (take (length [PyStr "photos"])
            ["devset_textTermsPerImage.txt"; "devset_textTermsPerUser.txt"])
      (Some [PyStr "photos"]).
Proof.
  apply load_files_ignores_unindexed. discriminate.
Defined.
